(** * OpenLautrec: the document interchange layer of [main.py]

    A shallow embedding of the load/save code of the editor: the [.olc]
    container ([save_as_olc], [load_olc]), the word-processor export and
    import ([save_as_docx], [add_hyperlink], [load_docx]), the office-suite
    export and import ([save_as_odt], [load_odt]) and the two dispatchers
    ([open_file], [save_to_file]).

    The editor keeps its document in a [QTextEdit]; Qt, python-docx, odfpy,
    pickle and gzip are libraries the program calls.  Each library is an
    interface (a type class) whose operations the embedding calls where the
    source calls them; the Python code between the calls is written out.

    Besides the document layer, the development covers the commands around
    it ([save_file], [save_file_as], [maybe_save], the open command), the
    timer dialog ([TimerDialog]), the exam password of [Settings] and the
    address [open_hyperlink] opens. *)

From Stdlib Require Import ZArith QArith Qround List String Ascii Bool Lia.
From Stdlib.Strings Require Import Byte.
From Stdlib Require DecimalString.
From stdpp Require Import base option list gmap strings.
Import ListNotations.

#[local] Set Warnings "-register-all".

Local Open Scope string_scope.
Local Open Scope Z_scope.
Local Open Scope list_scope.

(** ** Python values and exceptions *)

(** [bytes] objects. *)
Abbreviation bytes := (list byte).

#[global] Instance byte_eq_dec : EqDecision byte := Byte.byte_eq_dec.

(** The exceptions the code raises itself, and those the libraries raise.
    [load_olc] separates [ValueError] from every other [Exception]. *)
Inductive exn : Type :=
| BadMagic (found : bytes)                (* ValueError, main.py:4033 *)
| ShortPayload (got : nat) (declared : Z) (* ValueError, main.py:4056 *)
| LibValueError (msg : string)            (* a ValueError raised by a library *)
| StructError                             (* struct.error *)
| AttributeError
| TypeError
| OSError (msg : string)
| LibError (msg : string)                 (* any other Exception subclass *)
| OverflowError                           (* a size above [sys.maxsize] *)
| MemoryError.

Definition is_ValueError (e : exn) : bool :=
  match e with
  | BadMagic _ | ShortPayload _ _ | LibValueError _ => true
  | _ => false
  end.

Inductive result (A : Type) : Type :=
| Ok (a : A)
| Raise (e : exn).
Arguments Ok {A} a.
Arguments Raise {A} e.

(** Code that mutates a state [S] and may raise: a raise keeps the state
    reached so far, as a Python exception does. *)
Definition M (S A : Type) : Type := S -> result A * S.

Definition ret {S A} (a : A) : M S A := fun s => (Ok a, s).
Definition raise {S A} (e : exn) : M S A := fun s => (Raise e, s).
Definition bind {S A B} (m : M S A) (k : A -> M S B) : M S B :=
  fun s => match m s with
           | (Ok a, s') => k a s'
           | (Raise e, s') => (Raise e, s')
           end.
Definition get {S} : M S S := fun s => (Ok s, s).
Definition modify {S} (f : S -> S) : M S unit := fun s => (Ok tt, f s).
Definition lift {S A} (r : result A) : M S A := fun s => (r, s).

Notation "x <- c ;; k" := (bind c (fun x => k))
  (at level 100, c at next level, right associativity).
Notation "c ;;; k" := (bind c (fun _ => k))
  (at level 100, right associativity).

(** [for x in xs: body x] *)
Fixpoint for_each {S A} (xs : list A) (body : A -> M S unit) : M S unit :=
  match xs with
  | [] => ret tt
  | x :: xs' => body x ;;; for_each xs' body
  end.

(** [for x in xs: a = f(a, x)] in code that may raise: the first
    exception ends the loop. *)
Fixpoint fold_result {A B} (f : A -> B -> result A) (xs : list B) (a : A) : result A :=
  match xs with
  | [] => Ok a
  | x :: xs' =>
      match f a x with
      | Ok a' => fold_result f xs' a'
      | Raise e => Raise e
      end
  end.

(** [try: body  except Exception as e: handler e] *)
Definition try_except {S} (body : M S unit) (handler : exn -> S -> S) : S -> S :=
  fun s => match body s with
           | (Ok _, s') => s'
           | (Raise e, s') => handler e s'
           end.

(** ** [struct] and binary files *)

Definition byte_of_Z (z : Z) : byte :=
  match Byte.of_N (Z.to_N (z mod 256)) with
  | Some b => b
  | None => x00
  end.

Definition Z_of_byte (b : byte) : Z := Z.of_N (Byte.to_N b).

(** Little-endian digits, lowest byte first. *)
Fixpoint le_bytes (n : nat) (z : Z) : bytes :=
  match n with
  | O => []
  | S n' => byte_of_Z z :: le_bytes n' (Z.shiftr z 8)
  end.

Fixpoint le_value (bs : bytes) : Z :=
  match bs with
  | [] => 0
  | b :: bs' => Z.lor (Z_of_byte b) (Z.shiftl (le_value bs') 8)
  end.

(** The formats ['f'] and ['Q'] have no byte-order prefix: [struct] uses
    the byte order of the machine. *)
Inductive endianness : Type := Little | Big.

Class Platform : Type := {
  byteorder : endianness;
  (** [sys.maxsize], the largest size of an object *)
  maxsize : Z;
  (** the largest [bytes] object the interpreter can allocate when a read
      asks for it; a few bytes can always be had *)
  memory : Z;
  memory_range : 8 <= memory <= maxsize
}.

Section Struct.
Context `{Platform}.

Definition native_bytes (n : nat) (z : Z) : bytes :=
  match byteorder with
  | Little => le_bytes n z
  | Big => rev (le_bytes n z)
  end.

Definition native_value (bs : bytes) : Z :=
  match byteorder with
  | Little => le_value bs
  | Big => le_value (rev bs)
  end.

(** [struct.pack('Q', n)]: 8 bytes, [struct.error] out of range. *)
Definition pack_Q (n : Z) : result bytes :=
  if (0 <=? n) && (n <? 2 ^ 64) then Ok (native_bytes 8 n) else Raise StructError.

(** [struct.unpack('Q', b)[0]]: [struct.error] unless [b] has 8 bytes. *)
Definition unpack_Q (b : bytes) : result Z :=
  if Nat.eqb (length b) 8 then Ok (native_value b) else Raise StructError.

(** [struct.pack('f', x)] on the bit pattern of the single-precision [x]. *)
Definition pack_f (bits : Z) : bytes := native_bytes 4 bits.

(** [struct.unpack('f', b)[0]], as the bit pattern read. *)
Definition unpack_f (b : bytes) : result Z :=
  if Nat.eqb (length b) 4 then Ok (native_value b) else Raise StructError.
End Struct.

(** A single-precision number, decoded exactly: Python widens it to a
    double without rounding, so comparisons are those of the exact value. *)
Inductive pyfloat : Type :=
| FNaN
| FInf (negative : bool)
| FFin (q : Q).

Definition f32_value (bits : Z) : pyfloat :=
  let sign := Z.testbit bits 31 in
  let e := Z.land (Z.shiftr bits 23) 255 in
  let frac := Z.land bits (2 ^ 23 - 1) in
  if e =? 255 then (if frac =? 0 then FInf sign else FNaN)
  else
    let m := if e =? 0 then frac else frac + 2 ^ 23 in
    let ex := (if e =? 0 then 1 else e) - 150 in
    FFin (Qred (inject_Z (if sign then - m else m) * Qpower 2 ex)).

(** [x > y] for a float [x] and a finite [y]. *)
Definition float_gt (x : pyfloat) (y : Q) : bool :=
  match x with
  | FNaN => false
  | FInf negative => negb negative
  | FFin q => negb (Qle_bool q y)
  end.

(** The bit pattern of [1.0]. *)
Definition f32_one : Z := 0x3F800000.
(** The bit pattern of [2.0]. *)
Definition f32_two : Z := 0x40000000.

Definition magic_OLC : bytes := [x4f; x4c; x43; x21].

(** ** Python objects that travel through [pickle] *)

(** The objects a snapshot is made of; a dictionary has string keys, and
    [PyOther] stands for an object of any other class. *)
Inductive pyval : Type :=
| PyNone
| PyInt (z : Z)
| PyStr (s : string)
| PyBytes (b : bytes)
| PyDict (d : list (string * pyval))
| PyOther.

(** A [dict] keeps insertion order; assigning to a key that is present
    replaces the value in place. *)
Fixpoint dict_set {V} (k : string) (v : V) (d : list (string * V)) : list (string * V) :=
  match d with
  | [] => [(k, v)]
  | (k', v') :: d' =>
      if String.eqb k k' then (k, v) :: d' else (k', v') :: dict_set k v d'
  end.

Fixpoint dict_lookup {V} (k : string) (d : list (string * V)) : option V :=
  match d with
  | [] => None
  | (k', v) :: d' => if String.eqb k k' then Some v else dict_lookup k d'
  end.

Definition dict_keys {V} (d : list (string * V)) : list string := map fst d.

(** [o.get(key, default)]: only a [dict] has the method. *)
Definition py_get (o : pyval) (key : string) (default : pyval) : result pyval :=
  match o with
  | PyDict d => Ok (match dict_lookup key d with Some v => v | None => default end)
  | _ => Raise AttributeError
  end.

(** [o.items()] *)
Definition py_items (o : pyval) : result (list (string * pyval)) :=
  match o with
  | PyDict d => Ok d
  | _ => Raise AttributeError
  end.

(** [len(o)] *)
Definition py_len (o : pyval) : result nat :=
  match o with
  | PyStr s => Ok (String.length s)
  | PyBytes b => Ok (length b)
  | PyDict d => Ok (length d)
  | _ => Raise TypeError
  end.

Fixpoint string_take (n : nat) (s : string) : string :=
  match n, s with
  | S n', String c s' => String c (string_take n' s')
  | _, _ => EmptyString
  end.

(** [o[:10]] *)
Definition py_slice10 (o : pyval) : result pyval :=
  match o with
  | PyStr s => Ok (PyStr (string_take 10 s))
  | PyBytes b => Ok (PyBytes (take 10 b))
  | _ => Raise TypeError
  end.

(** ** The Qt text document *)

Record QColor : Type := { red : Z; green : Z; blue : Z }.

(** [Qt.AlignmentFlag] values. *)
Definition AlignLeft : Z := 0x0001.
Definition AlignRight : Z := 0x0002.
Definition AlignHCenter : Z := 0x0004.
Definition AlignJustify : Z := 0x0008.
Definition AlignVCenter : Z := 0x0080.
Definition AlignCenter : Z := Z.lor AlignVCenter AlignHCenter.

(** [QFont.Weight] *)
Definition QFont_Medium : Z := 57.
Definition QFont_Bold : Z := 75.

Record QTextImageFormat : Type :=
  { img_name : string; img_width : Q; img_height : Q }.

(** A character format holds the properties that were set on it; a
    property never set is [None] and reads as Qt's default.  The program
    sets the size of a font in points only; a size in pixels comes with
    markup and pasted text ([font-size:16px]), and [fontPixelSize] holds it
    when it is the size the font of the format takes. *)
Record QTextCharFormat : Type := {
  fontFamily : option string;
  fontPointSize : option Q;
  fontPixelSize : option Z;
  fontWeight : option Z;
  fontItalic : option bool;
  fontUnderline : option bool;
  foreground : option QColor;
  background : option QColor;
  isAnchor : bool;
  anchorHref : string;
  imageFormat : option QTextImageFormat   (* [isImageFormat()] when present *)
}.

(** [QTextCharFormat()] *)
Definition QTextCharFormat_new : QTextCharFormat :=
  {| fontFamily := None; fontPointSize := None; fontPixelSize := None;
     fontWeight := None;
     fontItalic := None; fontUnderline := None; foreground := None;
     background := None; isAnchor := false; anchorHref := "";
     imageFormat := None |}.

Definition isImageFormat (cf : QTextCharFormat) : bool :=
  match imageFormat cf with Some _ => true | None => false end.

Record QTextFragment : Type :=
  { frag_text : string; charFormat : QTextCharFormat }.

(** A block; [block_alignment = 0] when no alignment was set.  The block's
    character format is the one text typed into the empty block takes. *)
Record QTextBlock : Type := {
  block_alignment : Z;
  block_charFormat : QTextCharFormat;
  fragments : list QTextFragment
}.

(** [blockFormat().alignment()] reads an unset alignment as left. *)
Definition alignment (b : QTextBlock) : Z :=
  if block_alignment b =? 0 then AlignLeft else block_alignment b.

Record QFont : Type := {
  family : string; pointSize : Z; bold : bool; italic : bool; underline : bool
}.

(** What the program uses of Qt: images, the HTML exporter and importer of
    [QTextDocument], and the application's default font. *)
Class Qt : Type := {
  QImage : Type;
  isNull : QImage -> bool;
  (** [image.save(buffer, "PNG")], the buffer's bytes *)
  save_PNG : QImage -> bytes;
  (** [image = QImage(); image.loadFromData(b)] *)
  loadFromData : bytes -> QImage;
  (** [document().toHtml()] *)
  toHtml : list QTextBlock -> string;
  (** the blocks [setHtml(s)] builds *)
  fromHtml : string -> list QTextBlock;
  (** [toPlainText()] *)
  toPlainText : list QTextBlock -> string;
  (** [QFont()] *)
  app_font : QFont
}.

(** What the program uses of the Python library besides [struct]. *)
Class PyLib : Type := {
  pickle_dumps : pyval -> bytes;
  pickle_loads : bytes -> result pyval;
  gzip_compress : bytes -> bytes;
  gzip_decompress : bytes -> result bytes;
  (** [len(s.split())] *)
  split_count : string -> Z;
  (** [datetime.now().isoformat()] at the n-th reading of the clock *)
  isoformat_now : nat -> string
}.

(** ** The application and its surroundings *)

Inductive warning_body : Type :=
| MissingDocx             (* "Le module python-docx n'est pas installé..." *)
| MissingOdf              (* "Le module odfpy n'est ... pas installé..." *)
| NewerVersion (bits : Z) (* "Ce fichier .olc utilise la version ..." *).

(** The modal message boxes shown to the user. *)
Inductive dialog : Type :=
| Warning (title : string) (body : warning_body)
| Critical (title : string) (text : string) (e : exn).

(** Status-bar messages, with the values formatted into them. *)
Inductive status_msg : Type :=
| OlcSaved (filename : string) (file_size : Z)
| OlcLoaded (file_size : Z) (created : pyval) (word_count : pyval) (n_images : nat)
| DocxSaved (filename : string)
| DocxOpened (filename : string)
| OdtSaved (filename : string)
| OdtOpened (filename : string)
| HtmlSaved (filename : string)
| FileSaved (filename : string)
| FileOpened (filename : string).

(** Operations on files, in the order performed. *)
Inductive io_event : Type :=
| OpenRead (path : string)
| Read (path : string) (n : Z)
| OpenWrite (path : string)
| Write (path : string) (data : bytes)
| GetSize (path : string).

Section Editor.
Context `{Platform} `{Qt} `{PyLib}.

(** [self.text_edit.document()]: the blocks and the resource store. *)
Record QTextDocument : Type := {
  blocks : list QTextBlock;
  resources : gmap string QImage
}.

(** The window: the fields of [self] the load and save code touches. *)
Record OpenLautrec : Type := {
  text_edit : QTextDocument;
  current_file : option string;
  is_modified : bool;
  window_title : string;
  status : list status_msg;      (* [statusBar().showMessage], oldest first *)
  dialogs : list dialog          (* message boxes, oldest first *)
}.

Record World : Type := {
  window : OpenLautrec;
  fs : gmap string bytes;        (* the files on disk *)
  io_log : list io_event;
  ticks : nat                    (* readings of the clock so far *)
}.

Definition set_app (f : OpenLautrec -> OpenLautrec) (w : World) : World :=
  {| window := f (window w); fs := fs w; io_log := io_log w; ticks := ticks w |}.

Definition set_text_edit (f : QTextDocument -> QTextDocument) : World -> World :=
  set_app (fun a =>
    {| text_edit := f (text_edit a); current_file := current_file a;
       is_modified := is_modified a; window_title := window_title a;
       status := status a; dialogs := dialogs a |}).

Definition showMessage (m : status_msg) : M World unit :=
  modify (set_app (fun a =>
    {| text_edit := text_edit a; current_file := current_file a;
       is_modified := is_modified a; window_title := window_title a;
       status := status a ++ [m]; dialogs := dialogs a |})).

Definition show_dialog (d : dialog) (w : World) : World :=
  set_app (fun a =>
    {| text_edit := text_edit a; current_file := current_file a;
       is_modified := is_modified a; window_title := window_title a;
       status := status a; dialogs := dialogs a ++ [d] |}) w.

Definition QMessageBox_warning (title : string) (body : warning_body) : M World unit :=
  modify (show_dialog (Warning title body)).

Definition QMessageBox_critical (title text : string) (e : exn) : World -> World :=
  show_dialog (Critical title text e).

Definition log_io (ev : io_event) : M World unit :=
  modify (fun w =>
    {| window := window w; fs := fs w; io_log := io_log w ++ [ev]; ticks := ticks w |}).

(** [open(path, 'rb')]: the content to read. *)
Definition open_rb (path : string) : M World bytes :=
  w <- get ;;
  match fs w !! path with
  | Some content => log_io (OpenRead path) ;;; ret content
  | None => raise (OSError "No such file or directory")
  end.

(** [f.read(n)] on the bytes [rest] not yet consumed: at most [n] bytes,
    fewer at the end of the file.  Returns the bytes read and those left.
    The buffer of [n] bytes is allocated before the file is read: a size
    above [sys.maxsize] raises [OverflowError], one the interpreter cannot
    allocate raises [MemoryError].  The files of the model fit in memory:
    a request for bytes the file has is served. *)
Definition f_read (path : string) (n : Z) (rest : bytes) : M World (bytes * bytes) :=
  if (Z.of_nat (length rest) <? n) && (maxsize <? n) then raise OverflowError
  else if (Z.of_nat (length rest) <? n) && (memory <? n) then raise MemoryError
  else
    log_io (Read path n) ;;;
    ret (take (Z.to_nat n) rest, drop (Z.to_nat n) rest).

(** [f.read()], and a library that reads the file it is given: all of
    [rest]. *)
Definition f_read_all (path : string) (rest : bytes) : M World bytes :=
  log_io (Read path (Z.of_nat (length rest))) ;;;
  ret rest.

(** [open(path, 'wb')] truncates the file. *)
Definition open_wb (path : string) : M World unit :=
  log_io (OpenWrite path) ;;;
  modify (fun w =>
    {| window := window w; fs := <[path := []]> (fs w); io_log := io_log w; ticks := ticks w |}).

Definition f_write (path : string) (data : bytes) : M World unit :=
  log_io (Write path data) ;;;
  modify (fun w =>
    {| window := window w;
       fs := <[path := default [] (fs w !! path) ++ data]> (fs w);
       io_log := io_log w; ticks := ticks w |}).

(** [os.path.getsize(path)] *)
Definition getsize (path : string) : M World Z :=
  w <- get ;;
  match fs w !! path with
  | Some content => log_io (GetSize path) ;;; ret (Z.of_nat (length content))
  | None => raise (OSError "No such file or directory")
  end.

(** [datetime.now().isoformat()] *)
Definition datetime_now : M World string :=
  w <- get ;;
  modify (fun w =>
    {| window := window w; fs := fs w; io_log := io_log w; ticks := S (ticks w) |}) ;;;
  ret (isoformat_now (ticks w)).

(** [doc.resource(QTextDocument.ImageResource, QUrl(name))] *)
Definition resource (doc : QTextDocument) (name : string) : option QImage :=
  resources doc !! name.

(** [doc.addResource(QTextDocument.ImageResource, QUrl(name), image)] *)
Definition addResource (name : string) (image : QImage) (doc : QTextDocument) : QTextDocument :=
  {| blocks := blocks doc; resources := <[name := image]> (resources doc) |}.

(** [self.text_edit.setHtml(html)] replaces the blocks.  For a markup
    that is not empty the resources that were added are kept; for the
    empty string the editor clears its document, and the resources with
    it. *)
Definition setHtml (html : string) (doc : QTextDocument) : QTextDocument :=
  {| blocks := fromHtml html;
     resources := if String.eqb html "" then ∅ else resources doc |}.

(** ** The [.olc] container *)

(** The fragments the nested loops of [save_as_olc] visit, in order. *)
Definition all_fragments (doc : QTextDocument) : list QTextFragment :=
  concat (map fragments (blocks doc)).

(** main.py:3959-3982: the [images] dictionary. *)
Definition collect_images (doc : QTextDocument) : list (string * bytes) :=
  fold_left
    (fun images fragment =>
       match imageFormat (charFormat fragment) with
       | Some image_format =>
           let image_name := img_name image_format in
           match resource doc image_name with
           | Some image =>
               if negb (isNull image)
               then dict_set image_name (save_PNG image) images
               else images
           | None => images
           end
       | None => images
       end)
    (all_fragments doc) [].

(** main.py:3984-3996 *)
Definition olc_data (doc : QTextDocument) (created modified : string) : pyval :=
  let plain_text := toPlainText (blocks doc) in
  PyDict
    [ ("version", PyStr "1.3.9");
      ("application", PyStr "OpenLautrec");
      ("created", PyStr created);
      ("modified", PyStr modified);
      ("html_content", PyStr (toHtml (blocks doc)));
      ("plain_text", PyStr plain_text);
      ("images", PyDict (map (fun kv => (fst kv, PyBytes (snd kv))) (collect_images doc)));
      ("metadata",
        PyDict [ ("word_count", PyInt (split_count plain_text));
                 ("char_count", PyInt (Z.of_nat (String.length plain_text))) ]) ].

Definition save_as_olc_body (filename : string) : M World unit :=
  w <- get ;;
  let doc := text_edit (window w) in
  created <- datetime_now ;;
  modified <- datetime_now ;;
  let serialized_data := pickle_dumps (olc_data doc created modified) in
  let compressed_data := gzip_compress serialized_data in
  open_wb filename ;;;
  f_write filename magic_OLC ;;;
  f_write filename (pack_f f32_one) ;;;
  size_bytes <- lift (pack_Q (Z.of_nat (length compressed_data))) ;;
  f_write filename size_bytes ;;;
  f_write filename compressed_data ;;;
  file_size <- getsize filename ;;
  showMessage (OlcSaved filename file_size).

Definition save_as_olc (filename : string) : World -> World :=
  try_except (save_as_olc_body filename)
    (fun e => QMessageBox_critical "Erreur" "Impossible d'enregistrer en .olc:" e).

(** main.py:4030-4059, the [with] block: the compressed payload. *)
Definition read_olc (filename : string) : M World bytes :=
  f <- open_rb filename ;;
  r <- f_read filename 4 f ;;
  let '(magic, f) := r in
  if negb (bool_decide (magic = magic_OLC)) then raise (BadMagic magic)
  else
    r <- f_read filename 4 f ;;
    let '(version_bytes, f) := r in
    version <- lift (unpack_f version_bytes) ;;
    (if float_gt (f32_value version) 1
     then QMessageBox_warning "Version récente" (NewerVersion version)
     else ret tt) ;;;
    r <- f_read filename 8 f ;;
    let '(size_bytes, f) := r in
    data_size <- lift (unpack_Q size_bytes) ;;
    r <- f_read filename data_size f ;;
    let '(compressed_data, f) := r in
    if negb (Z.of_nat (length compressed_data) =? data_size)
    then raise (ShortPayload (length compressed_data) data_size)
    else ret compressed_data.

(** [image.loadFromData(image_bytes)] takes a [bytes] object. *)
Definition load_image (image_bytes : pyval) : result QImage :=
  match image_bytes with
  | PyBytes b => Ok (loadFromData b)
  | _ => Raise TypeError
  end.

Definition load_olc_body (filename : string) : M World unit :=
  compressed_data <- read_olc filename ;;
  serialized_data <- lift (gzip_decompress compressed_data) ;;
  olc_data <- lift (pickle_loads serialized_data) ;;
  images <- lift (py_get olc_data "images" (PyDict [])) ;;
  items <- lift (py_items images) ;;
  for_each items (fun item =>
    image <- lift (load_image (snd item)) ;;
    modify (set_text_edit (addResource (fst item) image))) ;;;
  html_content <- lift (py_get olc_data "html_content" (PyStr "")) ;;
  match html_content with
  | PyStr html => modify (set_text_edit (setHtml html))
  | PyNone => modify (set_text_edit (setHtml ""))    (* [None] is the null string *)
  | _ => raise TypeError
  end ;;;
  metadata <- lift (py_get olc_data "metadata" (PyDict [])) ;;
  created <- lift (py_get olc_data "created" (PyStr "Date inconnue")) ;;
  file_size <- getsize filename ;;
  created10 <- lift (py_slice10 created) ;;
  word_count <- lift (py_get metadata "word_count" (PyInt 0)) ;;
  n_images <- lift (py_len images) ;;
  showMessage (OlcLoaded file_size created10 word_count n_images).

Definition load_olc (filename : string) : World -> World :=
  try_except (load_olc_body filename)
    (fun e =>
       if is_ValueError e
       then QMessageBox_critical "Fichier invalide" "" e
       else QMessageBox_critical "Erreur" "Impossible de charger le fichier .olc:" e).

(** *** Vocabulary for statements about containers *)

(** The message box of main.py:4041-4048, when the version calls for it. *)
Definition version_warning (version : Z) : list dialog :=
  if float_gt (f32_value version) 1
  then [Warning "Version récente" (NewerVersion version)]
  else [].

Definition show_dialogs (ds : list dialog) (w : World) : World :=
  fold_left (fun w d => show_dialog d w) ds w.

(** The world once the [with] block of [load_olc] has read the header
    and asked for [data_size] bytes of payload. *)
Definition after_header (filename : string) (version data_size : Z) (w : World) : World :=
  show_dialogs (version_warning version)
    {| window := window w;
       fs := fs w;
       io_log := io_log w ++ [OpenRead filename; Read filename 4; Read filename 4;
                              Read filename 8; Read filename data_size];
       ticks := ticks w |}.

(** The resource store after the loop of main.py:4068-4072. *)
Definition add_images (items : list (string * bytes)) (doc : QTextDocument) : QTextDocument :=
  fold_left (fun d item => addResource (fst item) (loadFromData (snd item)) d) items doc.

Definition py_images (items : list (string * bytes)) : pyval :=
  PyDict (map (fun kv => (fst kv, PyBytes (snd kv))) items).

(** A snapshot with the entries [load_olc] reads, each of the type
    [save_as_olc] writes; other entries are free. *)
Definition well_formed_snapshot (snapshot : pyval)
    (items : list (string * bytes)) (html created : string) (word_count : pyval) : Prop :=
  exists d metadata,
    snapshot = PyDict d
    /\ dict_lookup "images" d = Some (py_images items)
    /\ dict_lookup "html_content" d = Some (PyStr html)
    /\ dict_lookup "metadata" d = Some (PyDict metadata)
    /\ dict_lookup "word_count" metadata = Some word_count
    /\ dict_lookup "created" d = Some (PyStr created).

(** An image identifier is referenced by the document when some fragment
    is an image run of that name. *)
Definition referenced (doc : QTextDocument) (name : string) : Prop :=
  exists fragment image_format,
    In fragment (all_fragments doc)
    /\ imageFormat (charFormat fragment) = Some image_format
    /\ img_name image_format = name.

(** ... and resolved when the resource store holds a non-null image
    under that name. *)
Definition resolved (doc : QTextDocument) (name : string) : Prop :=
  exists image, resource doc name = Some image /\ isNull image = false.

(** [w1] differs from [w] by message boxes shown and files touched: the
    document and the status bar are the same. *)
Definition document_kept (w w1 : World) : Prop :=
  text_edit (window w1) = text_edit (window w)
  /\ status (window w1) = status (window w)
  /\ exists ds, dialogs (window w1) = dialogs (window w) ++ ds.

(** A computation that keeps the document, however it ends. *)
Definition keeps_document {A} (m : M World A) : Prop :=
  forall w r w1, m w = (r, w1) -> document_kept w w1.

End Editor.

(** ** The word-processor and office-suite libraries *)

(** The module-level flags set by the guarded imports (main.py:76-91). *)
Class Modules : Type := { DOCX_AVAILABLE : bool; ODT_AVAILABLE : bool }.

(** [WD_ALIGN_PARAGRAPH] values. *)
Definition WD_LEFT : Z := 0.
Definition WD_CENTER : Z := 1.
Definition WD_RIGHT : Z := 2.
Definition WD_JUSTIFY : Z := 3.

(** [int(x)] truncates towards zero. *)
Definition Qtruncate (x : Q) : Z := if Qle_bool 0 x then Qfloor x else Qceiling x.

(** [Pt(n)]: a length in English Metric Units. *)
Definition Pt (n : Z) : Z := n * 12700.

(** [run.font.size = size]: python-docx writes the size as an unsigned
    long and raises [ValueError] for a length outside 0 .. 2^64 - 1. *)
Definition font_size_accepted (size : Z) : bool := (0 <=? size) && (size <=? 2 ^ 64 - 1).

Definition size_refused : exn :=
  LibValueError "value must be in range 0 to 18446744073709551615 inclusive".

(** The XML library refuses a text or an attribute value with a NULL byte
    or a control character. *)
Definition xml_refused : exn :=
  LibValueError "All strings must be XML compatible".

Record Picture : Type := { pic_stream : bytes; pic_width : Z; pic_height : Z }.

(** A run of a python-docx paragraph, with the properties assigned to it. *)
Record Run : Type := {
  run_text : string;
  run_font_name : option string;
  run_font_size : option Z;
  run_bold : option bool;
  run_italic : option bool;
  run_underline : option bool;
  run_font_color_rgb : option QColor;
  run_picture : option Picture
}.

(** [paragraph.add_run(text)] *)
Definition add_run (text : string) : Run :=
  {| run_text := text; run_font_name := None; run_font_size := None;
     run_bold := None; run_italic := None; run_underline := None;
     run_font_color_rgb := None; run_picture := None |}.

(** The children of a paragraph element: runs, and the [w:hyperlink]
    elements [add_hyperlink] appends, each holding one run with a colour,
    an underline and a text. *)
Inductive paragraph_child : Type :=
| W_r (r : Run)
| W_hyperlink (r_id : nat) (w_color : string) (w_u : string) (w_t : string).

Record Paragraph : Type := {
  paragraph_alignment : Z;
  paragraph_children : list paragraph_child
}.

(** A python-docx document under construction: the paragraphs and the
    external relationships of its part, by target. *)
Record DocxDocument : Type := {
  docx_paragraphs : list Paragraph;
  docx_relationships : list string
}.

(** The text a reader sees in a paragraph: the text of its runs and of the
    runs inside its hyperlinks, in order. *)
Definition child_text (c : paragraph_child) : string :=
  match c with
  | W_r r => run_text r
  | W_hyperlink _ _ _ t => t
  end.

Definition visible_text (children : list paragraph_child) : string :=
  fold_right String.append "" (map child_text children).

(** What python-docx exposes of a document read from disk; a property
    whose XML value the library cannot convert raises when it is read. *)
Record DocxRunIn : Type := {
  in_font_name : result (option string);
  in_font_size_pt : result (option Q);
  in_bold : result (option bool);
  in_italic : result (option bool);
  in_underline : result (option bool);
  in_color_rgb : result (option QColor);   (* [run.font.color.rgb] *)
  in_highlight_color : result (option Z);
  in_text : result string
}.

Record DocxParagraphIn : Type := {
  in_alignment : result (option Z);
  in_runs : list DocxRunIn
}.

Class Docx : Type := {
  (** [Document(filename)] on the bytes of the file *)
  docx_open : bytes -> result (list DocxParagraphIn);
  (** [doc.save(filename)] once the file is open: the bytes the file holds
      afterwards, and the exception raised when the package could not be
      written to its end *)
  docx_save : DocxDocument -> bytes * option exn;
  (** [run.add_picture(stream, width, height)] *)
  add_picture : bytes -> Z -> Z -> result Picture;
  (** whether the XML library takes the string as a text or as an
      attribute value *)
  xml_compatible : string -> bool
}.

(** odfpy text properties, by attribute. *)
Record TextProperties : Type := {
  tp_color : option string;
  tp_textunderlinestyle : option string;
  tp_textunderlinecolor : option string;
  tp_fontsize : option Z;            (* [f"{n}pt"] *)
  tp_fontfamily : option string;
  tp_fontweight : option string;
  tp_fontstyle : option string
}.

Definition TextProperties_new : TextProperties :=
  {| tp_color := None; tp_textunderlinestyle := None; tp_textunderlinecolor := None;
     tp_fontsize := None; tp_fontfamily := None; tp_fontweight := None;
     tp_fontstyle := None |}.

(** [f"link_{id(fragment)}"] and [f"style_{id(fragment)}"] *)
Inductive style_name : Type :=
| link_ (id : Z)
| style_ (id : Z).

Record Style : Type := {
  st_name : style_name; st_family : string; st_text_properties : TextProperties
}.

(** The children the export adds to a paragraph; a picture is named by its
    number [n] in [f"Pictures/image_{n}.png"], a frame size is in inches. *)
Inductive odf_inline : Type :=
| Frame (width height : Q) (anchortype : string) (image_href : nat)
| Span (stylename : style_name) (text : string)
| A (type href : string) (span_stylename : style_name) (span_text : string).

Record OpenDocumentText : Type := {
  odt_pictures : list (nat * bytes);
  odt_automaticstyles : list Style;
  odt_text : list (list odf_inline)
}.

(** An odfpy node of a document read from disk. *)
Inductive odf_node : Type :=
| OdfText (data : string)
| OdfElement (qname : string * string) (attributes : list (string * string))
    (childNodes : list odf_node).

Record OdfDocumentIn : Type := {
  in_paragraphs : list odf_node;        (* [doc.getElementsByType(P)] *)
  in_headings : list odf_node;          (* [doc.getElementsByType(H)] *)
  in_automaticstyles : list odf_node;   (* [doc.automaticstyles.childNodes] *)
  in_styles : list odf_node             (* [doc.styles.childNodes] *)
}.

Class Odf : Type := {
  (** [odf.opendocument.load(filename)] on the bytes of the file *)
  odf_load : bytes -> result OdfDocumentIn;
  (** the bytes [doc.save(filename)] writes *)
  odf_save : OpenDocumentText -> bytes;
  (** [teletype.extractText(node)] *)
  extractText : odf_node -> string;
  (** whether the grammar of the library lets an element of this name carry
      the attribute: [style:style] has a [name], [style:default-style] has
      none *)
  allowed_attribute : string * string -> string -> bool
}.

(** What the importers and the dispatchers use besides. *)
Class Runtime : Type := {
  (** [id(fragment)] of the n-th fragment object an export loop creates *)
  object_id : nat -> Z;
  (** [float(s)], [None] for a [ValueError] *)
  py_float : string -> option Q;
  (** [QColor(s)] when [isValid()] *)
  QColor_of_name : string -> option QColor;
  (** [os.path.basename] *)
  basename : string -> string;
  (** the bytes a text-mode file opened with [encoding='utf-8'] receives *)
  encode_utf8 : string -> result bytes;
  (** the text read from a text-mode file opened with [encoding='utf-8'] *)
  decode_utf8 : bytes -> result string;
  (** the double nearest to a real number within the range of the doubles:
      what a floating-point operation returns for its exact result *)
  binary64 : Q -> Q;
  binary64_le : forall x y : Q, (x <= y)%Q -> (binary64 x <= binary64 y)%Q;
  binary64_integer :
    forall z : Z, Z.abs z <= 2 ^ 53 -> (binary64 (inject_Z z) == inject_Z z)%Q
}.

(** [s.endswith(suffix)] *)
Definition endswith (s suffix : string) : bool :=
  let n := String.length s in
  let m := String.length suffix in
  (m <=? n)%nat && String.eqb (substring (n - m) m s) suffix.

(** [f"{n:02x}"] for a colour component *)
Definition hex_digit (n : Z) : string :=
  match n with
  | 0 => "0" | 1 => "1" | 2 => "2" | 3 => "3" | 4 => "4" | 5 => "5" | 6 => "6"
  | 7 => "7" | 8 => "8" | 9 => "9" | 10 => "a" | 11 => "b" | 12 => "c"
  | 13 => "d" | 14 => "e" | _ => "f"
  end.

Definition hex2 (n : Z) : string := String.append (hex_digit (n / 16)) (hex_digit (n mod 16)).

(** [f"#{color.red():02x}{color.green():02x}{color.blue():02x}"] *)
Definition color_hex (color : QColor) : string :=
  String.append "#" (String.append (hex2 (red color))
    (String.append (hex2 (green color)) (hex2 (blue color)))).

(** [qRound] *)
Definition qRound (x : Q) : Z := Qfloor (x + (1 # 2)).

Section Exporters.
Context `{Platform} `{Qt} `{PyLib} `{Modules} `{Docx} `{Odf} `{Runtime}.

(** [char_format.font()]: the properties set on the format, on top of the
    application font.  [QFont] refuses a size that is not positive and
    keeps the one it had; a font sized in pixels has the point size -1. *)
Definition font (char_format : QTextCharFormat) : QFont :=
  let point_size :=
    match fontPointSize char_format with
    | Some size => if Qle_bool size 0 then pointSize app_font else qRound size
    | None => pointSize app_font
    end in
  {| family := default (family app_font) (fontFamily char_format);
     pointSize := match fontPixelSize char_format with
                  | Some pixels => if 0 <? pixels then -1 else point_size
                  | None => point_size
                  end;
     bold := match fontWeight char_format with
             | Some weight => QFont_Medium <? weight
             | None => bold app_font
             end;
     italic := default (italic app_font) (fontItalic char_format);
     underline := default (underline app_font) (fontUnderline char_format) |}.

(** [char_format.foreground().color()]: black when no brush was set. *)
Definition foreground_color (char_format : QTextCharFormat) : QColor :=
  default {| red := 0; green := 0; blue := 0 |} (foreground char_format).

(** [char_format.isAnchor() or char_format.anchorHref()] *)
Definition is_link_format (char_format : QTextCharFormat) : bool :=
  isAnchor char_format || negb (String.eqb (anchorHref char_format) "").

(** *** [save_as_docx] *)

Fixpoint index_of (url : string) (rels : list string) : option nat :=
  match rels with
  | [] => None
  | r :: rels' => if String.eqb url r then Some O else option_map S (index_of url rels')
  end.

(** [part.relate_to(url, ...hyperlink, is_external=True)]: the
    relationship to [url], added when the part has none. *)
Definition relate_to (url : string) (rels : list string) : nat * list string :=
  match index_of url rels with
  | Some r_id => (r_id, rels)
  | None => (length rels, rels ++ [url])
  end.

(** main.py:3764-3797, on the children and the relationships *)
Definition add_hyperlink (url text : string)
    (paragraph : list paragraph_child * list string) : list paragraph_child * list string :=
  let '(children, rels) := paragraph in
  let '(r_id, rels) := relate_to url rels in
  (children ++ [W_hyperlink r_id "0000FF" "single" text], rels).

(** [Inches(x)] for a double [x]: the product with 914400 as a double,
    truncated to an integer. *)
Definition Inches (x : Q) : Z := Qtruncate (binary64 (x * 914400)).

(** main.py:3693-3700, in double precision *)
Definition docx_picture_size (image_format : QTextImageFormat) : Q * Q :=
  let width_inches := binary64 (img_width image_format / 96) in
  let height_inches := binary64 (img_height image_format / 96) in
  let max_width := 6%Q in
  if negb (Qle_bool width_inches max_width)
  then
    let ratio := binary64 (max_width / width_inches) in
    (max_width, binary64 (height_inches * ratio))
  else (width_inches, height_inches).

(** main.py:3740-3750 (and 3729-3737): a run with the format copied.  The
    library checks what it is given: [add_run(text)] and [font.name] raise
    for a string the XML library refuses, [font.size] for a length it
    cannot write, as [Pt(-1)] of a font sized in pixels. *)
Definition docx_text_run (fragment : QTextFragment) : result Run :=
  let char_format := charFormat fragment in
  let font := font char_format in
  if negb (xml_compatible (frag_text fragment)) then Raise xml_refused
  else if negb (xml_compatible (family font)) then Raise xml_refused
  else if negb (font_size_accepted (Pt (pointSize font))) then Raise size_refused
  else
    Ok {| run_text := frag_text fragment;
          run_font_name := Some (family font);
          run_font_size := Some (Pt (pointSize font));
          run_bold := Some (bold font);
          run_italic := Some (italic font);
          run_underline := Some (underline font);
          run_font_color_rgb := Some (foreground_color char_format);
          run_picture := None |}.

(** main.py:3716-3725: the run added for a link before [add_hyperlink],
    with the same checks. *)
Definition docx_link_run (fragment : QTextFragment) : result Run :=
  let font := font (charFormat fragment) in
  if negb (xml_compatible (frag_text fragment)) then Raise xml_refused
  else if negb (xml_compatible (family font)) then Raise xml_refused
  else if negb (font_size_accepted (Pt (pointSize font))) then Raise size_refused
  else
    Ok {| run_text := frag_text fragment;
          run_font_name := Some (family font);
          run_font_size := Some (Pt (pointSize font));
          run_bold := Some (bold font);
          run_italic := Some (italic font);
          run_underline := Some true;
          run_font_color_rgb := Some {| red := 0; green := 0; blue := 255 |};
          run_picture := None |}.

(** main.py:3671-3750: one fragment of the block iterator.  A picture the
    library refuses is skipped (main.py:3702-3709); any other exception
    leaves the loops. *)
Definition docx_fragment (doc : QTextDocument)
    (paragraph : list paragraph_child * list string) (fragment : QTextFragment)
    : result (list paragraph_child * list string) :=
  let '(children, rels) := paragraph in
  let char_format := charFormat fragment in
  match imageFormat char_format with
  | Some image_format =>
      match resource doc (img_name image_format) with
      | Some image =>
          if negb (isNull image) then
            let '(width_inches, height_inches) := docx_picture_size image_format in
            match add_picture (save_PNG image) (Inches width_inches) (Inches height_inches) with
            | Ok picture =>
                Ok (children ++ [W_r {| run_text := ""; run_font_name := None;
                                        run_font_size := None; run_bold := None;
                                        run_italic := None; run_underline := None;
                                        run_font_color_rgb := None;
                                        run_picture := Some picture |}], rels)
            | Raise _ => Ok (children ++ [W_r (add_run "")], rels)
            end
          else Ok paragraph
      | None => Ok paragraph
      end
  | None =>
      if is_link_format char_format then
        let link_url := anchorHref char_format in
        let link_text := frag_text fragment in
        if negb (String.eqb link_url "") then
          match docx_link_run fragment with
          | Ok run => Ok (add_hyperlink link_url link_text (children ++ [W_r run], rels))
          | Raise e => Raise e
          end
        else
          match docx_text_run fragment with
          | Ok run => Ok (children ++ [W_r run], rels)
          | Raise e => Raise e
          end
      else
        match docx_text_run fragment with
        | Ok run => Ok (children ++ [W_r run], rels)
        | Raise e => Raise e
        end
  end.

(** main.py:3660-3667 *)
Definition docx_alignment (block : QTextBlock) : Z :=
  if alignment block =? AlignCenter then WD_CENTER
  else if alignment block =? AlignRight then WD_RIGHT
  else if alignment block =? AlignJustify then WD_JUSTIFY
  else WD_LEFT.

(** main.py:3655-3754: one block *)
Definition docx_block (doc : QTextDocument) (docx : DocxDocument) (block : QTextBlock)
    : result DocxDocument :=
  match fold_result (docx_fragment doc) (fragments block) ([], docx_relationships docx) with
  | Ok (children, rels) =>
      Ok {| docx_paragraphs :=
              docx_paragraphs docx ++
                [{| paragraph_alignment := docx_alignment block;
                    paragraph_children := children |}];
            docx_relationships := rels |}
  | Raise e => Raise e
  end.

(** main.py:3649-3754: the document handed to [doc.save], when the loops
    come to their end *)
Definition build_docx (doc : QTextDocument) : result DocxDocument :=
  fold_result (docx_block doc) (blocks doc)
    {| docx_paragraphs := []; docx_relationships := [] |}.

(** main.py:3636-3761.  The file is opened by [doc.save], after the
    document was built: an exception of the loops leaves the disk as it
    was, one of [doc.save] leaves what was written of the package. *)
Definition save_as_docx (filename : string) (w : World) : World :=
  if negb DOCX_AVAILABLE then show_dialog (Warning "Module manquant" MissingDocx) w
  else
    try_except
      (doc <- lift (build_docx (text_edit (window w))) ;;
       open_wb filename ;;;
       f_write filename (fst (docx_save doc)) ;;;
       match snd (docx_save doc) with
       | Some e => raise e
       | None => showMessage (DocxSaved filename)
       end)
      (fun e => QMessageBox_critical "Erreur" "Impossible d'enregistrer en .docx:" e)
      w.

(** *** [save_as_odt] *)

(** main.py:4224-4247 (and 4199-4221): the style and the span of a text
    fragment *)
Definition odt_text_style (id : Z) (char_format : QTextCharFormat) : Style :=
  let font := font char_format in
  {| st_name := style_ id;
     st_family := "text";
     st_text_properties :=
       {| tp_color := Some (color_hex (foreground_color char_format));
          tp_textunderlinestyle := if underline font then Some "solid" else None;
          tp_textunderlinecolor := None;
          tp_fontsize := Some (pointSize font);
          tp_fontfamily := Some (family font);
          tp_fontweight := if bold font then Some "bold" else None;
          tp_fontstyle := if italic font then Some "italic" else None |} |}.

(** main.py:4177-4193: the style of a link *)
Definition odt_link_style (id : Z) (char_format : QTextCharFormat) : Style :=
  let font := font char_format in
  {| st_name := link_ id;
     st_family := "text";
     st_text_properties :=
       {| tp_color := Some "#0000FF";
          tp_textunderlinestyle := Some "solid";
          tp_textunderlinecolor := Some "#0000FF";
          tp_fontsize := Some (pointSize font);
          tp_fontfamily := Some (family font);
          tp_fontweight := if bold font then Some "bold" else None;
          tp_fontstyle := if italic font then Some "italic" else None |} |}.

(** The export in progress: [image_counter], the number of fragment
    objects created so far, the document, and the paragraph [p]. *)
Record odt_state : Type := {
  image_counter : nat;
  fragments_seen : nat;
  odt_doc : OpenDocumentText;
  odt_p : list odf_inline
}.

Definition add_style (style : Style) (doc : OpenDocumentText) : OpenDocumentText :=
  {| odt_pictures := odt_pictures doc;
     odt_automaticstyles := odt_automaticstyles doc ++ [style];
     odt_text := odt_text doc |}.

(** main.py:4133-4249: one fragment of the block iterator *)
Definition odt_fragment (doc : QTextDocument) (st : odt_state) (fragment : QTextFragment)
    : odt_state :=
  let id := object_id (fragments_seen st) in
  let seen := S (fragments_seen st) in
  let char_format := charFormat fragment in
  match imageFormat char_format with
  | Some image_format =>
      match resource doc (img_name image_format) with
      | Some image =>
          if negb (isNull image) then
            let image_counter := S (image_counter st) in
            let width_inches := (img_width image_format / 96)%Q in
            let height_inches := (img_height image_format / 96)%Q in
            {| image_counter := image_counter;
               fragments_seen := seen;
               odt_doc :=
                 {| odt_pictures :=
                      odt_pictures (odt_doc st) ++ [(image_counter, save_PNG image)];
                    odt_automaticstyles := odt_automaticstyles (odt_doc st);
                    odt_text := odt_text (odt_doc st) |};
               odt_p := odt_p st ++ [Frame width_inches height_inches "as-char" image_counter] |}
          else {| image_counter := image_counter st; fragments_seen := seen;
                  odt_doc := odt_doc st; odt_p := odt_p st |}
      | None => {| image_counter := image_counter st; fragments_seen := seen;
                   odt_doc := odt_doc st; odt_p := odt_p st |}
      end
  | None =>
      let text_span :=
        let style := odt_text_style id char_format in
        {| image_counter := image_counter st; fragments_seen := seen;
           odt_doc := add_style style (odt_doc st);
           odt_p := odt_p st ++ [Span (st_name style) (frag_text fragment)] |} in
      if is_link_format char_format then
        let link_url := anchorHref char_format in
        let link_text := frag_text fragment in
        if negb (String.eqb link_url "") then
          let style := odt_link_style id char_format in
          {| image_counter := image_counter st; fragments_seen := seen;
             odt_doc := add_style style (odt_doc st);
             odt_p := odt_p st ++ [A "simple" link_url (st_name style) link_text] |}
        else text_span
      else text_span
  end.

(** main.py:4128-4252: one block *)
Definition odt_block (doc : QTextDocument) (st : odt_state) (block : QTextBlock) : odt_state :=
  let st' :=
    fold_left (odt_fragment doc) (fragments block)
      {| image_counter := image_counter st; fragments_seen := fragments_seen st;
         odt_doc := odt_doc st; odt_p := [] |} in
  {| image_counter := image_counter st';
     fragments_seen := fragments_seen st';
     odt_doc :=
       {| odt_pictures := odt_pictures (odt_doc st');
          odt_automaticstyles := odt_automaticstyles (odt_doc st');
          odt_text := odt_text (odt_doc st') ++ [odt_p st'] |};
     odt_p := [] |}.

(** main.py:4121-4252: the document handed to [doc.save] *)
Definition build_odt (doc : QTextDocument) : OpenDocumentText :=
  odt_doc
    (fold_left (odt_block doc) (blocks doc)
       {| image_counter := 0; fragments_seen := 0;
          odt_doc := {| odt_pictures := []; odt_automaticstyles := []; odt_text := [] |};
          odt_p := [] |}).

Definition save_as_odt (filename : string) (w : World) : World :=
  if negb ODT_AVAILABLE then show_dialog (Warning "Module manquant" MissingOdf) w
  else
    try_except
      (let doc := build_odt (text_edit (window w)) in
       open_wb filename ;;;
       f_write filename (odf_save doc) ;;;
       showMessage (OdtSaved filename))
      (fun e => QMessageBox_critical "Erreur" "Impossible d'enregistrer en .odt:" e)
      w.

(** *** [save_as_html] and [save_to_file] *)

Definition save_as_html (filename : string) (w : World) : World :=
  try_except
    (let html := toHtml (blocks (text_edit (window w))) in
     open_wb filename ;;;
     data <- lift (encode_utf8 html) ;;
     f_write filename data ;;;
     showMessage (HtmlSaved filename))
    (fun e => QMessageBox_critical "Erreur" "Impossible d'enregistrer en HTML:" e)
    w.

(** main.py:2905-2907 *)
Definition mark_saved (filename : string) (a : OpenLautrec) : OpenLautrec :=
  {| text_edit := text_edit a;
     current_file := Some filename;
     is_modified := false;
     window_title := String.append "OpenLautrec - " (basename filename);
     status := status a;
     dialogs := dialogs a |}.

(** main.py:2891-2912; the result is the value returned. *)
Definition save_to_file (filename : string) (w : World) : bool * World :=
  let body : M World unit :=
    (if endswith filename ".olc" then modify (save_as_olc filename)
     else if endswith filename ".docx" then modify (save_as_docx filename)
     else if endswith filename ".odt" then modify (save_as_odt filename)
     else if endswith filename ".html" then modify (save_as_html filename)
     else
       w <- get ;;
       open_wb filename ;;;
       data <- lift (encode_utf8 (toPlainText (blocks (text_edit (window w))))) ;;
       f_write filename data) ;;;
    modify (set_app (mark_saved filename)) ;;;
    showMessage (FileSaved filename) in
  match body w with
  | (Ok _, w') => (true, w')
  | (Raise e, w') =>
      (false, QMessageBox_critical "Erreur" "Impossible d'enregistrer le fichier:" e w')
  end.

End Exporters.

(** ** The importers *)

(** Setters of [QTextCharFormat]. *)
Definition setFontFamily (v : string) (f : QTextCharFormat) : QTextCharFormat :=
  {| fontFamily := Some v; fontPointSize := fontPointSize f;
     fontPixelSize := fontPixelSize f; fontWeight := fontWeight f;
     fontItalic := fontItalic f; fontUnderline := fontUnderline f;
     foreground := foreground f; background := background f;
     isAnchor := isAnchor f; anchorHref := anchorHref f; imageFormat := imageFormat f |}.

Definition setFontPointSize (v : Q) (f : QTextCharFormat) : QTextCharFormat :=
  {| fontFamily := fontFamily f; fontPointSize := Some v;
     fontPixelSize := fontPixelSize f; fontWeight := fontWeight f;
     fontItalic := fontItalic f; fontUnderline := fontUnderline f;
     foreground := foreground f; background := background f;
     isAnchor := isAnchor f; anchorHref := anchorHref f; imageFormat := imageFormat f |}.

Definition setFontWeight (v : Z) (f : QTextCharFormat) : QTextCharFormat :=
  {| fontFamily := fontFamily f; fontPointSize := fontPointSize f;
     fontPixelSize := fontPixelSize f; fontWeight := Some v;
     fontItalic := fontItalic f; fontUnderline := fontUnderline f;
     foreground := foreground f; background := background f;
     isAnchor := isAnchor f; anchorHref := anchorHref f; imageFormat := imageFormat f |}.

Definition setFontItalic (v : bool) (f : QTextCharFormat) : QTextCharFormat :=
  {| fontFamily := fontFamily f; fontPointSize := fontPointSize f;
     fontPixelSize := fontPixelSize f; fontWeight := fontWeight f;
     fontItalic := Some v; fontUnderline := fontUnderline f;
     foreground := foreground f; background := background f;
     isAnchor := isAnchor f; anchorHref := anchorHref f; imageFormat := imageFormat f |}.

Definition setFontUnderline (v : bool) (f : QTextCharFormat) : QTextCharFormat :=
  {| fontFamily := fontFamily f; fontPointSize := fontPointSize f;
     fontPixelSize := fontPixelSize f; fontWeight := fontWeight f;
     fontItalic := fontItalic f; fontUnderline := Some v;
     foreground := foreground f; background := background f;
     isAnchor := isAnchor f; anchorHref := anchorHref f; imageFormat := imageFormat f |}.

Definition setForeground (v : QColor) (f : QTextCharFormat) : QTextCharFormat :=
  {| fontFamily := fontFamily f; fontPointSize := fontPointSize f;
     fontPixelSize := fontPixelSize f; fontWeight := fontWeight f;
     fontItalic := fontItalic f; fontUnderline := fontUnderline f;
     foreground := Some v; background := background f;
     isAnchor := isAnchor f; anchorHref := anchorHref f; imageFormat := imageFormat f |}.

Definition setBackground (v : QColor) (f : QTextCharFormat) : QTextCharFormat :=
  {| fontFamily := fontFamily f; fontPointSize := fontPointSize f;
     fontPixelSize := fontPixelSize f; fontWeight := fontWeight f;
     fontItalic := fontItalic f; fontUnderline := fontUnderline f;
     foreground := foreground f; background := Some v;
     isAnchor := isAnchor f; anchorHref := anchorHref f; imageFormat := imageFormat f |}.

(** [fmt.clearProperty(QTextFormat.ObjectType)] *)
Definition clearObjectType (f : QTextCharFormat) : QTextCharFormat :=
  {| fontFamily := fontFamily f; fontPointSize := fontPointSize f;
     fontPixelSize := fontPixelSize f; fontWeight := fontWeight f;
     fontItalic := fontItalic f; fontUnderline := fontUnderline f;
     foreground := foreground f; background := background f;
     isAnchor := isAnchor f; anchorHref := anchorHref f; imageFormat := None |}.

(** Equality of formats, as Qt compares property values. *)
Definition option_eqb {A} (eqb : A -> A -> bool) (x y : option A) : bool :=
  match x, y with
  | Some a, Some b => eqb a b
  | None, None => true
  | _, _ => false
  end.

Definition QColor_eqb (c d : QColor) : bool :=
  (red c =? red d) && (green c =? green d) && (blue c =? blue d).

Definition QTextImageFormat_eqb (i j : QTextImageFormat) : bool :=
  String.eqb (img_name i) (img_name j)
  && Qeq_bool (img_width i) (img_width j) && Qeq_bool (img_height i) (img_height j).

Definition QTextCharFormat_eqb (f g : QTextCharFormat) : bool :=
  option_eqb String.eqb (fontFamily f) (fontFamily g)
  && option_eqb Qeq_bool (fontPointSize f) (fontPointSize g)
  && option_eqb Z.eqb (fontPixelSize f) (fontPixelSize g)
  && option_eqb Z.eqb (fontWeight f) (fontWeight g)
  && option_eqb Bool.eqb (fontItalic f) (fontItalic g)
  && option_eqb Bool.eqb (fontUnderline f) (fontUnderline g)
  && option_eqb QColor_eqb (foreground f) (foreground g)
  && option_eqb QColor_eqb (background f) (background g)
  && Bool.eqb (isAnchor f) (isAnchor g)
  && String.eqb (anchorHref f) (anchorHref g)
  && option_eqb QTextImageFormat_eqb (imageFormat f) (imageFormat g).

(** *** The text cursor, placed at the end of the document *)

(** Appending one character of format [format] to the fragments of a
    block: it joins the last fragment when the formats are equal. *)
Fixpoint append_char (c : ascii) (format : QTextCharFormat) (frs : list QTextFragment)
    : list QTextFragment :=
  match frs with
  | [] => [{| frag_text := String c ""; charFormat := format |}]
  | [last] =>
      if QTextCharFormat_eqb (charFormat last) format
      then [{| frag_text := String.append (frag_text last) (String c "");
               charFormat := charFormat last |}]
      else [last; {| frag_text := String c ""; charFormat := format |}]
  | fr :: frs' => fr :: append_char c format frs'
  end.

Definition LF : ascii := ascii_of_nat 10.
Definition CR : ascii := ascii_of_nat 13.

(** [cursor.insertText(text, format)] with the cursor at the end: the
    blocks before the last one, and the last one.  A line feed, a carriage
    return, or the two in a row start a new block, which takes the block
    format of the current one and [format] as its character format. *)
Fixpoint insert_chars (text : string) (format : QTextCharFormat)
    (done : list QTextBlock) (current : QTextBlock) : list QTextBlock * QTextBlock :=
  let new_block :=
    {| block_alignment := block_alignment current;
       block_charFormat := format;
       fragments := [] |} in
  match text with
  | EmptyString => (done, current)
  | String c rest =>
      if Ascii.eqb c CR then
        match rest with
        | String c' rest' =>
            if Ascii.eqb c' LF
            then insert_chars rest' format (done ++ [current]) new_block
            else insert_chars rest format (done ++ [current]) new_block
        | EmptyString => (done ++ [current], new_block)
        end
      else if Ascii.eqb c LF then insert_chars rest format (done ++ [current]) new_block
      else
        insert_chars rest format done
          {| block_alignment := block_alignment current;
             block_charFormat := block_charFormat current;
             fragments := append_char c format (fragments current) |}
  end.

Section Importers.
Context `{Platform} `{Qt} `{PyLib} `{Modules} `{Docx} `{Odf} `{Runtime}.

Definition empty_block : QTextBlock :=
  {| block_alignment := 0; block_charFormat := QTextCharFormat_new; fragments := [] |}.

(** The blocks before the last one, and the last one; a document always
    has a block. *)
Fixpoint split_last (bs : list QTextBlock) : list QTextBlock * QTextBlock :=
  match bs with
  | [] => ([], empty_block)
  | [b] => ([], b)
  | b :: bs' => let '(done, current) := split_last bs' in (b :: done, current)
  end.

(** [self.text_edit.clear()]: one empty block and an empty resource store *)
Definition clear (doc : QTextDocument) : QTextDocument :=
  {| blocks := [empty_block]; resources := ∅ |}.

(** [cursor.charFormat()] with the cursor at the end *)
Definition cursor_charFormat (doc : QTextDocument) : QTextCharFormat :=
  let '(_, current) := split_last (blocks doc) in
  match last (fragments current) with
  | Some fr => charFormat fr
  | None => block_charFormat current
  end.

(** [cursor.setBlockFormat(block_format)] for a format that carries the
    alignment [a] only *)
Definition setBlockFormat (a : Z) (doc : QTextDocument) : QTextDocument :=
  let '(done, current) := split_last (blocks doc) in
  {| blocks := done ++ [{| block_alignment := a;
                           block_charFormat := block_charFormat current;
                           fragments := fragments current |}];
     resources := resources doc |}.

(** [cursor.insertText(text, format)] *)
Definition insertText_fmt (text : string) (format : QTextCharFormat) (doc : QTextDocument)
    : QTextDocument :=
  let '(done, current) := split_last (blocks doc) in
  let '(done, current) := insert_chars text format done current in
  {| blocks := done ++ [current]; resources := resources doc |}.

(** [cursor.insertText(text)]: the format at the cursor, less the object
    type. *)
Definition insertText (text : string) (doc : QTextDocument) : QTextDocument :=
  insertText_fmt text (clearObjectType (cursor_charFormat doc)) doc.

(** *** [load_docx] *)

(** The whole file, as a library that is given the file name reads it. *)
Definition read_file (filename : string) : M World bytes :=
  content <- open_rb filename ;;
  f_read_all filename content.

(** main.py:3607-3623 *)
Definition highlight_colors : list (Z * QColor) :=
  [ (1, {| red := 255; green := 255; blue := 0 |});
    (2, {| red := 0; green := 255; blue := 0 |});
    (3, {| red := 0; green := 255; blue := 255 |});
    (4, {| red := 255; green := 0; blue := 255 |});
    (5, {| red := 0; green := 0; blue := 255 |});
    (6, {| red := 255; green := 0; blue := 0 |});
    (7, {| red := 0; green := 0; blue := 128 |});
    (8, {| red := 0; green := 128; blue := 128 |});
    (9, {| red := 0; green := 128; blue := 0 |});
    (10, {| red := 128; green := 0; blue := 128 |});
    (11, {| red := 128; green := 0; blue := 0 |});
    (12, {| red := 128; green := 128; blue := 0 |});
    (13, {| red := 128; green := 128; blue := 128 |});
    (14, {| red := 192; green := 192; blue := 192 |});
    (15, {| red := 0; green := 0; blue := 0 |}) ].

Fixpoint highlight_lookup (k : Z) (table : list (Z * QColor)) : option QColor :=
  match table with
  | [] => None
  | (k', c) :: table' => if k =? k' then Some c else highlight_lookup k table'
  end.

(** main.py:3579-3628: one run *)
Definition load_docx_run (run : DocxRunIn) : M World unit :=
  let fmt := QTextCharFormat_new in
  name <- lift (in_font_name run) ;;
  let fmt := match name with
             | Some n => if String.eqb n "" then fmt else setFontFamily n fmt
             | None => fmt
             end in
  size <- lift (in_font_size_pt run) ;;
  let fmt := match size with
             | Some pt => if Qeq_bool pt 0 then fmt else setFontPointSize pt fmt
             | None => fmt
             end in
  bold <- lift (in_bold run) ;;
  let fmt := if default false bold then setFontWeight QFont_Bold fmt else fmt in
  italic <- lift (in_italic run) ;;
  let fmt := if default false italic then setFontItalic true fmt else fmt in
  underline <- lift (in_underline run) ;;
  let fmt := if default false underline then setFontUnderline true fmt else fmt in
  let fmt := match in_color_rgb run with
             | Ok (Some color) => setForeground color fmt
             | Ok None => fmt
             | Raise _ => fmt    (* except: pass *)
             end in
  highlight <- lift (in_highlight_color run) ;;
  let fmt := match highlight with
             | Some highlight_value =>
                 if highlight_value =? 0 then fmt
                 else match highlight_lookup highlight_value highlight_colors with
                      | Some color => setBackground color fmt
                      | None => fmt
                      end
             | None => fmt
             end in
  text <- lift (in_text run) ;;
  modify (set_text_edit (insertText_fmt text fmt)).

(** main.py:3563-3630: one paragraph *)
Definition load_docx_paragraph (paragraph : DocxParagraphIn) : M World unit :=
  a <- lift (in_alignment paragraph) ;;
  match a with
  | Some a =>
      if a =? 0 then ret tt
      else
        modify (set_text_edit (setBlockFormat
          (if a =? WD_CENTER then AlignCenter
           else if a =? WD_RIGHT then AlignRight
           else if a =? WD_JUSTIFY then AlignJustify
           else AlignLeft)))
  | None => ret tt
  end ;;;
  for_each (in_runs paragraph) load_docx_run ;;;
  modify (set_text_edit (insertText (String LF ""))).

(** main.py:3560-3632, the body of the [try] *)
Definition load_docx_body (filename : string) : M World unit :=
  content <- read_file filename ;;
  doc <- lift (docx_open content) ;;
  modify (set_text_edit clear) ;;;
  for_each doc load_docx_paragraph ;;;
  showMessage (DocxOpened filename).

Definition load_docx (filename : string) (w : World) : World :=
  if negb DOCX_AVAILABLE then show_dialog (Warning "Module manquant" MissingDocx) w
  else
    try_except (load_docx_body filename)
      (fun e => QMessageBox_critical "Erreur" "Impossible de lire le fichier .docx:" e) w.

(** *** [load_odt] *)

(** [s.replace('pt', '')] *)
Fixpoint replace_pt (s : string) : string :=
  match s with
  | EmptyString => EmptyString
  | String c rest =>
      match rest with
      | String c' rest' =>
          if Ascii.eqb c "p" && Ascii.eqb c' "t" then replace_pt rest'
          else String c (replace_pt rest)
      | EmptyString => String c EmptyString
      end
  end.

(** [node.getAttribute(name)]: [None] when the attribute is absent,
    [ValueError] when an element of this name cannot carry it; a text node
    has no such method. *)
Definition getAttribute (node : odf_node) (name : string) : result (option string) :=
  match node with
  | OdfElement qname attrs _ =>
      if allowed_attribute qname name then Ok (dict_lookup name attrs)
      else Raise (LibValueError "attribute not in list")
  | OdfText _ => Raise AttributeError
  end.

(** [try: v = e  except: pass], for a test that does nothing on [None] *)
Definition or_pass {A} (r : result (option A)) : option A :=
  match r with
  | Ok v => v
  | Raise _ => None
  end.

(** A string that is present and not empty. *)
Definition truthy (s : option string) : option string :=
  match s with
  | Some v => if String.eqb v "" then None else Some v
  | None => None
  end.

(** main.py:3886-3937: one [text-properties] child *)
Definition apply_text_properties (prop : odf_node) (fmt : QTextCharFormat) : QTextCharFormat :=
  let fmt := match or_pass (getAttribute prop "fontweight") with
             | Some v => if String.eqb v "bold" then setFontWeight QFont_Bold fmt else fmt
             | None => fmt
             end in
  let fmt := match or_pass (getAttribute prop "fontstyle") with
             | Some v => if String.eqb v "italic" then setFontItalic true fmt else fmt
             | None => fmt
             end in
  let fmt := match truthy (or_pass (getAttribute prop "textunderlinestyle")) with
             | Some v => if String.eqb v "none" then fmt else setFontUnderline true fmt
             | None => fmt
             end in
  let fmt := match truthy (or_pass (getAttribute prop "fontsize")) with
             | Some font_size =>
                 match py_float (replace_pt font_size) with
                 | Some size_value => setFontPointSize size_value fmt
                 | None => fmt    (* except: pass *)
                 end
             | None => fmt
             end in
  let fmt := match truthy (or_pass (getAttribute prop "fontfamily")) with
             | Some font_family => setFontFamily font_family fmt
             | None => fmt
             end in
  let fmt := match truthy (or_pass (getAttribute prop "color")) with
             | Some color_str =>
                 if String.prefix "#" color_str then
                   match QColor_of_name color_str with
                   | Some color => setForeground color fmt
                   | None => fmt
                   end
                 else fmt
             | None => fmt
             end in
  match truthy (or_pass (getAttribute prop "backgroundcolor")) with
  | Some bg_color_str =>
      if String.prefix "#" bg_color_str then
        match QColor_of_name bg_color_str with
        | Some bg_color => setBackground bg_color fmt
        | None => fmt
        end
      else fmt
  | None => fmt
  end.

(** main.py:3879-3939 *)
Definition _apply_odt_style (fmt : QTextCharFormat) (style : odf_node) : QTextCharFormat :=
  match style with
  | OdfElement _ _ childNodes =>
      fold_left
        (fun fmt prop =>
           match prop with
           | OdfElement qname _ _ =>
               if String.eqb (snd qname) "text-properties"
               then apply_text_properties prop fmt
               else fmt
           | OdfText _ => fmt
           end)
        childNodes fmt
  | OdfText _ => fmt
  end.

(** main.py:3858-3877: the body of the loop over [element.childNodes];
    the recursive call on a child that is not a span runs the loop on
    the child's own nodes. *)
Fixpoint process_child (styles_dict : list (string * odf_node))
    (child : odf_node) (doc : QTextDocument) {struct child} : QTextDocument :=
  match child with
  | OdfText data => if String.eqb data "" then doc else insertText data doc
  | OdfElement qname _ grandchildren =>
      if String.eqb (snd qname) "span" then
        let fmt := QTextCharFormat_new in
        let fmt :=
          match truthy (or_pass (getAttribute child "stylename")) with
          | Some style_name =>
              match dict_lookup style_name styles_dict with
              | Some style => _apply_odt_style fmt style
              | None => fmt
              end
          | None => fmt
          end in
        let span_text := extractText child in
        if String.eqb span_text "" then doc else insertText_fmt span_text fmt doc
      else
        (fix loop (nodes : list odf_node) (doc : QTextDocument) : QTextDocument :=
           match nodes with
           | [] => doc
           | node :: nodes' => loop nodes' (process_child styles_dict node doc)
           end) grandchildren doc
  end.

(** main.py:3853-3877 *)
Definition _process_odt_element (element : odf_node)
    (styles_dict : list (string * odf_node)) (doc : QTextDocument) : QTextDocument :=
  match element with
  | OdfElement _ _ childNodes =>
      fold_left (fun doc child => process_child styles_dict child doc) childNodes doc
  | OdfText _ => doc
  end.

(** main.py:3824-3828 and 3830-3834: one of the two loops that fill
    [styles_dict], the state; [getAttribute] is not guarded here. *)
Definition collect_styles (nodes : list odf_node) : M (list (string * odf_node)) unit :=
  for_each nodes (fun style =>
    match style with
    | OdfElement _ _ _ =>
        style_name <- lift (getAttribute style "name") ;;
        match truthy style_name with
        | Some style_name => modify (dict_set style_name style)
        | None => ret tt
        end
    | OdfText _ => ret tt
    end).

(** main.py:3822-3836: both loops in one [try] with [except: pass]; an
    exception ends them, and the dictionary stays as far as it was
    filled. *)
Definition collect_all_styles (doc : OdfDocumentIn) : list (string * odf_node) :=
  snd ((collect_styles (in_automaticstyles doc) ;;; collect_styles (in_styles doc)) []).

(** main.py:3812-3847, the body of the [try] *)
Definition load_odt_body (filename : string) : M World unit :=
  content <- read_file filename ;;
  doc <- lift (odf_load content) ;;
  modify (set_text_edit clear) ;;;
  let elements := in_paragraphs doc ++ in_headings doc in
  let styles_dict := collect_all_styles doc in
  for_each elements (fun element =>
    modify (set_text_edit (_process_odt_element element styles_dict)) ;;;
    modify (set_text_edit (insertText (String LF "")))) ;;;
  showMessage (OdtOpened filename).

Definition load_odt (filename : string) (w : World) : World :=
  if negb ODT_AVAILABLE then show_dialog (Warning "Module manquant" MissingOdf) w
  else
    try_except (load_odt_body filename)
      (fun e => QMessageBox_critical "Erreur" "Impossible de lire le fichier .odt:" e) w.

(** *** [open_file] *)

(** main.py:2860-2863 *)
Definition mark_opened (filename : string) (a : OpenLautrec) : OpenLautrec :=
  {| text_edit := text_edit a;
     current_file := Some filename;
     is_modified := false;
     window_title := String.append "OpenLautrec - " (basename filename);
     status := status a;
     dialogs := dialogs a |}.

(** [self.text_edit.setPlainText(content)]: the text, unformatted *)
Definition setPlainText (content : string) (doc : QTextDocument) : QTextDocument :=
  insertText_fmt content QTextCharFormat_new
    {| blocks := [empty_block]; resources := resources doc |}.

(** main.py:2843-2865: [open_file] once the dialog has returned the
    non-empty [filename] *)
Definition open_file (filename : string) : World -> World :=
  try_except
    ((if endswith filename ".docx" then modify (load_docx filename)
      else if endswith filename ".odt" then modify (load_odt filename)
      else if endswith filename ".html" || endswith filename ".htm" then
        data <- read_file filename ;;
        content <- lift (decode_utf8 data) ;;
        modify (set_text_edit (setHtml content))
      else if endswith filename ".olc" then modify (load_olc filename)
      else
        data <- read_file filename ;;
        content <- lift (decode_utf8 data) ;;
        modify (set_text_edit (setPlainText content))) ;;;
     modify (set_app (mark_opened filename)) ;;;
     showMessage (FileOpened filename))
    (fun e => QMessageBox_critical "Erreur" "Impossible d'ouvrir le fichier:" e).

(** *** Vocabulary for statements about loads *)

Inductive codec : Type := WordProcessor | OfficeSuite | Container.

Definition load (c : codec) (filename : string) : World -> World :=
  match c with
  | WordProcessor => load_docx filename
  | OfficeSuite => load_odt filename
  | Container => load_olc filename
  end.

Definition available (c : codec) : bool :=
  match c with
  | WordProcessor => DOCX_AVAILABLE
  | OfficeSuite => ODT_AVAILABLE
  | Container => true
  end.

(** The ways a load stops before the importer starts to rebuild the
    document: the library of the format is missing, the file cannot be
    opened, the library rejects the file, or the container is rejected by
    its framing, by [gzip] or by [pickle]. *)
Inductive fails_before_import : codec -> string -> World -> Prop :=
| codec_unavailable c filename w :
    available c = false ->
    fails_before_import c filename w
| file_missing c filename w :
    fs w !! filename = None ->
    fails_before_import c filename w
| docx_rejected filename w content e :
    fs w !! filename = Some content ->
    docx_open content = Raise e ->
    fails_before_import WordProcessor filename w
| odf_rejected filename w content e :
    fs w !! filename = Some content ->
    odf_load content = Raise e ->
    fails_before_import OfficeSuite filename w
| olc_framing filename w e w1 :
    read_olc filename w = (Raise e, w1) ->
    fails_before_import Container filename w
| olc_decompress filename w compressed_data w1 e :
    read_olc filename w = (Ok compressed_data, w1) ->
    gzip_decompress compressed_data = Raise e ->
    fails_before_import Container filename w
| olc_deserialize filename w compressed_data w1 serialized_data e :
    read_olc filename w = (Ok compressed_data, w1) ->
    gzip_decompress compressed_data = Ok serialized_data ->
    pickle_loads serialized_data = Raise e ->
    fails_before_import Container filename w.

End Importers.

(** ** A small instance of the libraries

    Stand-ins on which the definitions above can be run: images are their
    PNG bytes, the markup is an opening tag and the text of the document
    (the markup of a document is never empty), and a self-delimiting
    encoding plays the part of [pickle]. *)

Module Demo.

Definition platform : Platform :=
  {| byteorder := Little; maxsize := 2 ^ 63 - 1; memory := 2 ^ 34;
     memory_range := ltac:(lia) |}.

Definition block_text (b : QTextBlock) : string :=
  fold_right String.append "" (map frag_text (fragments b)).

Fixpoint join_lines (lines : list string) : string :=
  match lines with
  | [] => ""
  | [l] => l
  | l :: ls => String.append l (String LF (join_lines ls))
  end.

Definition plain (bs : list QTextBlock) : string := join_lines (map block_text bs).

Definition text_blocks (s : string) : list QTextBlock :=
  let '(done, current) :=
    insert_chars s QTextCharFormat_new []
      {| block_alignment := 0; block_charFormat := QTextCharFormat_new; fragments := [] |} in
  done ++ [current].

Definition markup (bs : list QTextBlock) : string := String.append "<html>" (plain bs).

Definition markup_blocks (s : string) : list QTextBlock :=
  text_blocks (if String.prefix "<html>" s then substring 6 (String.length s - 6) s else s).

Definition qt : Qt :=
  {| QImage := bytes;
     isNull := fun image => bool_decide (image = []);
     save_PNG := fun image => image;
     loadFromData := fun data => data;
     toHtml := markup;
     fromHtml := markup_blocks;
     toPlainText := plain;
     app_font := {| family := "Sans Serif"; pointSize := 9; bold := false;
                    italic := false; underline := false |} |}.

(** The encoding: a tag, then the payload; lengths and integers take
    eight bytes. *)
Definition enc_len (n : nat) : bytes := le_bytes 8 (Z.of_nat n).

Definition enc_str (s : string) : bytes :=
  enc_len (String.length s) ++ list_byte_of_string s.

Fixpoint dumps (v : pyval) : bytes :=
  match v with
  | PyNone => [x00]
  | PyInt z => x01 :: le_bytes 8 z
  | PyStr s => x02 :: enc_str s
  | PyBytes b => x03 :: enc_len (length b) ++ b
  | PyDict d =>
      x04 :: enc_len (length d) ++
        (fix entries (d : list (string * pyval)) : bytes :=
           match d with
           | [] => []
           | (k, v) :: d' => enc_str k ++ dumps v ++ entries d'
           end) d
  | PyOther => [x05]
  end.

Definition dec_len (b : bytes) : option (nat * bytes) :=
  if (8 <=? length b)%nat then Some (Z.to_nat (le_value (take 8 b)), drop 8 b) else None.

Definition dec_str (b : bytes) : option (string * bytes) :=
  match dec_len b with
  | Some (n, b) =>
      if (n <=? length b)%nat then Some (string_of_list_byte (take n b), drop n b) else None
  | None => None
  end.

Fixpoint loads_from (fuel : nat) (b : bytes) : option (pyval * bytes) :=
  match fuel with
  | O => None
  | S fuel =>
      match b with
      | [] => None
      | tag :: b =>
          if bool_decide (tag = x00) then Some (PyNone, b)
          else if bool_decide (tag = x01) then
            if (8 <=? length b)%nat then Some (PyInt (le_value (take 8 b)), drop 8 b) else None
          else if bool_decide (tag = x02) then
            match dec_str b with Some (s, b) => Some (PyStr s, b) | None => None end
          else if bool_decide (tag = x03) then
            match dec_len b with
            | Some (n, b) =>
                if (n <=? length b)%nat then Some (PyBytes (take n b), drop n b) else None
            | None => None
            end
          else if bool_decide (tag = x04) then
            match dec_len b with
            | Some (n, b) =>
                match
                (fix entries (n : nat) (b : bytes) : option (list (string * pyval) * bytes) :=
                   match n with
                   | O => Some ([], b)
                   | S n =>
                       match dec_str b with
                       | Some (k, b) =>
                           match loads_from fuel b with
                           | Some (v, b) =>
                               match entries n b with
                               | Some (d, b) => Some ((k, v) :: d, b)
                               | None => None
                               end
                           | None => None
                           end
                       | None => None
                       end
                   end) n b
                with
                | Some (d, b) => Some (PyDict d, b)
                | None => None
                end
            | None => None
            end
          else if bool_decide (tag = x05) then Some (PyOther, b)
          else None
      end
  end.

Definition loads (b : bytes) : result pyval :=
  match loads_from (S (length b)) b with
  | Some (v, []) => Ok v
  | _ => Raise (LibError "UnpicklingError")
  end.

(** Words are the maximal runs of characters other than the space and
    the line feed. *)
Fixpoint words (in_word : bool) (s : string) : Z :=
  match s with
  | EmptyString => 0
  | String c rest =>
      if Ascii.eqb c " " || Ascii.eqb c LF then words false rest
      else (if in_word then 0 else 1) + words true rest
  end.

Definition pylib : PyLib :=
  {| pickle_dumps := dumps;
     pickle_loads := loads;
     gzip_compress := fun data => x1f :: x8b :: data;
     gzip_decompress := fun data =>
       match data with
       | a :: b :: rest =>
           if bool_decide (a = x1f) && bool_decide (b = x8b) then Ok rest
           else Raise (OSError "BadGzipFile")
       | _ => Raise (LibError "EOFError")
       end;
     split_count := words false;
     isoformat_now := fun _ => "2024-05-17T09:30:00.000000" |}.

Definition all_modules : Modules := {| DOCX_AVAILABLE := true; ODT_AVAILABLE := true |}.
Definition no_docx : Modules := {| DOCX_AVAILABLE := false; ODT_AVAILABLE := true |}.

(** A word-processor file of two paragraphs; the second carries an
    alignment value the library does not know, which it reports when the
    property is read. *)
Definition run_in (text : string) : DocxRunIn :=
  {| in_font_name := Ok None; in_font_size_pt := Ok None; in_bold := Ok None;
     in_italic := Ok None; in_underline := Ok None; in_color_rgb := Ok None;
     in_highlight_color := Ok None; in_text := Ok text |}.

Definition two_paragraphs : list DocxParagraphIn :=
  [ {| in_alignment := Ok (Some WD_CENTER); in_runs := [run_in "Hello"] |};
    {| in_alignment := Raise (LibValueError "invalid w:jc value");
       in_runs := [run_in "world"] |} ].

Definition two_paragraphs_file : bytes := [x50; x4b; x03; x04].

(** Strings without control characters but the tabulation, the line feed
    and the carriage return. *)
Definition xml_char (c : ascii) : bool :=
  let n := nat_of_ascii c in
  (32 <=? n)%nat || (n =? 9)%nat || (n =? 10)%nat || (n =? 13)%nat.

Definition xml_string (s : string) : bool := forallb xml_char (list_ascii_of_string s).

(** A package is written to its end when the targets of its relationships
    can be written; otherwise the file is left with its first bytes. *)
Definition docx : Docx :=
  {| docx_open := fun data =>
       if bool_decide (data = two_paragraphs_file) then Ok two_paragraphs
       else Raise (LibError "PackageNotFoundError");
     docx_save := fun document =>
       if forallb xml_string (docx_relationships document)
       then ([x50; x4b; x05; x06], None)
       else ([x50; x4b], Some xml_refused);
     add_picture := fun stream width height =>
       match stream with
       | [] => Raise (LibError "UnrecognizedImageError")
       | _ => Ok {| pic_stream := stream; pic_width := width; pic_height := height |}
       end;
     xml_compatible := xml_string |}.

Fixpoint node_text (node : odf_node) : string :=
  match node with
  | OdfText data => data
  | OdfElement _ _ childNodes =>
      (fix all (nodes : list odf_node) : string :=
         match nodes with
         | [] => ""
         | n :: nodes' => String.append (node_text n) (all nodes')
         end) childNodes
  end.

Definition odf : Odf :=
  {| odf_load := fun _ => Raise (LibError "BadZipFile");
     odf_save := fun _ => [x50; x4b; x05; x06];
     extractText := node_text;
     allowed_attribute := fun qname name =>
       negb (String.eqb (snd qname) "default-style" && String.eqb name "name") |}.

Definition runtime : Runtime :=
  {| object_id := fun n => 0x7f0000000000 + 64 * Z.of_nat n;
     py_float := fun _ => None;
     QColor_of_name := fun _ => None;
     basename := fun path => path;
     encode_utf8 := fun s => Ok (list_byte_of_string s);
     decode_utf8 := fun data => Ok (string_of_list_byte data);
     binary64 := fun x => x;
     binary64_le := fun x y Hle => Hle;
     binary64_integer := fun z _ => Qeq_refl (inject_Z z) |}.

Definition text_format (color : QColor) : QTextCharFormat :=
  setForeground color QTextCharFormat_new.

Definition green : QColor := {| red := 0; green := 128; blue := 0 |}.

(** A green link. *)
Definition link_fragment : QTextFragment :=
  {| frag_text := "site";
     charFormat :=
       {| fontFamily := None; fontPointSize := None; fontPixelSize := None;
          fontWeight := None;
          fontItalic := None; fontUnderline := None; foreground := Some green;
          background := None; isAnchor := true; anchorHref := "https://example.org";
          imageFormat := None |} |}.

(** An image run of 1000 by 500 pixels. *)
Definition image_fragment (name : string) : QTextFragment :=
  {| frag_text := "";
     charFormat :=
       {| fontFamily := None; fontPointSize := None; fontPixelSize := None;
          fontWeight := None;
          fontItalic := None; fontUnderline := None; foreground := None;
          background := None; isAnchor := false; anchorHref := "";
          imageFormat := Some {| img_name := name; img_width := 1000; img_height := 500 |} |} |}.

Definition one_block (frs : list QTextFragment) : QTextBlock :=
  {| block_alignment := 0; block_charFormat := QTextCharFormat_new; fragments := frs |}.

Definition png : bytes := [x89; x50; x4e; x47].

(** A document with the picture [photo.png], present in the store. *)
Definition picture_doc : @QTextDocument qt :=
  {| blocks := [one_block [image_fragment "photo.png"]];
     resources := {[ "photo.png" := png ]} |}.

(** A document whose image run names a resource the store does not have. *)
Definition dangling_doc : @QTextDocument qt :=
  {| blocks := [one_block [image_fragment "missing.png"]]; resources := ∅ |}.

Definition hello_doc : @QTextDocument qt :=
  {| blocks := [one_block [{| frag_text := "Bonjour"; charFormat := QTextCharFormat_new |}]];
     resources := ∅ |}.

Definition words_of (text : string) : QTextFragment :=
  {| frag_text := text; charFormat := QTextCharFormat_new |}.

(** A centred title, then a line with the green link between two words. *)
Definition link_doc : @QTextDocument qt :=
  {| blocks :=
       [ {| block_alignment := AlignCenter; block_charFormat := QTextCharFormat_new;
            fragments := [words_of "Adresses"] |};
         one_block [words_of "Voir "; link_fragment; words_of " ici"] ];
     resources := ∅ |}.




Definition world (doc : @QTextDocument qt) (files : gmap string bytes) : @World qt :=
  {| window := {| text_edit := doc; current_file := None; is_modified := true;
                  window_title := "OpenLautrec"; status := []; dialogs := [] |};
     fs := files; io_log := []; ticks := 0 |}.

End Demo.

(** ** More of the program: vocabulary *)

Section ContainerSteps.
Context `{Platform} `{Qt} `{PyLib}.

(** main.py:4065-4087: what [load_olc] does with the deserialised
    snapshot, the part of [load_olc_body] after [pickle.loads]. *)
Definition apply_snapshot (filename : string) (olc_data : pyval) : M World unit :=
  images <- lift (py_get olc_data "images" (PyDict [])) ;;
  items <- lift (py_items images) ;;
  for_each items (fun item =>
    image <- lift (load_image (snd item)) ;;
    modify (set_text_edit (addResource (fst item) image))) ;;;
  html_content <- lift (py_get olc_data "html_content" (PyStr "")) ;;
  match html_content with
  | PyStr html => modify (set_text_edit (setHtml html))
  | PyNone => modify (set_text_edit (setHtml ""))    (* [None] is the null string *)
  | _ => raise TypeError
  end ;;;
  metadata <- lift (py_get olc_data "metadata" (PyDict [])) ;;
  created <- lift (py_get olc_data "created" (PyStr "Date inconnue")) ;;
  file_size <- getsize filename ;;
  created10 <- lift (py_slice10 created) ;;
  word_count <- lift (py_get metadata "word_count" (PyInt 0)) ;;
  n_images <- lift (py_len images) ;;
  showMessage (OlcLoaded file_size created10 word_count n_images).

(** The handler of [load_olc] (main.py:4089-4103). *)
Definition load_olc_handler (e : exn) : World -> World :=
  if is_ValueError e
  then QMessageBox_critical "Fichier invalide" "" e
  else QMessageBox_critical "Erreur" "Impossible de charger le fichier .olc:" e.

End ContainerSteps.

(** The answer to the question of [maybe_save] ("Le document a été
    modifié...").  The question box and the file dialogs are inputs of the
    commands below: their answers are arguments. *)
Inductive reply : Type := Save | Discard | Cancel.

Section Commands.
Context `{Platform} `{Qt} `{PyLib} `{Modules} `{Docx} `{Odf} `{Runtime}.

(** main.py:2873-2889; [chosen] is the name the save dialog returned,
    empty when it was cancelled. *)
Definition save_file_as (chosen : string) (w : World) : bool * World :=
  if negb (String.eqb chosen "") then save_to_file chosen w else (false, w).

(** main.py:2867-2871 *)
Definition save_file (chosen : string) (w : World) : bool * World :=
  match current_file (window w) with
  | Some file =>
      if negb (String.eqb file "") then save_to_file file w else save_file_as chosen w
  | None => save_file_as chosen w
  end.

(** main.py:2941-2956 *)
Definition maybe_save (answer : reply) (chosen : string) (w : World) : bool * World :=
  if negb (is_modified (window w)) then (true, w)
  else
    match answer with
    | Save => save_file chosen w
    | Cancel => (false, w)
    | Discard => (true, w)
    end.

(** main.py:2827-2865, the whole command: [opened] is the name the open
    dialog returned, empty when it was cancelled. *)
Definition open_file_command (answer : reply) (chosen opened : string) (w : World) : World :=
  let '(proceed, w1) := maybe_save answer chosen w in
  if proceed then
    if negb (String.eqb opened "") then open_file opened w1 else w1
  else w1.

End Commands.

(** * The timer dialog ([TimerDialog], main.py:728-1048)

    The dialog has two tabs, a countdown and a stopwatch, driven by one
    [QTimer] and one counter, [remaining_seconds].  The state below is
    the attributes the methods read and write; a method is a function on
    it, and the user's actions and the timer's signal are events. *)

Record QSpinBox : Type := { spin_value : Z; spin_enabled : bool }.
Record QPushButton : Type := { btn_enabled : bool; btn_text : string }.

(** The two style sheets of the countdown display: the one [init_ui] sets
    (main.py:806-817) and the red one of the last minute (main.py:980-991). *)
Inductive display_style : Type := InitialDisplay | LastMinuteDisplay.

(** The style sheet of the progress bar: the one [init_ui] sets, or the
    gradient [update_progress_bar] computes from the two counters. *)
Inductive bar_style : Type :=
| InitialBar
| Gradient (remaining total : Z).

Inductive timer_box : Type :=
| TimerWarning (title text : string)
| TimerInformation (title text : string).

Record TimerDialog : Type := {
  hours_spin : QSpinBox;   (* range 0..23 *)
  minutes_spin : QSpinBox;   (* range 0..59 *)
  seconds_spin : QSpinBox;   (* range 0..59 *)
  timer : bool;   (* the QTimer [self.timer] is active *)
  remaining_seconds : Z;
  total_seconds : Z;
  is_running : bool;
  tabs : Z;   (* [tabs.currentIndex()]: 0 the countdown, 1 the stopwatch *)
  timer_display : string;
  timer_display_styleSheet : display_style;
  progress_bar : bar_style;
  start_btn : QPushButton;
  pause_btn : QPushButton;
  stopwatch_display : string;
  stopwatch_start_btn : QPushButton;
  stopwatch_pause_btn : QPushButton;
  message_boxes : list timer_box   (* the modal boxes shown, oldest first *)
}.

(** Assignment to one attribute of the dialog. *)
Definition set_hours_spin (v : QSpinBox) (d : TimerDialog) : TimerDialog :=
  {| hours_spin := v; minutes_spin := minutes_spin d; seconds_spin := seconds_spin d;
     timer := timer d; remaining_seconds := remaining_seconds d;
     total_seconds := total_seconds d; is_running := is_running d; tabs := tabs d;
     timer_display := timer_display d; timer_display_styleSheet := timer_display_styleSheet d;
     progress_bar := progress_bar d; start_btn := start_btn d; pause_btn := pause_btn d;
     stopwatch_display := stopwatch_display d; stopwatch_start_btn := stopwatch_start_btn d;
     stopwatch_pause_btn := stopwatch_pause_btn d; message_boxes := message_boxes d |}.

Definition set_minutes_spin (v : QSpinBox) (d : TimerDialog) : TimerDialog :=
  {| hours_spin := hours_spin d; minutes_spin := v; seconds_spin := seconds_spin d;
     timer := timer d; remaining_seconds := remaining_seconds d;
     total_seconds := total_seconds d; is_running := is_running d; tabs := tabs d;
     timer_display := timer_display d; timer_display_styleSheet := timer_display_styleSheet d;
     progress_bar := progress_bar d; start_btn := start_btn d; pause_btn := pause_btn d;
     stopwatch_display := stopwatch_display d; stopwatch_start_btn := stopwatch_start_btn d;
     stopwatch_pause_btn := stopwatch_pause_btn d; message_boxes := message_boxes d |}.

Definition set_seconds_spin (v : QSpinBox) (d : TimerDialog) : TimerDialog :=
  {| hours_spin := hours_spin d; minutes_spin := minutes_spin d; seconds_spin := v;
     timer := timer d; remaining_seconds := remaining_seconds d;
     total_seconds := total_seconds d; is_running := is_running d; tabs := tabs d;
     timer_display := timer_display d; timer_display_styleSheet := timer_display_styleSheet d;
     progress_bar := progress_bar d; start_btn := start_btn d; pause_btn := pause_btn d;
     stopwatch_display := stopwatch_display d; stopwatch_start_btn := stopwatch_start_btn d;
     stopwatch_pause_btn := stopwatch_pause_btn d; message_boxes := message_boxes d |}.

Definition set_timer (v : bool) (d : TimerDialog) : TimerDialog :=
  {| hours_spin := hours_spin d; minutes_spin := minutes_spin d; seconds_spin := seconds_spin d;
     timer := v; remaining_seconds := remaining_seconds d; total_seconds := total_seconds d;
     is_running := is_running d; tabs := tabs d; timer_display := timer_display d;
     timer_display_styleSheet := timer_display_styleSheet d; progress_bar := progress_bar d;
     start_btn := start_btn d; pause_btn := pause_btn d;
     stopwatch_display := stopwatch_display d; stopwatch_start_btn := stopwatch_start_btn d;
     stopwatch_pause_btn := stopwatch_pause_btn d; message_boxes := message_boxes d |}.

Definition set_remaining_seconds (v : Z) (d : TimerDialog) : TimerDialog :=
  {| hours_spin := hours_spin d; minutes_spin := minutes_spin d; seconds_spin := seconds_spin d;
     timer := timer d; remaining_seconds := v; total_seconds := total_seconds d;
     is_running := is_running d; tabs := tabs d; timer_display := timer_display d;
     timer_display_styleSheet := timer_display_styleSheet d; progress_bar := progress_bar d;
     start_btn := start_btn d; pause_btn := pause_btn d;
     stopwatch_display := stopwatch_display d; stopwatch_start_btn := stopwatch_start_btn d;
     stopwatch_pause_btn := stopwatch_pause_btn d; message_boxes := message_boxes d |}.

Definition set_total_seconds (v : Z) (d : TimerDialog) : TimerDialog :=
  {| hours_spin := hours_spin d; minutes_spin := minutes_spin d; seconds_spin := seconds_spin d;
     timer := timer d; remaining_seconds := remaining_seconds d; total_seconds := v;
     is_running := is_running d; tabs := tabs d; timer_display := timer_display d;
     timer_display_styleSheet := timer_display_styleSheet d; progress_bar := progress_bar d;
     start_btn := start_btn d; pause_btn := pause_btn d;
     stopwatch_display := stopwatch_display d; stopwatch_start_btn := stopwatch_start_btn d;
     stopwatch_pause_btn := stopwatch_pause_btn d; message_boxes := message_boxes d |}.

Definition set_is_running (v : bool) (d : TimerDialog) : TimerDialog :=
  {| hours_spin := hours_spin d; minutes_spin := minutes_spin d; seconds_spin := seconds_spin d;
     timer := timer d; remaining_seconds := remaining_seconds d;
     total_seconds := total_seconds d; is_running := v; tabs := tabs d;
     timer_display := timer_display d; timer_display_styleSheet := timer_display_styleSheet d;
     progress_bar := progress_bar d; start_btn := start_btn d; pause_btn := pause_btn d;
     stopwatch_display := stopwatch_display d; stopwatch_start_btn := stopwatch_start_btn d;
     stopwatch_pause_btn := stopwatch_pause_btn d; message_boxes := message_boxes d |}.

Definition set_tabs (v : Z) (d : TimerDialog) : TimerDialog :=
  {| hours_spin := hours_spin d; minutes_spin := minutes_spin d; seconds_spin := seconds_spin d;
     timer := timer d; remaining_seconds := remaining_seconds d;
     total_seconds := total_seconds d; is_running := is_running d; tabs := v;
     timer_display := timer_display d; timer_display_styleSheet := timer_display_styleSheet d;
     progress_bar := progress_bar d; start_btn := start_btn d; pause_btn := pause_btn d;
     stopwatch_display := stopwatch_display d; stopwatch_start_btn := stopwatch_start_btn d;
     stopwatch_pause_btn := stopwatch_pause_btn d; message_boxes := message_boxes d |}.

Definition set_timer_display (v : string) (d : TimerDialog) : TimerDialog :=
  {| hours_spin := hours_spin d; minutes_spin := minutes_spin d; seconds_spin := seconds_spin d;
     timer := timer d; remaining_seconds := remaining_seconds d;
     total_seconds := total_seconds d; is_running := is_running d; tabs := tabs d;
     timer_display := v; timer_display_styleSheet := timer_display_styleSheet d;
     progress_bar := progress_bar d; start_btn := start_btn d; pause_btn := pause_btn d;
     stopwatch_display := stopwatch_display d; stopwatch_start_btn := stopwatch_start_btn d;
     stopwatch_pause_btn := stopwatch_pause_btn d; message_boxes := message_boxes d |}.

Definition set_timer_display_styleSheet (v : display_style) (d : TimerDialog) : TimerDialog :=
  {| hours_spin := hours_spin d; minutes_spin := minutes_spin d; seconds_spin := seconds_spin d;
     timer := timer d; remaining_seconds := remaining_seconds d;
     total_seconds := total_seconds d; is_running := is_running d; tabs := tabs d;
     timer_display := timer_display d; timer_display_styleSheet := v;
     progress_bar := progress_bar d; start_btn := start_btn d; pause_btn := pause_btn d;
     stopwatch_display := stopwatch_display d; stopwatch_start_btn := stopwatch_start_btn d;
     stopwatch_pause_btn := stopwatch_pause_btn d; message_boxes := message_boxes d |}.

Definition set_progress_bar (v : bar_style) (d : TimerDialog) : TimerDialog :=
  {| hours_spin := hours_spin d; minutes_spin := minutes_spin d; seconds_spin := seconds_spin d;
     timer := timer d; remaining_seconds := remaining_seconds d;
     total_seconds := total_seconds d; is_running := is_running d; tabs := tabs d;
     timer_display := timer_display d; timer_display_styleSheet := timer_display_styleSheet d;
     progress_bar := v; start_btn := start_btn d; pause_btn := pause_btn d;
     stopwatch_display := stopwatch_display d; stopwatch_start_btn := stopwatch_start_btn d;
     stopwatch_pause_btn := stopwatch_pause_btn d; message_boxes := message_boxes d |}.

Definition set_start_btn (v : QPushButton) (d : TimerDialog) : TimerDialog :=
  {| hours_spin := hours_spin d; minutes_spin := minutes_spin d; seconds_spin := seconds_spin d;
     timer := timer d; remaining_seconds := remaining_seconds d;
     total_seconds := total_seconds d; is_running := is_running d; tabs := tabs d;
     timer_display := timer_display d; timer_display_styleSheet := timer_display_styleSheet d;
     progress_bar := progress_bar d; start_btn := v; pause_btn := pause_btn d;
     stopwatch_display := stopwatch_display d; stopwatch_start_btn := stopwatch_start_btn d;
     stopwatch_pause_btn := stopwatch_pause_btn d; message_boxes := message_boxes d |}.

Definition set_pause_btn (v : QPushButton) (d : TimerDialog) : TimerDialog :=
  {| hours_spin := hours_spin d; minutes_spin := minutes_spin d; seconds_spin := seconds_spin d;
     timer := timer d; remaining_seconds := remaining_seconds d;
     total_seconds := total_seconds d; is_running := is_running d; tabs := tabs d;
     timer_display := timer_display d; timer_display_styleSheet := timer_display_styleSheet d;
     progress_bar := progress_bar d; start_btn := start_btn d; pause_btn := v;
     stopwatch_display := stopwatch_display d; stopwatch_start_btn := stopwatch_start_btn d;
     stopwatch_pause_btn := stopwatch_pause_btn d; message_boxes := message_boxes d |}.

Definition set_stopwatch_display (v : string) (d : TimerDialog) : TimerDialog :=
  {| hours_spin := hours_spin d; minutes_spin := minutes_spin d; seconds_spin := seconds_spin d;
     timer := timer d; remaining_seconds := remaining_seconds d;
     total_seconds := total_seconds d; is_running := is_running d; tabs := tabs d;
     timer_display := timer_display d; timer_display_styleSheet := timer_display_styleSheet d;
     progress_bar := progress_bar d; start_btn := start_btn d; pause_btn := pause_btn d;
     stopwatch_display := v; stopwatch_start_btn := stopwatch_start_btn d;
     stopwatch_pause_btn := stopwatch_pause_btn d; message_boxes := message_boxes d |}.

Definition set_stopwatch_start_btn (v : QPushButton) (d : TimerDialog) : TimerDialog :=
  {| hours_spin := hours_spin d; minutes_spin := minutes_spin d; seconds_spin := seconds_spin d;
     timer := timer d; remaining_seconds := remaining_seconds d;
     total_seconds := total_seconds d; is_running := is_running d; tabs := tabs d;
     timer_display := timer_display d; timer_display_styleSheet := timer_display_styleSheet d;
     progress_bar := progress_bar d; start_btn := start_btn d; pause_btn := pause_btn d;
     stopwatch_display := stopwatch_display d; stopwatch_start_btn := v;
     stopwatch_pause_btn := stopwatch_pause_btn d; message_boxes := message_boxes d |}.

Definition set_stopwatch_pause_btn (v : QPushButton) (d : TimerDialog) : TimerDialog :=
  {| hours_spin := hours_spin d; minutes_spin := minutes_spin d; seconds_spin := seconds_spin d;
     timer := timer d; remaining_seconds := remaining_seconds d;
     total_seconds := total_seconds d; is_running := is_running d; tabs := tabs d;
     timer_display := timer_display d; timer_display_styleSheet := timer_display_styleSheet d;
     progress_bar := progress_bar d; start_btn := start_btn d; pause_btn := pause_btn d;
     stopwatch_display := stopwatch_display d; stopwatch_start_btn := stopwatch_start_btn d;
     stopwatch_pause_btn := v; message_boxes := message_boxes d |}.

Definition set_message_boxes (v : list timer_box) (d : TimerDialog) : TimerDialog :=
  {| hours_spin := hours_spin d; minutes_spin := minutes_spin d; seconds_spin := seconds_spin d;
     timer := timer d; remaining_seconds := remaining_seconds d;
     total_seconds := total_seconds d; is_running := is_running d; tabs := tabs d;
     timer_display := timer_display d; timer_display_styleSheet := timer_display_styleSheet d;
     progress_bar := progress_bar d; start_btn := start_btn d; pause_btn := pause_btn d;
     stopwatch_display := stopwatch_display d; stopwatch_start_btn := stopwatch_start_btn d;
     stopwatch_pause_btn := stopwatch_pause_btn d; message_boxes := v |}.

Definition setEnabled (b : bool) (w : QPushButton) : QPushButton :=
  {| btn_enabled := b; btn_text := btn_text w |}.
Definition setText (s : string) (w : QPushButton) : QPushButton :=
  {| btn_enabled := btn_enabled w; btn_text := s |}.
Definition spin_setEnabled (b : bool) (w : QSpinBox) : QSpinBox :=
  {| spin_value := spin_value w; spin_enabled := b |}.

(** [QSpinBox.setValue]: the value is brought into the range. *)
Definition spin_setValue (lo hi v : Z) (w : QSpinBox) : QSpinBox :=
  {| spin_value := Z.max lo (Z.min hi v); spin_enabled := spin_enabled w |}.

(** [f"{n:02d}"] *)
Definition format_02d (n : Z) : string :=
  let digits := DecimalString.NilZero.string_of_int (Z.to_int n) in
  if (String.length digits <? 2)%nat then String.append "0" digits else digits.

(** main.py:972-976 and 1001-1005: the text of a display *)
Definition hms (remaining_seconds : Z) : string :=
  let hours := remaining_seconds / 3600 in
  let minutes := (remaining_seconds mod 3600) / 60 in
  let seconds := remaining_seconds mod 60 in
  String.append (format_02d hours)
    (String.append ":" (String.append (format_02d minutes)
       (String.append ":" (format_02d seconds)))).

Definition PAUSE_TEXT : string := "⏸️ Pause".
Definition RESUME_TEXT : string := "▶️ Reprendre".

(** The dialog [__init__] and [init_ui] build (main.py:730-908). *)
Definition TimerDialog_new : TimerDialog :=
  {| hours_spin := {| spin_value := 0; spin_enabled := true |};
     minutes_spin := {| spin_value := 25; spin_enabled := true |};
     seconds_spin := {| spin_value := 0; spin_enabled := true |};
     timer := false; remaining_seconds := 0; total_seconds := 0; is_running := false;
     tabs := 0; timer_display := "00:00:00"; timer_display_styleSheet := InitialDisplay;
     progress_bar := InitialBar;
     start_btn := {| btn_enabled := true; btn_text := "▶️ Démarrer" |};
     pause_btn := {| btn_enabled := false; btn_text := PAUSE_TEXT |};
     stopwatch_display := "00:00:00";
     stopwatch_start_btn := {| btn_enabled := true; btn_text := "▶️ Démarrer" |};
     stopwatch_pause_btn := {| btn_enabled := false; btn_text := PAUSE_TEXT |};
     message_boxes := [] |}.

(** main.py:910-913 *)
Definition set_preset (hours minutes seconds : Z) (d : TimerDialog) : TimerDialog :=
  let d := set_hours_spin (spin_setValue 0 23 hours (hours_spin d)) d in
  let d := set_minutes_spin (spin_setValue 0 59 minutes (minutes_spin d)) d in
  set_seconds_spin (spin_setValue 0 59 seconds (seconds_spin d)) d.

(** main.py:1007-1019 *)
Definition update_progress_bar (d : TimerDialog) : TimerDialog :=
  if 0 <? total_seconds d
  then set_progress_bar (Gradient (remaining_seconds d) (total_seconds d)) d
  else d.

(** main.py:915-934 *)
Definition start_timer (d : TimerDialog) : TimerDialog :=
  if negb (is_running d) then
    let d := set_total_seconds (spin_value (hours_spin d) * 3600 +
                                spin_value (minutes_spin d) * 60 +
                                spin_value (seconds_spin d)) d in
    if total_seconds d =? 0 then
      set_message_boxes
        (message_boxes d ++
           [TimerWarning "Erreur" "Veuillez définir une durée supérieure à 0."]) d
    else
      let d := set_remaining_seconds (total_seconds d) d in
      let d := set_is_running true d in
      let d := set_timer true d in
      let d := set_hours_spin (spin_setEnabled false (hours_spin d)) d in
      let d := set_minutes_spin (spin_setEnabled false (minutes_spin d)) d in
      let d := set_seconds_spin (spin_setEnabled false (seconds_spin d)) d in
      let d := set_start_btn (setEnabled false (start_btn d)) d in
      set_pause_btn (setEnabled true (pause_btn d)) d
  else d.

(** main.py:936-946 *)
Definition pause_timer (d : TimerDialog) : TimerDialog :=
  if is_running d then
    let d := set_timer false d in
    let d := set_is_running false d in
    let d := set_pause_btn (setText RESUME_TEXT (pause_btn d)) d in
    set_start_btn (setEnabled true (start_btn d)) d
  else
    let d := set_timer true d in
    let d := set_is_running true d in
    let d := set_pause_btn (setText PAUSE_TEXT (pause_btn d)) d in
    set_start_btn (setEnabled false (start_btn d)) d.

(** main.py:948-962 *)
Definition reset_timer (d : TimerDialog) : TimerDialog :=
  let d := set_timer false d in
  let d := set_is_running false d in
  let d := set_remaining_seconds 0 d in
  let d := set_timer_display "00:00:00" d in
  let d := set_hours_spin (spin_setEnabled true (hours_spin d)) d in
  let d := set_minutes_spin (spin_setEnabled true (minutes_spin d)) d in
  let d := set_seconds_spin (spin_setEnabled true (seconds_spin d)) d in
  let d := set_start_btn (setEnabled true (start_btn d)) d in
  let d := set_pause_btn (setEnabled false (pause_btn d)) d in
  let d := set_pause_btn (setText PAUSE_TEXT (pause_btn d)) d in
  update_progress_bar d.

(** main.py:964-1006: the slot of the timer's [timeout] signal *)
Definition update_timer (d : TimerDialog) : TimerDialog :=
  let current_tab := tabs d in
  if current_tab =? 0 then
    if 0 <? remaining_seconds d then
      let d := set_remaining_seconds (remaining_seconds d - 1) d in
      let d := set_timer_display (hms (remaining_seconds d)) d in
      let d := update_progress_bar d in
      if remaining_seconds d <=? 60
      then set_timer_display_styleSheet LastMinuteDisplay d
      else d
    else
      let d := set_timer false d in
      let d := set_is_running false d in
      let d := set_message_boxes
                 (message_boxes d ++
                    [TimerInformation "Temps écoulé !" "Le minuteur est terminé !"]) d in
      reset_timer d
  else
    let d := set_remaining_seconds (remaining_seconds d + 1) d in
    set_stopwatch_display (hms (remaining_seconds d)) d.

(** main.py:1021-1026 *)
Definition start_stopwatch (d : TimerDialog) : TimerDialog :=
  if negb (is_running d) then
    let d := set_is_running true d in
    let d := set_timer true d in
    let d := set_stopwatch_start_btn (setEnabled false (stopwatch_start_btn d)) d in
    set_stopwatch_pause_btn (setEnabled true (stopwatch_pause_btn d)) d
  else d.

(** main.py:1028-1038 *)
Definition pause_stopwatch (d : TimerDialog) : TimerDialog :=
  if is_running d then
    let d := set_timer false d in
    let d := set_is_running false d in
    let d := set_stopwatch_pause_btn (setText RESUME_TEXT (stopwatch_pause_btn d)) d in
    set_stopwatch_start_btn (setEnabled true (stopwatch_start_btn d)) d
  else
    let d := set_timer true d in
    let d := set_is_running true d in
    let d := set_stopwatch_pause_btn (setText PAUSE_TEXT (stopwatch_pause_btn d)) d in
    set_stopwatch_start_btn (setEnabled false (stopwatch_start_btn d)) d.

(** main.py:1040-1047 *)
Definition reset_stopwatch (d : TimerDialog) : TimerDialog :=
  let d := set_timer false d in
  let d := set_is_running false d in
  let d := set_remaining_seconds 0 d in
  let d := set_stopwatch_display "00:00:00" d in
  let d := set_stopwatch_start_btn (setEnabled true (stopwatch_start_btn d)) d in
  let d := set_stopwatch_pause_btn (setEnabled false (stopwatch_pause_btn d)) d in
  set_stopwatch_pause_btn (setText PAUSE_TEXT (stopwatch_pause_btn d)) d.

(** What reaches the dialog: the [timeout] signal of the timer, a click on
    one of its buttons, the choice of a tab, a value typed in a spin box. *)
Inductive timer_button : Type :=
| StartButton | PauseButton | ResetButton
| StopwatchStartButton | StopwatchPauseButton | StopwatchResetButton
| PomodoroButton | ShortBreakButton | ExamButton.

Inductive timer_event : Type :=
| Timeout
| Clicked (button : timer_button)
| TabSelected (index : Z)
| HoursEdited (v : Z)
| MinutesEdited (v : Z)
| SecondsEdited (v : Z).

(** The connections [init_ui] makes (main.py:735-737, 791-893).  A
    stopped timer sends no signal, a disabled widget takes no input, and
    the tab widget has the two tabs 0 and 1. *)
Definition handle (d : TimerDialog) (e : timer_event) : TimerDialog :=
  match e with
  | Timeout => if timer d then update_timer d else d
  | Clicked StartButton => if btn_enabled (start_btn d) then start_timer d else d
  | Clicked PauseButton => if btn_enabled (pause_btn d) then pause_timer d else d
  | Clicked ResetButton => reset_timer d
  | Clicked StopwatchStartButton =>
      if btn_enabled (stopwatch_start_btn d) then start_stopwatch d else d
  | Clicked StopwatchPauseButton =>
      if btn_enabled (stopwatch_pause_btn d) then pause_stopwatch d else d
  | Clicked StopwatchResetButton => reset_stopwatch d
  | Clicked PomodoroButton => set_preset 0 25 0 d
  | Clicked ShortBreakButton => set_preset 0 5 0 d
  | Clicked ExamButton => set_preset 1 0 0 d
  | TabSelected index => if (index =? 0) || (index =? 1) then set_tabs index d else d
  | HoursEdited v =>
      if spin_enabled (hours_spin d)
      then set_hours_spin (spin_setValue 0 23 v (hours_spin d)) d else d
  | MinutesEdited v =>
      if spin_enabled (minutes_spin d)
      then set_minutes_spin (spin_setValue 0 59 v (minutes_spin d)) d else d
  | SecondsEdited v =>
      if spin_enabled (seconds_spin d)
      then set_seconds_spin (spin_setValue 0 59 v (seconds_spin d)) d else d
  end.

(** [n] signals of the timer in a row. *)
Definition timeouts (n : nat) (d : TimerDialog) : TimerDialog :=
  Nat.iter n (fun d => handle d Timeout) d.

(** *** Vocabulary for statements about the codecs *)

(** The text a fragment contributes to the paragraph [save_as_docx]
    writes: nothing for an image run, the text twice for a link, the text
    otherwise. *)
Definition fragment_export_text (fragment : QTextFragment) : string :=
  match imageFormat (charFormat fragment) with
  | Some _ => ""
  | None =>
      if negb (String.eqb (anchorHref (charFormat fragment)) "")
      then String.append (frag_text fragment) (frag_text fragment)
      else frag_text fragment
  end.

Definition block_export_text (block : QTextBlock) : string :=
  fold_right String.append "" (map fragment_export_text (fragments block)).

(** A fragment python-docx takes: an image run, or a text run whose text
    and font family the XML library accepts and whose font size is a
    length the library can write. *)
Definition run_accepted `{Qt} `{Docx} (fragment : QTextFragment) : bool :=
  isImageFormat (charFormat fragment)
  || (xml_compatible (frag_text fragment)
      && xml_compatible (family (font (charFormat fragment)))
      && font_size_accepted (Pt (pointSize (font (charFormat fragment))))).

Definition docx_exportable `{Qt} `{Docx} (doc : QTextDocument) : bool :=
  forallb (fun block => forallb run_accepted (fragments block)) (blocks doc).

(** The children of a paragraph hold, one after the other, a run of the
    text of the link, blue and underlined, and a hyperlink element of the
    same text, whose relationship is to the target of the link. *)
Definition link_exported (rels : list string) (fragment : QTextFragment)
    (children : list paragraph_child) : Prop :=
  exists before after run r_id,
    children =
      before ++ [W_r run; W_hyperlink r_id "0000FF" "single" (frag_text fragment)] ++ after
    /\ run_text run = frag_text fragment
    /\ run_font_color_rgb run = Some {| red := 0; green := 0; blue := 255 |}
    /\ run_underline run = Some true
    /\ rels !! r_id = Some (anchorHref (charFormat fragment)).

(** What [save_as_docx] makes of a block: the alignment, the text, and
    the links. *)
Definition block_exported (rels : list string) (block : QTextBlock)
    (paragraph : Paragraph) : Prop :=
  paragraph_alignment paragraph =
    (if alignment block =? AlignCenter then 1
     else if alignment block =? AlignRight then 2
     else if alignment block =? AlignJustify then 3
     else 0)
  /\ visible_text (paragraph_children paragraph) = block_export_text block
  /\ forall fragment,
       In fragment (fragments block) ->
       imageFormat (charFormat fragment) = None ->
       anchorHref (charFormat fragment) <> "" ->
       link_exported rels fragment (paragraph_children paragraph).




(** Every accessor of the run but the colour returns. *)
Definition readable_run (run : DocxRunIn) : Prop :=
  (exists v, in_font_name run = Ok v)
  /\ (exists v, in_font_size_pt run = Ok v)
  /\ (exists v, in_bold run = Ok v)
  /\ (exists v, in_italic run = Ok v)
  /\ (exists v, in_underline run = Ok v)
  /\ (exists v, in_highlight_color run = Ok v)
  /\ (exists v, in_text run = Ok v).

Definition readable_paragraph (paragraph : DocxParagraphIn) : Prop :=
  (exists a, in_alignment paragraph = Ok a)
  /\ Forall readable_run (in_runs paragraph).

(** The paragraph sets no alignment: the property is absent or is LEFT,
    the value 0. *)
Definition no_alignment (paragraph : DocxParagraphIn) : Prop :=
  in_alignment paragraph = Ok None \/ in_alignment paragraph = Ok (Some 0).

(** What an inline element of the office-suite export refers to is in the
    document: the picture of a frame, the style of a span. *)
Definition inline_resolved (pictures : list nat) (styles : list style_name)
    (inline : odf_inline) : Prop :=
  match inline with
  | Frame _ _ _ n => In n pictures
  | Span name _ => In name styles
  | A _ _ name _ => In name styles
  end.

(** The two states differ in the text of the editor at most. *)
Definition same_but_text `{Qt} (w w' : World) : Prop :=
  current_file (window w') = current_file (window w)
  /\ is_modified (window w') = is_modified (window w)
  /\ window_title (window w') = window_title (window w)
  /\ status (window w') = status (window w)
  /\ dialogs (window w') = dialogs (window w)
  /\ fs w' = fs w
  /\ io_log w' = io_log w
  /\ ticks w' = ticks w.

(** The command returns, and its only effect is to apply [f] to the
    document of the editor. *)
Definition edits `{Qt} (m : M World unit) (f : QTextDocument -> QTextDocument) : Prop :=
  forall w, exists w',
    m w = (Ok tt, w')
    /\ text_edit (window w') = f (text_edit (window w))
    /\ same_but_text w w'.

(** The document is the blocks [done], then blocks of alignment [a], the
    last of which holds the cursor. *)
Definition aligned_tail `{Qt} (done : list QTextBlock) (a : Z) (doc : QTextDocument) : Prop :=
  exists extra current,
    split_last (blocks doc) = (done ++ extra, current)
    /\ Forall (fun b => block_alignment b = a) extra
    /\ block_alignment current = a.

(** The state of the office-suite export is consistent: the pictures are
    numbered from 1 in the order they were added, the counter is their
    number, and the paragraph in progress and the paragraphs written refer
    to pictures and styles of the document only. *)
Definition odt_consistent (st : odt_state) : Prop :=
  let pictures := map fst (odt_pictures (odt_doc st)) in
  let styles := map st_name (odt_automaticstyles (odt_doc st)) in
  image_counter st = length pictures
  /\ pictures = seq 1 (length pictures)
  /\ Forall (inline_resolved pictures styles) (odt_p st)
  /\ Forall (Forall (inline_resolved pictures styles)) (odt_text (odt_doc st)).

(** What holds of the dialog whatever happened to it: the flag
    [is_running] says whether the timer is active, no counter is negative
    and the spin boxes are within their ranges. *)
Definition timer_invariant (d : TimerDialog) : Prop :=
  is_running d = timer d
  /\ 0 <= remaining_seconds d
  /\ 0 <= total_seconds d
  /\ 0 <= spin_value (hours_spin d) <= 23
  /\ 0 <= spin_value (minutes_spin d) <= 59
  /\ 0 <= spin_value (seconds_spin d) <= 59.

(** The duration the three spin boxes show, in seconds. *)
Definition spins_seconds (d : TimerDialog) : Z :=
  spin_value (hours_spin d) * 3600 + spin_value (minutes_spin d) * 60
  + spin_value (seconds_spin d).

(** * The settings and the exam password ([Settings], main.py:95-207)

    [self.settings] is a dictionary read from a JSON file, so its values
    are JSON values of any kind; the password functions look up two of
    its entries, hash with [hashlib] and draw salts with [secrets]. *)

Inductive json : Type :=
| JNull
| JBool (b : bool)
| JInt (n : Z)
| JFloat (x : pyfloat)
| JStr (s : string)
| JArray (items : list json)
| JObject (members : list (string * json)).

(** [bool(v)] *)
Definition json_truth (v : json) : bool :=
  match v with
  | JNull => false
  | JBool b => b
  | JInt n => negb (n =? 0)
  | JFloat (FFin q) => negb (Qeq_bool q 0)
  | JFloat _ => true
  | JStr s => negb (String.eqb s "")
  | JArray items => match items with [] => false | _ => true end
  | JObject members => match members with [] => false | _ => true end
  end.

(** [d.get(key)]: [None] when the key is absent. *)
Definition dict_get (key : string) (d : list (string * json)) : json :=
  default JNull (dict_lookup key d).

(** [del d[key]] for a key that is present *)
Fixpoint dict_del {V} (k : string) (d : list (string * V)) : list (string * V) :=
  match d with
  | [] => []
  | (k', v) :: d' => if String.eqb k k' then d' else (k', v) :: dict_del k d'
  end.

Class SettingsLib : Type := {
  (** [os.path.join(os.path.expanduser('~'), '.openlautrec_settings.json')] *)
  settings_file : string;
  (** [hashlib.sha256(data).digest()], 32 bytes *)
  sha256 : bytes -> bytes;
  sha256_digest_size : forall data, length (sha256 data) = 32%nat;
  (** the bytes behind the k-th [secrets.token_hex(32)] of the run *)
  token_bytes : nat -> bytes;
  token_bytes_length : forall k, length (token_bytes k) = 32%nat;
  (** [json.dump(settings, f, indent=4, ensure_ascii=False)] into a file
      just truncated: the bytes the file holds afterwards, and the
      exception when the call raised *)
  json_dump : list (string * json) -> bytes * option exn
}.

(** [bytes.hex()], as [hexdigest] and [token_hex] give it *)
Definition hexlify (data : bytes) : string :=
  fold_right (fun b acc => String.append (hex2 (Z_of_byte b)) acc) "" data.

Definition is_ascii (s : string) : bool :=
  forallb (fun c => (nat_of_ascii c <? 128)%nat) (list_ascii_of_string s).

(** [secrets.compare_digest(a, b)] for a [str] [a]: both must be [str] and
    hold ASCII characters only. *)
Definition compare_digest (a : string) (b : json) : result bool :=
  match b with
  | JStr s => if is_ascii a && is_ascii s then Ok (String.eqb a s) else Raise TypeError
  | _ => Raise TypeError
  end.

Inductive settings_output : Type :=
| SaveFailed (e : exn)      (* "Erreur lors de la sauvegarde des paramètres: ..." *)
| MigrationDone.            (* "Migration du mot de passe vers le système de hash effectuée" *)

Record SettingsState : Type := {
  settings : list (string * json);
  disk : gmap string bytes;
  draws : nat;                       (* salts drawn so far *)
  printed : list settings_output
}.

Definition DEFAULT_PASSWORD : string := "se4fs!f7R3sok!YbnwJlf2R".

(** main.py:97-105 *)
Definition DEFAULT_SETTINGS : list (string * json) :=
  [ ("language_recognition", JStr "fr-FR");
    ("language_speech", JStr "fr-FR");
    ("spellcheck_enabled", JBool true);
    ("spellcheck_language", JStr "fr");
    ("exam_mode", JBool false);
    ("exam_password_hash", JNull);
    ("exam_password_salt", JNull) ].

Section SettingsModel.
Context `{Runtime} `{SettingsLib}.

Definition set_setting (key : string) (value : json) : M SettingsState unit :=
  modify (fun st =>
    {| settings := dict_set key value (settings st); disk := disk st;
       draws := draws st; printed := printed st |}).

Definition print (line : settings_output) : M SettingsState unit :=
  modify (fun st =>
    {| settings := settings st; disk := disk st; draws := draws st;
       printed := printed st ++ [line] |}).

(** [secrets.token_hex(32)] *)
Definition token_hex : M SettingsState string :=
  fun st =>
    (Ok (hexlify (token_bytes (draws st))),
     {| settings := settings st; disk := disk st; draws := S (draws st);
        printed := printed st |}).

(** main.py:122-131, for a [password] that is a [str]; the salt is [None]
    or any value: [password + salt] needs a [str]. *)
Definition _hash_password (password : string) (salt : json) : M SettingsState (string * string) :=
  salt <- match salt with
          | JNull => s <- token_hex ;; ret (JStr s)
          | _ => ret salt
          end ;;
  match salt with
  | JStr salt =>
      password_salt <- lift (encode_utf8 (String.append password salt)) ;;
      let password_hash := hexlify (sha256 password_salt) in
      ret (password_hash, salt)
  | _ => raise TypeError
  end.

(** main.py:184-191 *)
Definition save_settings : M SettingsState bool :=
  st <- get ;;
  let '(written, failure) := json_dump (settings st) in
  modify (fun st =>
    {| settings := settings st; disk := <[settings_file := written]> (disk st);
       draws := draws st; printed := printed st |}) ;;;
  match failure with
  | None => ret true
  | Some e => print (SaveFailed e) ;;; ret false
  end.

(** main.py:133-145 *)
Definition _migrate_plain_password : M SettingsState unit :=
  st <- get ;;
  let old_password := default (JStr DEFAULT_PASSWORD) (dict_lookup "exam_password" (settings st)) in
  r <- match old_password with
       | JStr old_password => _hash_password old_password JNull
       | _ => token_hex ;;; raise TypeError   (* [password + salt], the salt a [str] *)
       end ;;
  let '(password_hash, salt) := r in
  set_setting "exam_password_hash" (JStr password_hash) ;;;
  set_setting "exam_password_salt" (JStr salt) ;;;
  st <- get ;;
  match dict_lookup "exam_password" (settings st) with
  | Some _ =>
      modify (fun st =>
        {| settings := dict_del "exam_password" (settings st); disk := disk st;
           draws := draws st; printed := printed st |})
  | None => ret tt
  end ;;;
  save_settings ;;;
  print MigrationDone.

(** main.py:147-162 *)
Definition verify_exam_password (password : string) : M SettingsState bool :=
  st <- get ;;
  let stored_hash := dict_get "exam_password_hash" (settings st) in
  let salt := dict_get "exam_password_salt" (settings st) in
  stored <-
    (if negb (json_truth stored_hash) || negb (json_truth salt) then
       r <- _hash_password DEFAULT_PASSWORD JNull ;;
       let '(default_hash, default_salt) := r in
       set_setting "exam_password_hash" (JStr default_hash) ;;;
       set_setting "exam_password_salt" (JStr default_salt) ;;;
       save_settings ;;;
       ret (JStr default_hash, JStr default_salt)
     else ret (stored_hash, salt)) ;;
  let '(stored_hash, salt) := stored in
  r <- _hash_password password salt ;;
  let '(provided_hash, _) := r in
  lift (compare_digest provided_hash stored_hash).

(** main.py:164-169 *)
Definition set_exam_password (new_password : string) : M SettingsState unit :=
  r <- _hash_password new_password JNull ;;
  let '(password_hash, salt) := r in
  set_setting "exam_password_hash" (JStr password_hash) ;;;
  set_setting "exam_password_salt" (JStr salt) ;;;
  save_settings ;;;
  ret tt.
End SettingsModel.

(** * Following a link ([open_hyperlink], main.py:3276-3289) *)

Class Browser : Type := {
  (** [webbrowser.open(url)] *)
  webbrowser_open : string -> result bool
}.

Inductive link_event : Type :=
| BrowserOpened (url : string)
| LinkStatus (url : string) (timeout : Z)     (* "Ouverture du lien: ..." *)
| LinkWarning (url : string) (e : exn).       (* the box "Erreur d'ouverture" *)

(** ['.' in url] *)
Definition contains (c : ascii) (s : string) : bool :=
  existsb (Ascii.eqb c) (list_ascii_of_string s).

(** main.py:3278-3280: the address handed to the browser *)
Definition hyperlink_address (url : string) : string :=
  if negb (String.prefix "http://" url || String.prefix "https://" url
           || String.prefix "ftp://" url || String.prefix "file://" url)
  then
    if contains "." url && negb (String.prefix "mailto:" url)
    then String.append "https://" url
    else url
  else url.

Definition open_hyperlink `{Browser} (url : string) : list link_event :=
  let url := hyperlink_address url in
  match webbrowser_open url with
  | Ok _ => [BrowserOpened url; LinkStatus url 3000]
  | Raise e => [LinkWarning url e]
  end.

(** ** More sample libraries and inputs *)

Module Samples.

(** A codec that refuses every character outside ASCII. *)
Definition ascii_runtime : Runtime :=
  {| object_id := fun n => 0x7f0000000000 + 64 * Z.of_nat n;
     py_float := fun _ => None;
     QColor_of_name := fun _ => None;
     basename := fun path => path;
     encode_utf8 := fun s =>
       if is_ascii s then Ok (list_byte_of_string s)
       else Raise (LibError "UnicodeEncodeError");
     decode_utf8 := fun data => Ok (string_of_list_byte data);
     binary64 := fun x => x;
     binary64_le := fun x y Hle => Hle;
     binary64_integer := fun z _ => Qeq_refl (inject_Z z) |}.

Definition accented_doc : @QTextDocument Demo.qt :=
  {| blocks := [Demo.one_block [{| frag_text := "été"; charFormat := QTextCharFormat_new |}]];
     resources := ∅ |}.

(** A word-processor file of a centred title and a left-aligned
    paragraph. *)
Definition title_then_text : list DocxParagraphIn :=
  [ {| in_alignment := Ok (Some WD_CENTER); in_runs := [Demo.run_in "Titre"] |};
    {| in_alignment := Ok (Some WD_LEFT); in_runs := [Demo.run_in "Texte"] |} ].

Definition docx : Docx :=
  {| docx_open := fun data =>
       if bool_decide (data = Demo.two_paragraphs_file) then Ok title_then_text
       else Raise (LibError "PackageNotFoundError");
     docx_save := fun _ => ([x50; x4b; x05; x06], None);
     add_picture := fun stream width height =>
       Ok {| pic_stream := stream; pic_width := width; pic_height := height |};
     xml_compatible := Demo.xml_string |}.

(** An office-suite file of one paragraph and one heading. *)
Definition paragraph_and_heading : OdfDocumentIn :=
  {| in_paragraphs := [OdfElement ("text", "p") [] [OdfText "Bonjour"]];
     in_headings := [OdfElement ("text", "h") [] [OdfText "Titre"]];
     in_automaticstyles := [];
     in_styles := [] |}.

Definition odf : Odf :=
  {| odf_load := fun _ => Ok paragraph_and_heading;
     odf_save := fun _ => [x50; x4b; x05; x06];
     extractText := Demo.node_text;
     allowed_attribute := fun qname name =>
       negb (String.eqb (snd qname) "default-style" && String.eqb name "name") |}.

(** A modified letter whose file is a word-processor file, next to a web
    page. *)
Definition letter_world : @World Demo.qt :=
  {| window := {| text_edit := Demo.hello_doc; current_file := Some "lettre.docx";
                  is_modified := true; window_title := "lettre.docx - OpenLautrec";
                  status := []; dialogs := [] |};
     fs := {[ "page.html" := list_byte_of_string "Salut" ]};
     io_log := []; ticks := 0 |}.

(** Stand-ins of the right sizes for the digest and the random salt. *)
Definition settings_lib : SettingsLib :=
  {| settings_file := "/home/eleve/.openlautrec_settings.json";
     sha256 := fun data => take 32 (data ++ replicate 32 x00);
     sha256_digest_size :=
       ltac:(intros data; cbv beta; rewrite length_take, length_app, length_replicate; lia);
     token_bytes := fun k => replicate 32 (byte_of_Z (Z.of_nat k));
     token_bytes_length := ltac:(intros k; cbv beta; apply length_replicate);
     json_dump := fun _ => ([x7b; x7d], None) |}.

Definition fresh_install : SettingsState :=
  {| settings := DEFAULT_SETTINGS; disk := ∅; draws := 0; printed := [] |}.

Definition with_entry (key : string) (value : json) : SettingsState :=
  {| settings := dict_set key value DEFAULT_SETTINGS; disk := ∅; draws := 0; printed := [] |}.

End Samples.

(** * Properties *)

(** ** The state-and-exception monad *)

Lemma bind_run {S A B} (m : M S A) (k : A -> M S B) (s s' : S) (r : result A) :
  m s = (r, s') ->
  bind m k s = match r with Ok a => k a s' | Raise e => (Raise e, s') end.
Proof. intros E. unfold bind. rewrite E. reflexivity. Qed.

Lemma lift_run {S A} (r : result A) (s : S) : lift r s = (r, s).
Proof. reflexivity. Qed.

(** ** Bytes and [struct] *)

Lemma Z_of_byte_of_Z (z : Z) : Z_of_byte (byte_of_Z z) = z mod 256.
Proof.
  unfold Z_of_byte, byte_of_Z.
  assert (Hr : 0 <= z mod 256 < 256) by (apply Z.mod_pos_bound; lia).
  destruct (Byte.of_N (Z.to_N (z mod 256))) as [b|] eqn:E.
  - apply Byte.to_of_N in E. rewrite E. lia.
  - apply Byte.of_N_None_iff in E. lia.
Qed.

Lemma byte_of_Z_of_byte (b : byte) : byte_of_Z (Z_of_byte b) = b.
Proof.
  unfold Z_of_byte, byte_of_Z.
  pose proof (Byte.to_N_bounded b) as Hb.
  rewrite Z.mod_small by lia.
  rewrite N2Z.id, Byte.of_to_N. reflexivity.
Qed.

Lemma length_le_bytes (n : nat) (z : Z) : length (le_bytes n z) = n.
Proof. revert z; induction n as [|n IH]; intros z; simpl; [reflexivity|]. now rewrite IH. Qed.

Lemma le_value_le_bytes (n : nat) (z : Z) :
  le_value (le_bytes n z) = z mod 2 ^ (8 * Z.of_nat n).
Proof.
  revert z; induction n as [|n IH]; intros z.
  - simpl. now rewrite Z.mod_1_r.
  - cbn [le_bytes le_value]. rewrite Z_of_byte_of_Z, IH.
    change 256 with (2 ^ 8).
    apply Z.bits_inj'. intros k Hk.
    rewrite Z.lor_spec, Z.shiftl_spec by lia.
    destruct (Z.ltb_spec k 8) as [Hlt|Hge].
    + rewrite (Z.mod_pow2_bits_low z 8 k) by lia.
      rewrite (Z.testbit_neg_r _ (k - 8)) by lia.
      rewrite Z.mod_pow2_bits_low by lia. now rewrite orb_false_r.
    + rewrite (Z.mod_pow2_bits_high z 8 k) by lia. simpl.
      destruct (Z.ltb_spec (k - 8) (8 * Z.of_nat n)) as [Hl|Hh].
      * rewrite !Z.mod_pow2_bits_low by lia.
        rewrite Z.shiftr_spec by lia. f_equal. lia.
      * rewrite !Z.mod_pow2_bits_high by lia. reflexivity.
Qed.

Section StructFacts.
Context `{Platform}.

Lemma length_native_bytes (n : nat) (z : Z) : length (native_bytes n z) = n.
Proof.
  unfold native_bytes. destruct byteorder.
  - apply length_le_bytes.
  - rewrite length_rev. apply length_le_bytes.
Qed.

Lemma native_value_bytes (n : nat) (z : Z) :
  0 <= z < 2 ^ (8 * Z.of_nat n) -> native_value (native_bytes n z) = z.
Proof.
  intros Hz. unfold native_value, native_bytes.
  destruct byteorder; [|rewrite rev_involutive];
    rewrite le_value_le_bytes; now apply Z.mod_small.
Qed.

Lemma unpack_pack_Q (n : Z) (b : bytes) :
  pack_Q n = Ok b -> unpack_Q b = Ok n /\ length b = 8%nat.
Proof.
  unfold pack_Q, unpack_Q.
  destruct (Z.leb_spec 0 n), (Z.ltb_spec n (2 ^ 64)); simpl; try discriminate.
  intros [= <-]. rewrite length_native_bytes. simpl. split; [|reflexivity].
  f_equal. apply native_value_bytes. simpl. lia.
Qed.

Lemma unpack_pack_f (bits : Z) :
  0 <= bits < 2 ^ 32 -> unpack_f (pack_f bits) = Ok bits.
Proof.
  intros Hb. unfold unpack_f, pack_f. rewrite length_native_bytes. simpl.
  f_equal. apply native_value_bytes. simpl. lia.
Qed.
End StructFacts.

Example f32_one_is_1 : f32_value f32_one = FFin (1 # 1) /\ float_gt (f32_value f32_one) 1 = false.
Proof. split; vm_compute; reflexivity. Qed.

Example f32_two_is_2 : float_gt (f32_value f32_two) 1 = true.
Proof. vm_compute. reflexivity. Qed.

(** ** Dictionaries *)

Lemma dict_keys_set {V} (k k' : string) (v : V) (d : list (string * V)) :
  In k (dict_keys (dict_set k' v d)) <-> k = k' \/ In k (dict_keys d).
Proof.
  induction d as [|[k0 v0] d IH]; cbn.
  - intuition.
  - destruct (String.eqb_spec k' k0) as [->|Hne]; cbn; [intuition|].
    rewrite IH. intuition.
Qed.

Lemma dict_keys_set_NoDup {V} (k : string) (v : V) (d : list (string * V)) :
  List.NoDup (dict_keys d) -> List.NoDup (dict_keys (dict_set k v d)).
Proof.
  induction d as [|[k0 v0] d IH]; cbn; intros Hnd.
  - constructor; [intros []|constructor].
  - inversion Hnd as [|? ? Hnotin Hnd']; subst.
    destruct (String.eqb_spec k k0) as [->|Hne]; cbn.
    + constructor; assumption.
    + constructor; [|auto].
      intros [->|Hin]%dict_keys_set; [congruence|contradiction].
Qed.

(** ** Reading a container *)

Section ReadFacts.
Context `{Platform} `{Qt}.

Lemma maxsize_test (len n : Z) :
  n <= len \/ n <= memory -> (len <? n) && (maxsize <? n) = false.
Proof.
  pose proof memory_range as Hm. intros [Hn|Hn].
  - destruct (Z.ltb_spec len n); [lia|reflexivity].
  - destruct (Z.ltb_spec maxsize n); [lia|apply andb_false_r].
Qed.

Lemma memory_test (len n : Z) :
  n <= len \/ n <= memory -> (len <? n) && (memory <? n) = false.
Proof.
  intros [Hn|Hn].
  - destruct (Z.ltb_spec len n); [lia|reflexivity].
  - destruct (Z.ltb_spec memory n); [lia|apply andb_false_r].
Qed.

Lemma small_read (n : Z) (len : Z) : n <= 8 -> n <= len \/ n <= memory.
Proof. pose proof memory_range. lia. Qed.

(** A read that is served: the file has the bytes, or the buffer can be
    allocated. *)
Lemma f_read_run (path : string) (n : Z) (rest : bytes) (w : World) :
  n <= Z.of_nat (length rest) \/ n <= memory ->
  f_read path n rest w =
    (Ok (take (Z.to_nat n) rest, drop (Z.to_nat n) rest),
     {| window := window w; fs := fs w; io_log := io_log w ++ [Read path n];
        ticks := ticks w |}).
Proof.
  intros Hn. unfold f_read. now rewrite (maxsize_test _ _ Hn), (memory_test _ _ Hn).
Qed.


End ReadFacts.

Section OlcFacts.
Context `{Platform} `{Qt} `{PyLib}.

Ltac run :=
  unfold load_olc, save_as_olc, try_except, load_olc_body, save_as_olc_body,
    read_olc, open_rb, open_wb, f_write, getsize, datetime_now,
    QMessageBox_warning, QMessageBox_critical, showMessage,
    bind, ret, raise, get, modify, lift;
  cbn [fst snd window fs io_log ticks].

(** C3. A file whose first four bytes are not [OLC!] (a file shorter
    than four bytes included) makes [load_olc] raise the magic-number
    [ValueError] after one [read] of four bytes; the error is shown as
    "Fichier invalide", nothing else is read, no status message reports
    a load, and the document and the files are as they were. *)
Theorem load_olc_bad_magic (w : World) (filename : string) (content : bytes) :
  fs w !! filename = Some content ->
  take 4 content <> magic_OLC ->
  let w' := load_olc filename w in
  dialogs (window w') =
    dialogs (window w) ++ [Critical "Fichier invalide" "" (BadMagic (take 4 content))]
  /\ io_log w' = io_log w ++ [OpenRead filename; Read filename 4]
  /\ text_edit (window w') = text_edit (window w)
  /\ status (window w') = status (window w)
  /\ fs w' = fs w.
Proof.
  intros Hfile Hmagic. run. rewrite Hfile. cbn.
  rewrite f_read_run by (apply small_read; lia). cbn.
  rewrite bool_decide_eq_false_2 by exact Hmagic. cbn.
  rewrite <- app_assoc. repeat split; reflexivity.
Qed.

Lemma read_olc_frame (w : World) (filename : string) (version_bytes size_bytes rest : bytes) :
  fs w !! filename = Some (magic_OLC ++ version_bytes ++ size_bytes ++ rest) ->
  length version_bytes = 4%nat ->
  length size_bytes = 8%nat ->
  let data_size := native_value size_bytes in
  let compressed_data := take (Z.to_nat data_size) rest in
  data_size <= Z.of_nat (length rest) \/ data_size <= memory ->
  read_olc filename w =
    (if Z.of_nat (length compressed_data) =? data_size
     then Ok compressed_data
     else Raise (ShortPayload (length compressed_data) data_size),
     after_header filename (native_value version_bytes) data_size w).
Proof.
  intros Hfile Hv Hs data_size compressed_data Hserved. subst data_size compressed_data.
  run. rewrite Hfile. cbn -[take drop Z.to_nat].
  rewrite f_read_run by (apply small_read; lia). cbn -[take drop Z.to_nat].
  change (drop (Z.to_nat 4) (_ :: _ :: _ :: _ :: ?l)) with l.
  change (take (Z.to_nat 4) (?a :: ?b :: ?c :: ?d :: _)) with [a; b; c; d].
  rewrite bool_decide_eq_true_2 by reflexivity. cbn -[take drop Z.to_nat].
  rewrite f_read_run by (apply small_read; lia). cbn -[take drop Z.to_nat].
  rewrite take_app_length', drop_app_length' by (rewrite Hv; reflexivity).
  unfold unpack_f. rewrite Hv. cbn -[take drop Z.to_nat].
  assert (Hsize : forall s, f_read filename 8 (size_bytes ++ rest) s =
            (Ok (size_bytes, rest),
             {| window := window s; fs := fs s; io_log := io_log s ++ [Read filename 8];
                ticks := ticks s |})).
  { intros s. rewrite f_read_run by (apply small_read; lia).
    now rewrite take_app_length', drop_app_length' by (rewrite Hs; reflexivity). }
  unfold after_header, version_warning, show_dialogs.
  destruct (float_gt (f32_value (native_value version_bytes)) 1);
    cbn -[take drop Z.to_nat]; rewrite Hsize; cbn -[take drop Z.to_nat];
    unfold unpack_Q; rewrite Hs; cbn -[take drop Z.to_nat];
    rewrite f_read_run by exact Hserved; cbn -[take drop Z.to_nat];
    destruct (Z.of_nat (length (take _ rest)) =? native_value size_bytes);
    cbn -[take drop Z.to_nat]; rewrite <- ?app_assoc, ?app_nil_r; reflexivity.
Qed.



Lemma for_each_images (items : list (string * bytes)) (w : World) :
  for_each (map (fun kv => (fst kv, PyBytes (snd kv))) items)
    (fun item =>
       image <- lift (load_image (snd item)) ;;
       modify (set_text_edit (addResource (fst item) image))) w
  = (Ok tt, set_text_edit (add_images items) w).
Proof.
  revert w. induction items as [|[name b] items IH]; intros w.
  - destruct w as [[] ? ? ?]. reflexivity.
  - cbn [map for_each fst snd].
    erewrite bind_run by reflexivity. cbn beta iota.
    rewrite IH. destruct w as [[] ? ? ?]. reflexivity.
Qed.

Lemma dialogs_show_dialogs (ds : list dialog) (w : World) :
  dialogs (window (show_dialogs ds w)) = dialogs (window w) ++ ds
  /\ text_edit (window (show_dialogs ds w)) = text_edit (window w)
  /\ status (window (show_dialogs ds w)) = status (window w)
  /\ fs (show_dialogs ds w) = fs w
  /\ io_log (show_dialogs ds w) = io_log w
  /\ ticks (show_dialogs ds w) = ticks w.
Proof.
  revert w. induction ds as [|d ds IH]; intros w.
  - cbn. now rewrite app_nil_r.
  - cbn [show_dialogs fold_left]. fold (show_dialogs ds (show_dialog d w)).
    destruct (IH (show_dialog d w)) as (-> & -> & -> & -> & -> & ->).
    cbn. now rewrite <- app_assoc.
Qed.

(** A well-formed container loads: the resources of the snapshot are
    added, the blocks are rebuilt from [html_content], and the only
    message box is the version warning, if the version calls for it. *)
Lemma load_olc_well_formed (w : World) (filename : string)
    (version_bytes size_bytes payload trailing serialized : bytes)
    (snapshot : pyval) (items : list (string * bytes))
    (html created : string) (word_count : pyval) :
  fs w !! filename =
    Some (magic_OLC ++ version_bytes ++ size_bytes ++ payload ++ trailing) ->
  length version_bytes = 4%nat ->
  length size_bytes = 8%nat ->
  native_value size_bytes = Z.of_nat (length payload) ->
  gzip_decompress payload = Ok serialized ->
  pickle_loads serialized = Ok snapshot ->
  well_formed_snapshot snapshot items html created word_count ->
  let w' := load_olc filename w in
  text_edit (window w') = setHtml html (add_images items (text_edit (window w)))
  /\ dialogs (window w') =
       dialogs (window w) ++ version_warning (native_value version_bytes)
  /\ status (window w') =
       status (window w) ++
         [OlcLoaded (Z.of_nat (length (magic_OLC ++ version_bytes ++ size_bytes
                                         ++ payload ++ trailing)))
            (PyStr (string_take 10 created)) word_count (length items)]
  /\ fs w' = fs w.
Proof.
  intros Hfile Hv Hs Hsize Hgz Hpk (d & metadata & -> & Himg & Hhtml & Hmeta & Hwc & Hcr).
  pose proof (read_olc_frame w filename _ _ _ Hfile Hv Hs) as Hread.
  cbn zeta in Hread.
  specialize (Hread ltac:(left; rewrite Hsize, length_app; lia)).
  rewrite Hsize, Nat2Z.id, take_app_length in Hread.
  rewrite Z.eqb_refl in Hread.
  pose proof (dialogs_show_dialogs (version_warning (native_value version_bytes))
    {| window := window w; fs := fs w;
       io_log := io_log w ++ [OpenRead filename; Read filename 4; Read filename 4;
                              Read filename 8; Read filename (Z.of_nat (length payload))];
       ticks := ticks w |}) as (Hd & Ht & Hst & Hfs & _ & _).
  cbn [window fs] in Hd, Ht, Hst, Hfs.
  fold (after_header filename (native_value version_bytes)
          (Z.of_nat (length payload)) w) in Hd, Ht, Hst, Hfs.
  set (w1 := after_header _ _ _ w) in *.
  unfold load_olc, try_except, load_olc_body.
  rewrite (bind_run _ _ _ _ _ Hread).
  rewrite (bind_run _ _ _ _ _ (lift_run _ _)), Hgz.
  rewrite (bind_run _ _ _ _ _ (lift_run _ _)), Hpk.
  rewrite (bind_run _ _ _ _ _ (lift_run _ _)). cbn [py_get]. rewrite Himg.
  rewrite (bind_run _ _ _ _ _ (lift_run _ _)). cbn [py_items py_images].
  rewrite (bind_run _ _ _ _ _ (for_each_images _ _)).
  rewrite (bind_run _ _ _ _ _ (lift_run _ _)). rewrite Hhtml.
  erewrite bind_run by reflexivity.
  rewrite (bind_run _ _ _ _ _ (lift_run _ _)). rewrite Hmeta.
  rewrite (bind_run _ _ _ _ _ (lift_run _ _)). rewrite Hcr.
  unfold getsize, get.
  erewrite bind_run by (erewrite bind_run by reflexivity; cbn; rewrite Hfs, Hfile; reflexivity).
  cbn [py_slice10 py_get py_len].
  rewrite (bind_run _ _ _ _ _ (lift_run _ _)).
  rewrite (bind_run _ _ _ _ _ (lift_run _ _)). rewrite Hwc.
  rewrite (bind_run _ _ _ _ _ (lift_run _ _)).
  cbn. rewrite Ht, Hd, Hst, Hfs, length_map. repeat split; reflexivity.
Qed.

(** C5. A well-formed container whose version field is greater than 1.0
    loads: [load_olc] shows the "Version récente" warning and nothing
    else, rebuilds the document from the snapshot and reports the load
    in the status bar. *)
Theorem load_olc_newer_version (w : World) (filename : string)
    (version_bytes size_bytes payload trailing serialized : bytes)
    (snapshot : pyval) (items : list (string * bytes))
    (html created : string) (word_count : pyval) :
  fs w !! filename =
    Some (magic_OLC ++ version_bytes ++ size_bytes ++ payload ++ trailing) ->
  length version_bytes = 4%nat ->
  length size_bytes = 8%nat ->
  native_value size_bytes = Z.of_nat (length payload) ->
  gzip_decompress payload = Ok serialized ->
  pickle_loads serialized = Ok snapshot ->
  well_formed_snapshot snapshot items html created word_count ->
  float_gt (f32_value (native_value version_bytes)) 1 = true ->
  let w' := load_olc filename w in
  dialogs (window w') =
    dialogs (window w)
      ++ [Warning "Version récente" (NewerVersion (native_value version_bytes))]
  /\ text_edit (window w') = setHtml html (add_images items (text_edit (window w)))
  /\ exists file_size,
       status (window w') =
         status (window w) ++
           [OlcLoaded file_size (PyStr (string_take 10 created)) word_count (length items)].
Proof.
  intros Hfile Hv Hs Hsize Hgz Hpk Hwf Hnewer.
  destruct (load_olc_well_formed w filename _ _ _ _ _ _ _ _ _ _
              Hfile Hv Hs Hsize Hgz Hpk Hwf) as (Ht & Hd & Hst & _).
  cbn zeta. rewrite Ht, Hd, Hst. unfold version_warning. rewrite Hnewer.
  repeat split. eexists. reflexivity.
Qed.

(** *** Writing a container *)

Lemma collect_images_keys_from (doc : QTextDocument) (frs : list QTextFragment)
    (acc : list (string * bytes)) (name : string) :
  In name (dict_keys
    (fold_left
       (fun images fragment =>
          match imageFormat (charFormat fragment) with
          | Some image_format =>
              let image_name := img_name image_format in
              match resource doc image_name with
              | Some image =>
                  if negb (isNull image)
                  then dict_set image_name (save_PNG image) images
                  else images
              | None => images
              end
          | None => images
          end) frs acc))
  <-> In name (dict_keys acc)
      \/ ((exists fragment image_format,
             In fragment frs
             /\ imageFormat (charFormat fragment) = Some image_format
             /\ img_name image_format = name)
          /\ resolved doc name).
Proof.
  revert acc. induction frs as [|fr frs IH]; intros acc; cbn [fold_left].
  - split; [auto|]. intros [Hin|[(? & ? & [] & _) _]]. exact Hin.
  - rewrite IH. clear IH.
    split.
    + intros [Hin|[(fragment & fmt & Hin & Hf & Hn) Hres]].
      * destruct (imageFormat (charFormat fr)) as [fmt|] eqn:Ef; [|auto].
        cbn zeta in Hin.
        destruct (resource doc (img_name fmt)) as [image|] eqn:Er; [|auto].
        destruct (isNull image) eqn:En; cbn [negb] in Hin; [auto|].
        apply dict_keys_set in Hin as [->|Hin]; [|auto].
        right. split; [|exists image; auto].
        exists fr, fmt. cbn. auto.
      * right. split; [|exact Hres]. exists fragment, fmt. cbn. auto.
    + intros [Hin|[(fragment & fmt & [<-|Hin] & Hf & Hn) Hres]].
      * left. destruct (imageFormat (charFormat fr)) as [fmt|]; [|auto].
        cbn zeta. destruct (resource doc (img_name fmt)) as [image|]; [|auto].
        destruct (isNull image); cbn [negb]; [auto|].
        apply dict_keys_set. auto.
      * left. rewrite Hf. cbn zeta. rewrite Hn.
        destruct Hres as (image & -> & ->). cbn [negb].
        apply dict_keys_set. auto.
      * right. split; [|exact Hres]. exists fragment, fmt. auto.
Qed.

(** The keys of [images] are the identifiers of the image runs whose
    resource is in the store and is not a null image. *)
Lemma collect_images_keys (doc : QTextDocument) (name : string) :
  In name (dict_keys (collect_images doc)) <-> referenced doc name /\ resolved doc name.
Proof.
  unfold collect_images. rewrite collect_images_keys_from. cbn [dict_keys map In].
  unfold referenced. intuition.
Qed.

Lemma collect_images_NoDup (doc : QTextDocument) :
  List.NoDup (dict_keys (collect_images doc)).
Proof.
  unfold collect_images.
  assert (Hacc : List.NoDup (dict_keys (@nil (string * bytes)))) by constructor.
  revert Hacc. generalize (@nil (string * bytes)).
  induction (all_fragments doc) as [|fr frs IH]; intros acc Hacc; cbn [fold_left].
  - exact Hacc.
  - apply IH. destruct (imageFormat (charFormat fr)) as [fmt|]; [|exact Hacc].
    cbn zeta. destruct (resource doc (img_name fmt)) as [image|]; [|exact Hacc].
    destruct (isNull image); cbn [negb]; [exact Hacc|].
    now apply dict_keys_set_NoDup.
Qed.

Lemma datetime_now_run (w : World) :
  datetime_now w =
    (Ok (isoformat_now (ticks w)),
     {| window := window w; fs := fs w; io_log := io_log w; ticks := S (ticks w) |}).
Proof. reflexivity. Qed.

Lemma open_wb_run (path : string) (w : World) :
  open_wb path w =
    (Ok tt,
     {| window := window w; fs := <[path := []]> (fs w);
        io_log := io_log w ++ [OpenWrite path]; ticks := ticks w |}).
Proof. reflexivity. Qed.

Lemma f_write_run (path : string) (data content : bytes)
    (a : OpenLautrec) (files : gmap string bytes) (log : list io_event) (t : nat) :
  f_write path data
    {| window := a; fs := <[path := content]> files; io_log := log; ticks := t |} =
    (Ok tt,
     {| window := a; fs := <[path := content ++ data]> files;
        io_log := log ++ [Write path data]; ticks := t |}).
Proof.
  unfold f_write, log_io, bind, modify. cbn [fs window io_log ticks].
  rewrite lookup_insert_eq, insert_insert_eq. reflexivity.
Qed.

Lemma getsize_run (path : string) (content : bytes)
    (a : OpenLautrec) (files : gmap string bytes) (log : list io_event) (t : nat) :
  getsize path
    {| window := a; fs := <[path := content]> files; io_log := log; ticks := t |} =
    (Ok (Z.of_nat (length content)),
     {| window := a; fs := <[path := content]> files;
        io_log := log ++ [GetSize path]; ticks := t |}).
Proof.
  unfold getsize, log_io, bind, get, modify, ret. cbn [fs].
  rewrite lookup_insert_eq. reflexivity.
Qed.

(** What [save_as_olc] leaves on disk and in the window when the payload
    length fits the 8-byte field. *)
Lemma save_as_olc_ok (w : World) (filename : string) :
  let doc := text_edit (window w) in
  let snapshot := olc_data doc (isoformat_now (ticks w)) (isoformat_now (S (ticks w))) in
  let payload := gzip_compress (pickle_dumps snapshot) in
  Z.of_nat (length payload) < 2 ^ 64 ->
  let w' := save_as_olc filename w in
  fs w' !! filename =
    Some (magic_OLC ++ pack_f f32_one
            ++ native_bytes 8 (Z.of_nat (length payload)) ++ payload ++ [])
  /\ text_edit (window w') = doc
  /\ dialogs (window w') = dialogs (window w).
Proof.
  intros doc snapshot payload Hlen.
  assert (Hpack : pack_Q (Z.of_nat (length payload))
                  = Ok (native_bytes 8 (Z.of_nat (length payload)))).
  { unfold pack_Q.
    destruct (Z.leb_spec 0 (Z.of_nat (length payload))); [|lia].
    destruct (Z.ltb_spec (Z.of_nat (length payload)) (2 ^ 64)); [|lia].
    reflexivity. }
  cbn zeta. unfold save_as_olc, try_except, save_as_olc_body.
  erewrite bind_run by reflexivity. cbn beta iota zeta.
  rewrite (bind_run _ _ _ _ _ (datetime_now_run _)). cbn beta iota zeta.
  rewrite (bind_run _ _ _ _ _ (datetime_now_run _)). cbn beta iota zeta.
  cbn [ticks window]. fold doc. fold snapshot. fold payload.
  rewrite (bind_run _ _ _ _ _ (open_wb_run _ _)). cbn beta iota zeta.
  cbn [fs window io_log ticks].
  rewrite (bind_run _ _ _ _ _ (f_write_run _ _ _ _ _ _ _)). cbn beta iota zeta.
  rewrite (bind_run _ _ _ _ _ (f_write_run _ _ _ _ _ _ _)). cbn beta iota zeta.
  rewrite (bind_run _ _ _ _ _ (lift_run _ _)), Hpack. cbn beta iota zeta.
  rewrite (bind_run _ _ _ _ _ (f_write_run _ _ _ _ _ _ _)). cbn beta iota zeta.
  rewrite (bind_run _ _ _ _ _ (f_write_run _ _ _ _ _ _ _)). cbn beta iota zeta.
  rewrite (bind_run _ _ _ _ _ (getsize_run _ _ _ _ _ _)). cbn beta iota zeta.
  cbn [showMessage modify set_app window fs text_edit dialogs fst snd].
  rewrite lookup_insert_eq. rewrite <- !app_assoc, app_nil_r.
  repeat split; reflexivity.
Qed.

(** C1 (as the code has it). Saving the document as a container and
    loading the file again succeeds and leaves in the editor the blocks
    Qt rebuilds from the markup of the document, [fromHtml (toHtml _)]:
    [toPlainText], the source of the [plain_text] entry, does not occur in
    the result.  The [images] entry of the snapshot has one key per image
    identifier that some run references and that resolves to a non-null
    image in the resource store, and no other key. *)
Theorem save_then_load_olc (w : World) (filename : string) :
  let doc := text_edit (window w) in
  let snapshot := olc_data doc (isoformat_now (ticks w)) (isoformat_now (S (ticks w))) in
  let payload := gzip_compress (pickle_dumps snapshot) in
  Z.of_nat (length payload) < 2 ^ 64 ->
  gzip_decompress payload = Ok (pickle_dumps snapshot) ->
  pickle_loads (pickle_dumps snapshot) = Ok snapshot ->
  let w' := load_olc filename (save_as_olc filename w) in
  blocks (text_edit (window w')) = fromHtml (toHtml (blocks doc))
  /\ dialogs (window w') = dialogs (window w)
  /\ py_get snapshot "images" (PyDict []) = Ok (py_images (collect_images doc))
  /\ (forall name,
        In name (dict_keys (collect_images doc))
        <-> referenced doc name /\ resolved doc name)
  /\ List.NoDup (dict_keys (collect_images doc)).
Proof.
  intros doc snapshot payload Hlen Hgz Hpk.
  destruct (save_as_olc_ok w filename Hlen) as (Hfile & Hdoc & Hdlg).
  set (w1 := save_as_olc filename w) in *.
  assert (Hwf : well_formed_snapshot snapshot (collect_images doc)
                  (toHtml (blocks doc)) (isoformat_now (ticks w))
                  (PyInt (split_count (toPlainText (blocks doc))))).
  { unfold snapshot, olc_data. eexists _, _. repeat split; reflexivity. }
  assert (Hsize : native_value (native_bytes 8 (Z.of_nat (length payload)))
                  = Z.of_nat (length payload)).
  { apply native_value_bytes. cbn. lia. }
  destruct (load_olc_well_formed w1 filename _ _ _ _ _ _ _ _ _ _ Hfile
              (length_native_bytes 4 f32_one) (length_native_bytes 8 _)
              Hsize Hgz Hpk Hwf)
    as (Ht & Hd & _ & _).
  cbn zeta. rewrite Ht, Hd, Hdlg.
  unfold pack_f. rewrite (native_value_bytes 4 f32_one) by (unfold f32_one; cbn; lia).
  unfold version_warning.
  replace (float_gt (f32_value f32_one) 1) with false by (vm_compute; reflexivity).
  rewrite app_nil_r.
  split; [reflexivity|]. split; [reflexivity|]. split; [reflexivity|].
  split.
  - intros name. apply collect_images_keys.
  - apply collect_images_NoDup.
Qed.
End OlcFacts.






(** ** The container theorems on the small instance *)

Section OlcWitnesses.
#[local] Existing Instances Demo.platform Demo.qt Demo.pylib.

Lemma load_olc_bad_magic_witness :
  let w := Demo.world Demo.hello_doc {[ "notes.olc" := Demo.two_paragraphs_file ]} in
  let w' := load_olc "notes.olc" w in
  dialogs (window w') =
    dialogs (window w)
      ++ [Critical "Fichier invalide" "" (BadMagic (take 4 Demo.two_paragraphs_file))]
  /\ io_log w' = io_log w ++ [OpenRead "notes.olc"; Read "notes.olc" 4]
  /\ text_edit (window w') = text_edit (window w)
  /\ status (window w') = status (window w)
  /\ fs w' = fs w.
Proof.
  intros w.
  apply (load_olc_bad_magic w "notes.olc" Demo.two_paragraphs_file).
  - reflexivity.
  - discriminate.
Defined.



(** The container [save_as_olc] writes for [Demo.picture_doc], with the
    version field changed to 2.0. *)
Lemma load_olc_newer_version_witness :
  let snapshot := olc_data Demo.picture_doc "2024-05-17T09:30:00.000000"
                    "2024-05-17T09:30:00.000000" in
  let version_bytes := pack_f f32_two in
  let payload := gzip_compress (pickle_dumps snapshot) in
  let size_bytes := native_bytes 8 (Z.of_nat (length payload)) in
  let w := Demo.world Demo.hello_doc
             {[ "v2.olc" := magic_OLC ++ version_bytes ++ size_bytes ++ payload ++ [] ]} in
  let w' := load_olc "v2.olc" w in
  dialogs (window w') =
    dialogs (window w)
      ++ [Warning "Version récente" (NewerVersion (native_value version_bytes))]
  /\ text_edit (window w') =
       setHtml (toHtml (blocks Demo.picture_doc))
         (add_images [("photo.png", Demo.png)] (text_edit (window w)))
  /\ exists file_size,
       status (window w') =
         status (window w) ++
           [OlcLoaded file_size (PyStr (string_take 10 "2024-05-17T09:30:00.000000"))
              (PyInt 0) (length [("photo.png", Demo.png)])].
Proof.
  intros snapshot version_bytes payload size_bytes w.
  apply (load_olc_newer_version w "v2.olc" version_bytes size_bytes payload []
           (pickle_dumps snapshot) snapshot).
  - reflexivity.
  - reflexivity.
  - reflexivity.
  - vm_compute. reflexivity.
  - reflexivity.
  - vm_compute. reflexivity.
  - eexists _, _. repeat split; vm_compute; reflexivity.
  - vm_compute. reflexivity.
Defined.

Lemma save_then_load_olc_witness :
  let w := Demo.world Demo.picture_doc ∅ in
  let doc := text_edit (window w) in
  let snapshot := olc_data doc (isoformat_now (ticks w)) (isoformat_now (S (ticks w))) in
  let w' := load_olc "album.olc" (save_as_olc "album.olc" w) in
  blocks (text_edit (window w')) = fromHtml (toHtml (blocks doc))
  /\ dialogs (window w') = dialogs (window w)
  /\ py_get snapshot "images" (PyDict []) = Ok (py_images (collect_images doc))
  /\ (forall name,
        In name (dict_keys (collect_images doc))
        <-> referenced doc name /\ resolved doc name)
  /\ List.NoDup (dict_keys (collect_images doc)).
Proof.
  intros w.
  apply (save_then_load_olc w "album.olc").
  - vm_compute. reflexivity.
  - vm_compute. reflexivity.
  - vm_compute. reflexivity.
Defined.

(** C1, as stated, fails: the image run of [Demo.dangling_doc] references
    [missing.png], the resource store has no such image, and the [images]
    entry of the snapshot is empty. *)
Lemma snapshot_misses_unresolved_image :
  let doc := Demo.dangling_doc in
  referenced doc "missing.png"
  /\ collect_images doc = []
  /\ ~ (forall name, In name (dict_keys (collect_images doc)) <-> referenced doc name).
Proof.
  assert (Href : referenced Demo.dangling_doc "missing.png").
  { exists (Demo.image_fragment "missing.png"),
      {| img_name := "missing.png"; img_width := 1000; img_height := 500 |}.
    repeat split. left. reflexivity. }
  repeat split.
  - exact Href.
  - intros Hall. apply (Hall "missing.png") in Href. exact Href.
Qed.
End OlcWitnesses.

(** ** The exporters *)

Lemma append_cons (c : ascii) (s t : string) :
  String.append (String c s) t = String c (String.append s t).
Proof. reflexivity. Qed.

Lemma append_empty_r (s : string) : String.append s "" = s.
Proof.
  induction s as [|c s IH]; [reflexivity|].
  rewrite append_cons. f_equal. exact IH.
Qed.

Lemma append_assoc (s t u : string) :
  String.append (String.append s t) u = String.append s (String.append t u).
Proof.
  induction s as [|c s IH]; [reflexivity|].
  rewrite !append_cons. f_equal. exact IH.
Qed.

Lemma visible_text_app (xs ys : list paragraph_child) :
  visible_text (xs ++ ys) = String.append (visible_text xs) (visible_text ys).
Proof.
  unfold visible_text. induction xs as [|x xs IH]; [reflexivity|].
  cbn [map app fold_right]. rewrite IH. symmetry. apply append_assoc.
Qed.

Section ExportFacts.
Context `{Platform} `{Qt} `{PyLib} `{Modules} `{Docx} `{Odf} `{Runtime}.

Lemma is_link_format_href (char_format : QTextCharFormat) :
  anchorHref char_format <> "" ->
  is_link_format char_format = true
  /\ negb (String.eqb (anchorHref char_format) "") = true.
Proof.
  intros Hhref. unfold is_link_format.
  destruct (String.eqb_spec (anchorHref char_format) "") as [E|_]; [contradiction|].
  cbn. now rewrite orb_true_r.
Qed.

Lemma index_of_lookup (url : string) (rels : list string) (i : nat) :
  index_of url rels = Some i -> rels !! i = Some url.
Proof.
  revert i. induction rels as [|r rels IH]; intros i; cbn; [discriminate|].
  destruct (String.eqb_spec url r) as [->|_].
  - intros [= <-]. reflexivity.
  - destruct (index_of url rels) as [j|]; cbn; [|discriminate].
    intros [= <-]. cbn. now apply IH.
Qed.

(** [relate_to] keeps the relationships there are, and the identifier it
    returns is that of a relationship to the target. *)
Lemma relate_to_grows (url : string) (rels : list string) :
  (exists more, snd (relate_to url rels) = rels ++ more)
  /\ snd (relate_to url rels) !! fst (relate_to url rels) = Some url.
Proof.
  unfold relate_to. destruct (index_of url rels) as [i|] eqn:Ei; cbn [fst snd].
  - split; [exists []; now rewrite app_nil_r|now apply index_of_lookup].
  - split; [now exists [url]|].
    rewrite lookup_app_r by lia. now rewrite Nat.sub_diag.
Qed.

Lemma run_accepted_text (fragment : QTextFragment) :
  run_accepted fragment = true ->
  imageFormat (charFormat fragment) = None ->
  xml_compatible (frag_text fragment) = true
  /\ xml_compatible (family (font (charFormat fragment))) = true
  /\ font_size_accepted (Pt (pointSize (font (charFormat fragment)))) = true.
Proof.
  unfold run_accepted, isImageFormat. intros Hacc Himg. rewrite Himg in Hacc.
  cbn [orb] in Hacc. apply andb_prop in Hacc as [Hacc Hsize].
  apply andb_prop in Hacc as [Htext Hfamily]. now repeat split.
Qed.

Lemma docx_text_run_accepted (fragment : QTextFragment) :
  run_accepted fragment = true ->
  imageFormat (charFormat fragment) = None ->
  exists run, docx_text_run fragment = Ok run.
Proof.
  intros Hacc Himg. destruct (run_accepted_text fragment Hacc Himg) as (Ht & Hf & Hs).
  unfold docx_text_run. rewrite Ht, Hf, Hs. cbn [negb]. eexists. reflexivity.
Qed.

Lemma docx_link_run_accepted (fragment : QTextFragment) :
  run_accepted fragment = true ->
  imageFormat (charFormat fragment) = None ->
  exists run, docx_link_run fragment = Ok run.
Proof.
  intros Hacc Himg. destruct (run_accepted_text fragment Hacc Himg) as (Ht & Hf & Hs).
  unfold docx_link_run. rewrite Ht, Hf, Hs. cbn [negb]. eexists. reflexivity.
Qed.

Lemma docx_text_run_text (fragment : QTextFragment) (run : Run) :
  docx_text_run fragment = Ok run -> run_text run = frag_text fragment.
Proof.
  unfold docx_text_run. repeat case_match; try discriminate. now intros [= <-].
Qed.

(** The run of a link is blue and underlined, whatever the format holds. *)
Lemma docx_link_run_blue (fragment : QTextFragment) (run : Run) :
  docx_link_run fragment = Ok run ->
  run_text run = frag_text fragment
  /\ run_font_color_rgb run = Some {| red := 0; green := 0; blue := 255 |}
  /\ run_underline run = Some true.
Proof.
  unfold docx_link_run. repeat case_match; try discriminate.
  intros [= <-]. now repeat split.
Qed.

(** A run that python-docx refuses ends the export of the fragment. *)
Lemma docx_fragment_accepted (doc : QTextDocument)
    (paragraph : list paragraph_child * list string) (fragment : QTextFragment) :
  run_accepted fragment = true ->
  exists paragraph', docx_fragment doc paragraph fragment = Ok paragraph'.
Proof.
  intros Hacc. destruct paragraph as [children rels]. unfold docx_fragment.
  destruct (imageFormat (charFormat fragment)) as [image_format|] eqn:Himg.
  - destruct (resource doc (img_name image_format)) as [image|]; [|eexists; reflexivity].
    destruct (isNull image); cbn [negb]; [eexists; reflexivity|].
    destruct (docx_picture_size image_format) as [wi hi].
    destruct (add_picture _ _ _); eexists; reflexivity.
  - destruct (docx_text_run_accepted fragment Hacc Himg) as [run ->].
    destruct (docx_link_run_accepted fragment Hacc Himg) as [run' ->].
    destruct (is_link_format (charFormat fragment));
      [destruct (negb (String.eqb (anchorHref (charFormat fragment)) ""))|];
      eexists; reflexivity.
Qed.

Lemma visible_text_one (c : paragraph_child) : visible_text [c] = child_text c.
Proof. unfold visible_text. cbn. apply append_empty_r. Qed.

(** What a fragment with a link target adds: the run of main.py:3716, blue
    and underlined, then the hyperlink element of [add_hyperlink]. *)
Lemma docx_fragment_link (doc : QTextDocument) (children children' : list paragraph_child)
    (rels rels' : list string) (fragment : QTextFragment) :
  imageFormat (charFormat fragment) = None ->
  anchorHref (charFormat fragment) <> "" ->
  docx_fragment doc (children, rels) fragment = Ok (children', rels') ->
  exists run r_id,
    children' =
      children ++ [W_r run; W_hyperlink r_id "0000FF" "single" (frag_text fragment)]
    /\ run_text run = frag_text fragment
    /\ run_font_color_rgb run = Some {| red := 0; green := 0; blue := 255 |}
    /\ run_underline run = Some true
    /\ rels' !! r_id = Some (anchorHref (charFormat fragment)).
Proof.
  intros Himg Hhref. unfold docx_fragment. rewrite Himg.
  destruct (is_link_format_href _ Hhref) as [-> ->].
  destruct (docx_link_run fragment) as [run|e] eqn:Hrun; [|discriminate].
  unfold add_hyperlink.
  destruct (relate_to_grows (anchorHref (charFormat fragment)) rels) as [_ Hid].
  destruct (relate_to (anchorHref (charFormat fragment)) rels) as [r_id rels1].
  cbn [fst snd] in Hid. intros [= <- <-].
  destruct (docx_link_run_blue fragment run Hrun) as (Ht & Hc & Hu).
  exists run, r_id. rewrite <- app_assoc. now repeat split.
Qed.

(** What one fragment adds to the paragraph and to the relationships. *)
Lemma docx_fragment_grows (doc : QTextDocument) (children children' : list paragraph_child)
    (rels rels' : list string) (fragment : QTextFragment) :
  docx_fragment doc (children, rels) fragment = Ok (children', rels') ->
  exists added more,
    children' = children ++ added
    /\ rels' = rels ++ more
    /\ visible_text added = fragment_export_text fragment.
Proof.
  unfold fragment_export_text.
  destruct (imageFormat (charFormat fragment)) as [image_format|] eqn:Himg.
  - unfold docx_fragment. rewrite Himg.
    assert (Hnone : forall added,
              visible_text added = "" ->
              Ok (children ++ added, rels) = Ok (children', rels') ->
              exists added more,
                children' = children ++ added /\ rels' = rels ++ more
                /\ visible_text added = "").
    { intros added Ht [= <- <-]. exists added, []. now rewrite app_nil_r. }
    destruct (resource doc (img_name image_format)) as [image|].
    + destruct (isNull image); cbn [negb].
      * intros E. apply (Hnone []); [reflexivity|now rewrite app_nil_r].
      * destruct (docx_picture_size image_format) as [wi hi].
        destruct (add_picture _ _ _); intros E; eapply Hnone; try exact E; reflexivity.
    + intros E. apply (Hnone []); [reflexivity|now rewrite app_nil_r].
  - destruct (String.eqb_spec (anchorHref (charFormat fragment)) "") as [Hhref|Hhref].
    + cbn [negb]. unfold docx_fragment. rewrite Himg, Hhref. cbn [String.eqb negb].
      assert (Htext : forall run,
                docx_text_run fragment = Ok run ->
                Ok (children ++ [W_r run], rels) = Ok (children', rels') ->
                exists added more,
                  children' = children ++ added /\ rels' = rels ++ more
                  /\ visible_text added = frag_text fragment).
      { intros run Hrun [= <- <-]. exists [W_r run], []. rewrite app_nil_r.
        repeat split. rewrite visible_text_one. now apply docx_text_run_text. }
      destruct (is_link_format (charFormat fragment));
        destruct (docx_text_run fragment) as [run|e] eqn:Hrun; try discriminate;
        intros E; exact (Htext run eq_refl E).
    + cbn [negb]. intros Hstep.
      destruct (docx_fragment_link doc _ _ _ _ _ Himg Hhref Hstep)
        as (run & r_id & -> & Ht & _ & _ & _).
      unfold docx_fragment in Hstep. rewrite Himg in Hstep.
      destruct (is_link_format_href _ Hhref) as [Hl Hn]. rewrite Hl, Hn in Hstep.
      destruct (docx_link_run fragment) as [run'|e]; [|discriminate].
      unfold add_hyperlink in Hstep.
      destruct (relate_to_grows (anchorHref (charFormat fragment)) rels) as [[more Hmore] _].
      destruct (relate_to (anchorHref (charFormat fragment)) rels) as [r_id' rels1].
      cbn [snd] in Hmore. injection Hstep as _ <-.
      eexists _, more. split; [reflexivity|]. split; [exact Hmore|].
      unfold visible_text. cbn. now rewrite Ht, append_empty_r.
Qed.

Lemma fold_result_accepted {A B} (f : A -> B -> result A) (accepted : B -> bool)
    (xs : list B) (a : A) :
  (forall a x, accepted x = true -> exists a', f a x = Ok a') ->
  forallb accepted xs = true ->
  exists a', fold_result f xs a = Ok a'.
Proof.
  intros Hf. revert a. induction xs as [|x xs IH]; intros a Hall; [now exists a|].
  cbn [forallb] in Hall. apply andb_prop in Hall as [Hx Hxs].
  cbn [fold_result]. destruct (Hf a x Hx) as [a' ->]. now apply IH.
Qed.

(** The fragments of a block, one after the other. *)
Lemma docx_fragments_grow (doc : QTextDocument) (frs : list QTextFragment)
    (children children' : list paragraph_child) (rels rels' : list string) :
  fold_result (docx_fragment doc) frs (children, rels) = Ok (children', rels') ->
  exists added more,
    children' = children ++ added
    /\ rels' = rels ++ more
    /\ visible_text added = fold_right String.append "" (map fragment_export_text frs)
    /\ forall fragment,
         In fragment frs ->
         imageFormat (charFormat fragment) = None ->
         anchorHref (charFormat fragment) <> "" ->
         link_exported rels' fragment added.
Proof.
  revert children rels. induction frs as [|fr frs IH]; intros children rels.
  - intros [= <- <-]. exists [], []. rewrite !app_nil_r.
    repeat split. intros fragment [].
  - cbn [fold_result].
    destruct (docx_fragment doc (children, rels) fr) as [[children1 rels1]|e] eqn:Hstep;
      [|discriminate].
    intros Hrest.
    destruct (docx_fragment_grows doc _ _ _ _ _ Hstep)
      as (added1 & more1 & E1 & R1 & Htext1).
    destruct (IH _ _ Hrest) as (added2 & more2 & E2 & R2 & Htext2 & Hlink2).
    exists (added1 ++ added2), (more1 ++ more2).
    split; [now rewrite E2, E1, <- app_assoc|].
    split; [now rewrite R2, R1, <- app_assoc|]. split.
    + rewrite visible_text_app, Htext1, Htext2. reflexivity.
    + intros fragment [<-|Hin] Himg Hhref.
      * destruct (docx_fragment_link doc _ _ _ _ _ Himg Hhref Hstep)
          as (run & r_id & E & Ht & Hc & Hu & Hid).
        rewrite E1 in E. apply app_inv_head in E. subst added1.
        exists [], added2, run, r_id. repeat split; try assumption.
        rewrite R2. now apply lookup_app_l_Some.
      * destruct (Hlink2 fragment Hin Himg Hhref)
          as (before & after & run & r_id & E & Ht & Hc & Hu & Hid).
        exists (added1 ++ before), after, run, r_id. rewrite E, <- !app_assoc.
        now repeat split.
Qed.

Lemma link_exported_more (rels more : list string) (fragment : QTextFragment)
    (children : list paragraph_child) :
  link_exported rels fragment children -> link_exported (rels ++ more) fragment children.
Proof.
  intros (before & after & run & r_id & E & Ht & Hc & Hu & Hid).
  exists before, after, run, r_id. repeat split; try assumption.
  now apply lookup_app_l_Some.
Qed.

Lemma block_exported_more (rels more : list string) (block : QTextBlock)
    (paragraph : Paragraph) :
  block_exported rels block paragraph -> block_exported (rels ++ more) block paragraph.
Proof.
  intros (Ha & Ht & Hl). repeat split; try assumption.
  intros fragment Hin Himg Hhref. now apply link_exported_more, Hl.
Qed.

(** One block: a paragraph more, of the alignment and with the runs of
    the block. *)
Lemma docx_block_grows (doc : QTextDocument) (docx docx' : DocxDocument)
    (block : QTextBlock) :
  docx_block doc docx block = Ok docx' ->
  exists paragraph more,
    docx_paragraphs docx' = docx_paragraphs docx ++ [paragraph]
    /\ docx_relationships docx' = docx_relationships docx ++ more
    /\ block_exported (docx_relationships docx') block paragraph.
Proof.
  unfold docx_block.
  destruct (fold_result (docx_fragment doc) (fragments block) ([], docx_relationships docx))
    as [[children rels]|e] eqn:Hfold; [|discriminate].
  intros [= <-]. cbn [docx_paragraphs docx_relationships].
  destruct (docx_fragments_grow doc _ _ _ _ _ Hfold) as (added & more & -> & -> & Ht & Hl).
  eexists _, more. split; [reflexivity|]. split; [reflexivity|].
  unfold block_exported. cbn [paragraph_alignment paragraph_children app].
  split; [|split; [exact Ht|exact Hl]].
  unfold docx_alignment, WD_CENTER, WD_RIGHT, WD_JUSTIFY, WD_LEFT. reflexivity.
Qed.

Lemma docx_blocks_grow (doc : QTextDocument) (bs : list QTextBlock)
    (docx docx' : DocxDocument) :
  fold_result (docx_block doc) bs docx = Ok docx' ->
  exists paragraphs more,
    docx_paragraphs docx' = docx_paragraphs docx ++ paragraphs
    /\ docx_relationships docx' = docx_relationships docx ++ more
    /\ Forall2 (block_exported (docx_relationships docx')) bs paragraphs.
Proof.
  revert docx. induction bs as [|b bs IH]; intros docx.
  - intros [= <-]. exists [], []. rewrite !app_nil_r. repeat split. constructor.
  - cbn [fold_result].
    destruct (docx_block doc docx b) as [docx1|e] eqn:Hstep; [|discriminate].
    intros Hrest.
    destruct (docx_block_grows doc _ _ _ Hstep) as (paragraph & more1 & Hp1 & Hr1 & Hb).
    destruct (IH _ Hrest) as (paragraphs & more2 & Hp2 & Hr2 & Hbs).
    exists (paragraph :: paragraphs), (more1 ++ more2).
    split; [now rewrite Hp2, Hp1, <- app_assoc|].
    split; [now rewrite Hr2, Hr1, <- app_assoc|].
    constructor; [|exact Hbs].
    rewrite Hr2. now apply block_exported_more.
Qed.

Lemma docx_block_accepted (doc : QTextDocument) (docx : DocxDocument) (block : QTextBlock) :
  forallb run_accepted (fragments block) = true ->
  exists docx', docx_block doc docx block = Ok docx'.
Proof.
  intros Hall. unfold docx_block.
  destruct (fold_result_accepted (docx_fragment doc) run_accepted (fragments block)
              ([], docx_relationships docx)) as [[children rels] ->];
    [intros; now apply docx_fragment_accepted|exact Hall|].
  eexists. reflexivity.
Qed.

(** The document is built when python-docx takes every run, and then has
    a paragraph for each block, in order. *)
Lemma build_docx_exported (doc : QTextDocument) :
  docx_exportable doc = true ->
  exists docx,
    build_docx doc = Ok docx
    /\ Forall2 (block_exported (docx_relationships docx)) (blocks doc) (docx_paragraphs docx).
Proof.
  intros Hall. unfold build_docx.
  destruct (fold_result_accepted (docx_block doc)
              (fun block => forallb run_accepted (fragments block)) (blocks doc)
              {| docx_paragraphs := []; docx_relationships := [] |})
    as [docx Hdocx]; [intros; now apply docx_block_accepted|exact Hall|].
  exists docx. split; [exact Hdocx|].
  destruct (docx_blocks_grow doc _ _ _ Hdocx) as (paragraphs & more & Hp & _ & Hbs).
  cbn [docx_paragraphs app] in Hp. now rewrite Hp.
Qed.


(** [save_as_docx] when python-docx refused a run: the exception is shown
    and the disk is as it was. *)
Lemma save_as_docx_refused (filename : string) (w : World) (e : exn) :
  DOCX_AVAILABLE = true ->
  build_docx (text_edit (window w)) = Raise e ->
  let w' := save_as_docx filename w in
  fs w' = fs w
  /\ io_log w' = io_log w
  /\ text_edit (window w') = text_edit (window w)
  /\ status (window w') = status (window w)
  /\ dialogs (window w') =
       dialogs (window w) ++ [Critical "Erreur" "Impossible d'enregistrer en .docx:" e].
Proof.
  intros Havail Hbuild. cbn zeta. unfold save_as_docx, try_except.
  rewrite Havail. cbn [negb].
  rewrite (bind_run _ _ _ _ _ (lift_run _ _)), Hbuild. cbn. repeat split.
Qed.

(** The frame [save_as_odt] adds for an image run whose resource is in
    the store: the pixel sizes over 96, as they are. *)
Lemma odt_fragment_image (doc : QTextDocument) (st : odt_state) (fragment : QTextFragment)
    (image_format : QTextImageFormat) (image : QImage) :
  imageFormat (charFormat fragment) = Some image_format ->
  resource doc (img_name image_format) = Some image ->
  isNull image = false ->
  odt_p (odt_fragment doc st fragment) =
    odt_p st ++ [Frame (img_width image_format / 96) (img_height image_format / 96)
                   "as-char" (S (image_counter st))].
Proof.
  intros Himg Hres Hnull. unfold odt_fragment. rewrite Himg, Hres, Hnull. reflexivity.
Qed.

(** C8 on the code. For an image run wider than 576 pixels, 1000 for
    one, [save_as_odt] emits a frame whose width is the pixel width over 96,
    more than 6 inches; [save_as_docx] sizes the same picture at 6 inches. *)
Theorem save_as_odt_frame_not_clamped (doc : QTextDocument) (st : odt_state)
    (fragment : QTextFragment) (image_format : QTextImageFormat) (image : QImage) :
  imageFormat (charFormat fragment) = Some image_format ->
  resource doc (img_name image_format) = Some image ->
  isNull image = false ->
  (576 < img_width image_format)%Q ->
  exists width height n,
    odt_p (odt_fragment doc st fragment) = odt_p st ++ [Frame width height "as-char" n]
    /\ (width == img_width image_format / 96)%Q
    /\ (6 < width)%Q
    /\ (fst (docx_picture_size image_format) == 6)%Q.
Proof.
  intros Himg Hres Hnull Hwide.
  assert (Hw : (6 < img_width image_format / 96)%Q).
  { apply Qlt_shift_div_l; [reflexivity|]. exact Hwide. }
  exists (img_width image_format / 96)%Q, (img_height image_format / 96)%Q,
    (S (image_counter st)).
  split; [exact (odt_fragment_image doc st fragment image_format image Himg Hres Hnull)|].
  split; [apply Qeq_refl|]. split; [exact Hw|].
  unfold docx_picture_size.
  destruct (Qle_bool (binary64 (img_width image_format / 96)) 6) eqn:E; cbn [negb fst];
    [|reflexivity].
  apply Qle_bool_iff in E. apply Qle_antisym; [exact E|].
  rewrite <- (binary64_integer 6) by (cbn; lia).
  apply binary64_le, Qlt_le_weak, Hw.
Qed.

(** C7 on the code. With python-docx missing, [save_to_file] on a [.docx]
    name opens and writes no file and shows the "Module manquant" warning,
    and then records the file as saved, reports "Fichier enregistré" and
    returns [True]. *)
Theorem save_to_file_docx_unavailable (filename : string) (w : World) :
  DOCX_AVAILABLE = false ->
  endswith filename ".olc" = false ->
  endswith filename ".docx" = true ->
  let '(saved, w') := save_to_file filename w in
  fs w' = fs w
  /\ io_log w' = io_log w
  /\ dialogs (window w') = dialogs (window w) ++ [Warning "Module manquant" MissingDocx]
  /\ saved = true
  /\ status (window w') = status (window w) ++ [FileSaved filename]
  /\ current_file (window w') = Some filename
  /\ is_modified (window w') = false.
Proof.
  intros Hmissing Holc Hdocx. unfold save_to_file. rewrite Holc, Hdocx.
  unfold save_as_docx. rewrite Hmissing. cbn. repeat split.
Qed.

(** The branch of [save_to_file] that writes the file itself does report
    a failure: when the text cannot be encoded, it returns [False] and
    the file is not recorded as saved. *)
Lemma save_to_file_text_failure (filename : string) (w : World) (e : exn) :
  endswith filename ".olc" = false ->
  endswith filename ".docx" = false ->
  endswith filename ".odt" = false ->
  endswith filename ".html" = false ->
  encode_utf8 (toPlainText (blocks (text_edit (window w)))) = Raise e ->
  let '(saved, w') := save_to_file filename w in
  saved = false
  /\ current_file (window w') = current_file (window w)
  /\ status (window w') = status (window w)
  /\ dialogs (window w') =
       dialogs (window w) ++ [Critical "Erreur" "Impossible d'enregistrer le fichier:" e].
Proof.
  intros Holc Hdocx Hodt Hhtml Henc. unfold save_to_file.
  rewrite Holc, Hdocx, Hodt, Hhtml.
  unfold open_wb, f_write, log_io, showMessage, QMessageBox_critical,
    bind, ret, raise, get, modify, lift.
  cbn [fst snd window fs io_log ticks]. rewrite Henc. cbn. repeat split.
Qed.

Lemma read_file_run (path : string) (content : bytes) (w : World) :
  fs w !! path = Some content ->
  read_file path w =
    (Ok content,
     {| window := window w; fs := fs w;
        io_log := io_log w ++ [OpenRead path; Read path (Z.of_nat (length content))];
        ticks := ticks w |}).
Proof.
  intros E. unfold read_file, open_rb, f_read_all, log_io, bind, get, modify, ret.
  rewrite E. cbn [fst snd window fs io_log ticks]. now rewrite <- app_assoc.
Qed.

(** Saving as HTML and opening the file again hands to [setHtml] the
    string [toHtml] produced: the editor then holds what Qt's importer
    makes of Qt's export of the document. *)
Lemma save_as_html_then_open (filename : string) (w : World) (data : bytes) :
  endswith filename ".docx" = false ->
  endswith filename ".odt" = false ->
  endswith filename ".html" = true ->
  encode_utf8 (toHtml (blocks (text_edit (window w)))) = Ok data ->
  decode_utf8 data = Ok (toHtml (blocks (text_edit (window w)))) ->
  let w' := open_file filename (save_as_html filename w) in
  blocks (text_edit (window w')) = fromHtml (toHtml (blocks (text_edit (window w))))
  /\ dialogs (window w') = dialogs (window w).
Proof.
  intros Hdocx Hodt Hhtml Henc Hdec. cbn zeta.
  assert (Hsave : exists a log,
    save_as_html filename w =
      {| window := a; fs := <[filename := [] ++ data]> (fs w); io_log := log;
         ticks := ticks w |}
    /\ text_edit a = text_edit (window w) /\ dialogs a = dialogs (window w)).
  { unfold save_as_html, try_except.
    rewrite (bind_run _ _ _ _ _ (open_wb_run _ _)). cbn beta iota zeta.
    rewrite (bind_run _ _ _ _ _ (lift_run _ _)), Henc. cbn beta iota zeta.
    rewrite (bind_run _ _ _ _ _ (f_write_run _ _ _ _ _ _ _)). cbn beta iota zeta.
    unfold showMessage, modify, set_app. cbn [window fs io_log ticks].
    eexists _, _. split; [reflexivity|]. split; reflexivity. }
  destruct Hsave as (a & log & -> & Ha & Hd).
  unfold open_file, try_except. rewrite Hdocx, Hodt, Hhtml. cbn [orb].
  erewrite (bind_run _ (fun _ => _)).
  2: { erewrite bind_run by (apply read_file_run; cbn [fs]; apply lookup_insert_eq).
       cbn beta iota zeta.
       rewrite (bind_run _ _ _ _ _ (lift_run _ _)). cbn [app]. rewrite Hdec.
       reflexivity. }
  cbn. rewrite ?Ha, ?Hd. split; reflexivity.
Qed.

(** *** The office-suite export of a link *)












End ExportFacts.

(** ** Failing loads *)

Section LoadFacts.
Context `{Platform} `{Qt} `{PyLib} `{Modules} `{Docx} `{Odf} `{Runtime}.

Lemma document_kept_refl (w : World) : document_kept w w.
Proof. repeat split. exists []. now rewrite app_nil_r. Qed.

Lemma document_kept_trans (w w1 w2 : World) :
  document_kept w w1 -> document_kept w1 w2 -> document_kept w w2.
Proof.
  intros (Ht & Hs & ds & Hd) (Ht' & Hs' & ds' & Hd').
  repeat split; [congruence|congruence|].
  exists (ds ++ ds'). rewrite Hd', Hd. now rewrite app_assoc.
Qed.

Lemma keeps_bind {A B} (m : M World A) (k : A -> M World B) :
  keeps_document m -> (forall a, keeps_document (k a)) -> keeps_document (bind m k).
Proof.
  intros Hm Hk w r w2. unfold bind.
  destruct (m w) as [[a|e] w1] eqn:E; intros E2.
  - eapply document_kept_trans; [exact (Hm _ _ _ E)|exact (Hk a _ _ _ E2)].
  - injection E2 as <- <-. exact (Hm _ _ _ E).
Qed.

Lemma keeps_ret {A} (a : A) : keeps_document (ret a).
Proof. intros w r w1 [= <- <-]. apply document_kept_refl. Qed.

Lemma keeps_raise {A} (e : exn) : keeps_document (@raise World A e).
Proof. intros w r w1 [= <- <-]. apply document_kept_refl. Qed.

Lemma keeps_lift {A} (r : result A) : keeps_document (@lift World A r).
Proof. intros w r' w1 [= <- <-]. apply document_kept_refl. Qed.

Lemma keeps_log_io (ev : io_event) : keeps_document (log_io ev).
Proof.
  intros w r w1 [= <- <-]. repeat split. exists []. cbn. now rewrite app_nil_r.
Qed.

Lemma keeps_open_rb (path : string) : keeps_document (open_rb path).
Proof.
  intros w r w1. unfold open_rb, bind, get.
  destruct (fs w !! path) as [content|].
  - apply (keeps_bind (log_io _) (fun _ => ret content)).
    + apply keeps_log_io.
    + intros _. apply keeps_ret.
  - apply keeps_raise.
Qed.

Lemma keeps_f_read (path : string) (n : Z) (rest : bytes) :
  keeps_document (f_read path n rest).
Proof.
  unfold f_read. destruct (_ && _); [apply keeps_raise|].
  destruct (_ && _); [apply keeps_raise|].
  apply keeps_bind; [apply keeps_log_io|]. intros _. apply keeps_ret.
Qed.

Lemma keeps_f_read_all (path : string) (rest : bytes) :
  keeps_document (f_read_all path rest).
Proof.
  apply keeps_bind; [apply keeps_log_io|]. intros _. apply keeps_ret.
Qed.

Lemma keeps_warning (title : string) (body : warning_body) :
  keeps_document (QMessageBox_warning title body).
Proof.
  intros w r w1 [= <- <-]. repeat split. eexists. reflexivity.
Qed.

(** The [with] block of [load_olc] touches neither the document nor the
    status bar, and only adds message boxes. *)
Lemma read_olc_preserves (filename : string) (w w1 : World) (r : result bytes) :
  read_olc filename w = (r, w1) ->
  text_edit (window w1) = text_edit (window w)
  /\ status (window w1) = status (window w)
  /\ exists ds, dialogs (window w1) = dialogs (window w) ++ ds.
Proof.
  revert w r w1. change (keeps_document (read_olc filename)). unfold read_olc.
  apply keeps_bind; [apply keeps_open_rb|]. intros f.
  apply keeps_bind; [apply keeps_f_read|]. intros [magic f1].
  destruct (negb (bool_decide (magic = magic_OLC))); [apply keeps_raise|].
  apply keeps_bind; [apply keeps_f_read|]. intros [version_bytes f2].
  apply keeps_bind; [apply keeps_lift|]. intros version.
  apply keeps_bind.
  { destruct (float_gt (f32_value version) 1); [apply keeps_warning|apply keeps_ret]. }
  intros _.
  apply keeps_bind; [apply keeps_f_read|]. intros [size_bytes f3].
  apply keeps_bind; [apply keeps_lift|]. intros data_size.
  apply keeps_bind; [apply keeps_f_read|]. intros [compressed_data f4].
  destruct (negb (Z.of_nat (length compressed_data) =? data_size));
    [apply keeps_raise|apply keeps_ret].
Qed.

Lemma read_file_missing (path : string) (w : World) :
  fs w !! path = None ->
  read_file path w = (Raise (OSError "No such file or directory"), w).
Proof.
  intros E. unfold read_file, open_rb, bind, get, raise. now rewrite E.
Qed.

Lemma keeps_read_file (path : string) : keeps_document (read_file path).
Proof.
  unfold read_file.
  apply keeps_bind; [apply keeps_open_rb|]. intros content.
  apply keeps_f_read_all.
Qed.

(** A message box on top of a world that kept the document. *)
Lemma dialog_after_kept (w w1 : World) (d : dialog) :
  document_kept w w1 ->
  let w' := show_dialog d w1 in
  text_edit (window w') = text_edit (window w)
  /\ status (window w') = status (window w)
  /\ exists ds d, dialogs (window w') = dialogs (window w) ++ ds ++ [d].
Proof.
  intros (Ht & Hs & ds & Hd). cbn. rewrite Ht, Hs, Hd, <- app_assoc.
  repeat split. exists ds, d. reflexivity.
Qed.

(** A library that rejects the bytes of the file stops the body of the
    loader before the editor is touched. *)
Lemma rejected_before_import {A} (open : bytes -> result A) (rest : A -> M World unit)
    (filename : string) (w : World) :
  (forall content, fs w !! filename = Some content -> exists e, open content = Raise e) ->
  exists e w1,
    (content <- read_file filename ;; doc <- lift (open content) ;; rest doc) w
      = (Raise e, w1)
    /\ document_kept w w1.
Proof.
  intros Hrej. destruct (fs w !! filename) as [content|] eqn:Efile.
  - destruct (Hrej content eq_refl) as [e He].
    rewrite (bind_run _ _ _ _ _ (read_file_run _ _ _ Efile)).
    rewrite (bind_run _ _ _ _ _ (lift_run _ _)), He.
    eexists _, _. split; [reflexivity|].
    exact (keeps_read_file filename _ _ _ (read_file_run _ _ _ Efile)).
  - rewrite (bind_run _ _ _ _ _ (read_file_missing _ _ Efile)).
    eexists _, _. split; [reflexivity|]. apply document_kept_refl.
Qed.

(** C6 (as the code has it). A load of a word-processor, office-suite or
    container file that stops before the importer starts to rebuild the
    document leaves the document of the editor, blocks and resources, as
    it was; the status bar reports no load and a message box is shown. *)
Theorem failing_load_leaves_document (c : codec) (filename : string) (w : World) :
  fails_before_import c filename w ->
  let w' := load c filename w in
  text_edit (window w') = text_edit (window w)
  /\ status (window w') = status (window w)
  /\ exists ds d, dialogs (window w') = dialogs (window w) ++ ds ++ [d].
Proof.
  intros Hfail. cbn zeta.
  assert (Hdocx :
    (forall content, fs w !! filename = Some content -> exists e, docx_open content = Raise e) ->
    let w' := load_docx filename w in
    text_edit (window w') = text_edit (window w)
    /\ status (window w') = status (window w)
    /\ exists ds d, dialogs (window w') = dialogs (window w) ++ ds ++ [d]).
  { intros Hrej. cbn zeta. unfold load_docx.
    destruct DOCX_AVAILABLE; cbn [negb];
      [|apply dialog_after_kept, document_kept_refl].
    unfold try_except, load_docx_body.
    edestruct (rejected_before_import docx_open) as (e & w1 & E & Hkept); [exact Hrej|].
    rewrite E. now apply dialog_after_kept. }
  assert (Hodt :
    (forall content, fs w !! filename = Some content -> exists e, odf_load content = Raise e) ->
    let w' := load_odt filename w in
    text_edit (window w') = text_edit (window w)
    /\ status (window w') = status (window w)
    /\ exists ds d, dialogs (window w') = dialogs (window w) ++ ds ++ [d]).
  { intros Hrej. cbn zeta. unfold load_odt.
    destruct ODT_AVAILABLE; cbn [negb];
      [|apply dialog_after_kept, document_kept_refl].
    unfold try_except, load_odt_body.
    edestruct (rejected_before_import odf_load) as (e & w1 & E & Hkept); [exact Hrej|].
    rewrite E. now apply dialog_after_kept. }
  assert (Holc : forall (w1 : World) (e : exn),
    document_kept w w1 ->
    let w' :=
      (if is_ValueError e
       then QMessageBox_critical "Fichier invalide" "" e
       else QMessageBox_critical "Erreur" "Impossible de charger le fichier .olc:" e) w1 in
    text_edit (window w') = text_edit (window w)
    /\ status (window w') = status (window w)
    /\ exists ds d, dialogs (window w') = dialogs (window w) ++ ds ++ [d]).
  { intros w1 e Hkept. cbn zeta.
    destruct (is_ValueError e); now apply dialog_after_kept. }
  destruct Hfail as [c filename w Hav | c filename w Hnone
                    | filename w content e Hfile Hrej
                    | filename w content e Hfile Hrej
                    | filename w e w1 Hread
                    | filename w compressed_data w1 e Hread Hgz
                    | filename w compressed_data w1 serialized_data e Hread Hgz Hpk].
  - destruct c; cbn in Hav |- *.
    + unfold load_docx. rewrite Hav. apply dialog_after_kept, document_kept_refl.
    + unfold load_odt. rewrite Hav. apply dialog_after_kept, document_kept_refl.
    + discriminate.
  - destruct c; cbn [load].
    + apply Hdocx. intros content Hc. congruence.
    + apply Hodt. intros content Hc. congruence.
    + unfold load_olc, try_except, load_olc_body.
      assert (Hread : read_olc filename w
                      = (Raise (OSError "No such file or directory"), w)).
      { unfold read_olc, open_rb, bind, get, raise. now rewrite Hnone. }
      rewrite (bind_run _ _ _ _ _ Hread).
      apply Holc, document_kept_refl.
  - apply Hdocx. intros content' Hc. exists e. congruence.
  - apply Hodt. intros content' Hc. exists e. congruence.
  - pose proof (read_olc_preserves _ _ _ _ Hread) as Hkept.
    cbn [load]. unfold load_olc, try_except, load_olc_body.
    rewrite (bind_run _ _ _ _ _ Hread).
    now apply Holc.
  - pose proof (read_olc_preserves _ _ _ _ Hread) as Hkept.
    cbn [load]. unfold load_olc, try_except, load_olc_body.
    rewrite (bind_run _ _ _ _ _ Hread).
    rewrite (bind_run _ _ _ _ _ (lift_run _ _)), Hgz.
    now apply Holc.
  - pose proof (read_olc_preserves _ _ _ _ Hread) as Hkept.
    cbn [load]. unfold load_olc, try_except, load_olc_body.
    rewrite (bind_run _ _ _ _ _ Hread).
    rewrite (bind_run _ _ _ _ _ (lift_run _ _)), Hgz.
    rewrite (bind_run _ _ _ _ _ (lift_run _ _)), Hpk.
    now apply Holc.
Qed.
End LoadFacts.

(** ** The exporters and the loaders on the small instance *)

Section CodecWitnesses.
#[local] Existing Instances Demo.platform Demo.qt Demo.pylib Demo.docx Demo.odf Demo.runtime.





(** The picture of 1000 pixels of [Demo.picture_doc]. *)
Lemma save_as_odt_frame_not_clamped_witness :
  let st := {| image_counter := 0; fragments_seen := 0;
               odt_doc := {| odt_pictures := []; odt_automaticstyles := [];
                             odt_text := [] |};
               odt_p := [] |} in
  let image_format := {| img_name := "photo.png"; img_width := 1000; img_height := 500 |} in
  exists width height n,
    odt_p (odt_fragment Demo.picture_doc st (Demo.image_fragment "photo.png")) =
      odt_p st ++ [Frame width height "as-char" n]
    /\ (width == img_width image_format / 96)%Q
    /\ (6 < width)%Q
    /\ (fst (docx_picture_size image_format) == 6)%Q.
Proof.
  intros st image_format.
  apply (save_as_odt_frame_not_clamped Demo.picture_doc st
           (Demo.image_fragment "photo.png") image_format Demo.png).
  - reflexivity.
  - reflexivity.
  - reflexivity.
  - reflexivity.
Defined.

(** The frame of the office-suite export of [Demo.picture_doc] is
    1000/96 inches wide; the picture of the word-processor export of the
    same document is 6 inches (5486400 EMU) wide. *)
Example picture_doc_exports :
  let _ := Demo.all_modules in
  odt_text (build_odt Demo.picture_doc)
    = [[Frame (1000 / 96) (500 / 96) "as-char" 1]]
  /\ (exists docx height,
        build_docx Demo.picture_doc = Ok docx
        /\ map paragraph_children (docx_paragraphs docx)
           = [[W_r {| run_text := ""; run_font_name := None; run_font_size := None;
                      run_bold := None; run_italic := None; run_underline := None;
                      run_font_color_rgb := None;
                      run_picture := Some {| pic_stream := Demo.png;
                                             pic_width := 5486400;
                                             pic_height := height |} |}]]).
Proof. split; [vm_compute; reflexivity|]. eexists _, _. split; vm_compute; reflexivity. Qed.

Lemma save_to_file_docx_unavailable_witness :
  let _ := Demo.no_docx in
  let w := Demo.world Demo.hello_doc ∅ in
  let '(saved, w') := save_to_file "lettre.docx" w in
  fs w' = fs w
  /\ io_log w' = io_log w
  /\ dialogs (window w') = dialogs (window w) ++ [Warning "Module manquant" MissingDocx]
  /\ saved = true
  /\ status (window w') = status (window w) ++ [FileSaved "lettre.docx"]
  /\ current_file (window w') = Some "lettre.docx"
  /\ is_modified (window w') = false.
Proof.
  intros ? w.
  apply (save_to_file_docx_unavailable "lettre.docx" w).
  - reflexivity.
  - reflexivity.
  - reflexivity.
Defined.

(** A file python-docx rejects. *)
Lemma failing_load_leaves_document_witness :
  let _ := Demo.all_modules in
  let w := Demo.world Demo.picture_doc {[ "notes.docx" := [x00; x01] ]} in
  let w' := load WordProcessor "notes.docx" w in
  text_edit (window w') = text_edit (window w)
  /\ status (window w') = status (window w)
  /\ exists ds d, dialogs (window w') = dialogs (window w) ++ ds ++ [d].
Proof.
  intros ? w.
  apply (failing_load_leaves_document WordProcessor "notes.docx" w).
  apply (docx_rejected "notes.docx" w [x00; x01] (LibError "PackageNotFoundError")).
  - reflexivity.
  - reflexivity.
Defined.

(** C6, as stated, fails: [Demo.two_paragraphs_file] opens, its first
    paragraph is imported, and reading the alignment of the second raises.
    The load fails, and the editor holds the first paragraph instead of the
    document it had. *)
Lemma load_docx_failure_after_clear :
  let _ := Demo.all_modules in
  let w := Demo.world Demo.picture_doc {[ "report.docx" := Demo.two_paragraphs_file ]} in
  let w' := load_docx "report.docx" w in
  dialogs (window w') =
    [Critical "Erreur" "Impossible de lire le fichier .docx:"
       (LibValueError "invalid w:jc value")]
  /\ map Demo.block_text (blocks (text_edit (window w'))) = ["Hello"; ""]
  /\ text_edit (window w') <> text_edit (window w).
Proof.
  intros ? w. repeat split; try (vm_compute; reflexivity).
  intros E. apply (f_equal blocks) in E. vm_compute in E. discriminate E.
Qed.
End CodecWitnesses.

(** * More properties of the program *)

(** ** The container: short headers, defaults, partial loads *)

Section ContainerMore.
Context `{Platform} `{Qt} `{PyLib}.

Lemma load_olc_unfold (filename : string) :
  load_olc filename =
    try_except
      (compressed_data <- read_olc filename ;;
       serialized_data <- lift (gzip_decompress compressed_data) ;;
       olc_data <- lift (pickle_loads serialized_data) ;;
       apply_snapshot filename olc_data)
      load_olc_handler.
Proof. reflexivity. Qed.

Lemma getsize_found (path : string) (content : bytes) (w : World) :
  fs w !! path = Some content ->
  getsize path w =
    (Ok (Z.of_nat (length content)),
     {| window := window w; fs := fs w;
        io_log := io_log w ++ [GetSize path]; ticks := ticks w |}).
Proof.
  intros E. unfold getsize, log_io, bind, get, modify, ret. rewrite E. reflexivity.
Qed.

(** A container that is framed, decompresses and deserialises hands its
    snapshot to [apply_snapshot], in the world the header left. *)
Lemma load_olc_decoded (w : World) (filename : string)
    (version_bytes size_bytes payload trailing serialized : bytes) (snapshot : pyval) :
  fs w !! filename =
    Some (magic_OLC ++ version_bytes ++ size_bytes ++ payload ++ trailing) ->
  length version_bytes = 4%nat ->
  length size_bytes = 8%nat ->
  native_value size_bytes = Z.of_nat (length payload) ->
  gzip_decompress payload = Ok serialized ->
  pickle_loads serialized = Ok snapshot ->
  load_olc filename w =
    try_except (apply_snapshot filename snapshot) load_olc_handler
      (after_header filename (native_value version_bytes) (Z.of_nat (length payload)) w).
Proof.
  intros Hfile Hv Hs Hsize Hgz Hpk.
  pose proof (read_olc_frame w filename _ _ _ Hfile Hv Hs) as Hread.
  cbn zeta in Hread.
  specialize (Hread ltac:(left; rewrite Hsize, length_app; lia)).
  rewrite Hsize, Nat2Z.id, take_app_length in Hread.
  rewrite Z.eqb_refl in Hread.
  rewrite load_olc_unfold. unfold try_except.
  rewrite (bind_run _ _ _ _ _ Hread).
  rewrite (bind_run _ _ _ _ _ (lift_run _ _)), Hgz.
  rewrite (bind_run _ _ _ _ _ (lift_run _ _)), Hpk.
  reflexivity.
Qed.

(** The snapshot applied: the entries read with their defaults. *)
Lemma apply_snapshot_ok (w1 : World) (filename : string) (content : bytes)
    (snapshot metadata created created10 word_count : pyval)
    (items : list (string * bytes)) (html : string) :
  fs w1 !! filename = Some content ->
  py_get snapshot "images" (PyDict []) = Ok (py_images items) ->
  py_get snapshot "html_content" (PyStr "") = Ok (PyStr html) ->
  py_get snapshot "metadata" (PyDict []) = Ok metadata ->
  py_get snapshot "created" (PyStr "Date inconnue") = Ok created ->
  py_slice10 created = Ok created10 ->
  py_get metadata "word_count" (PyInt 0) = Ok word_count ->
  exists w2,
    apply_snapshot filename snapshot w1 = (Ok tt, w2)
    /\ text_edit (window w2) = setHtml html (add_images items (text_edit (window w1)))
    /\ dialogs (window w2) = dialogs (window w1)
    /\ status (window w2) =
         status (window w1) ++
           [OlcLoaded (Z.of_nat (length content)) created10 word_count (length items)]
    /\ fs w2 = fs w1.
Proof.
  intros Hfile Himg Hhtml Hmeta Hcr Hsl Hwc. unfold apply_snapshot.
  rewrite (bind_run _ _ _ _ _ (lift_run _ _)), Himg.
  rewrite (bind_run _ _ _ _ _ (lift_run _ _)). cbn [py_items py_images].
  rewrite (bind_run _ _ _ _ _ (for_each_images _ _)).
  rewrite (bind_run _ _ _ _ _ (lift_run _ _)), Hhtml.
  erewrite bind_run by reflexivity.
  rewrite (bind_run _ _ _ _ _ (lift_run _ _)), Hmeta.
  rewrite (bind_run _ _ _ _ _ (lift_run _ _)), Hcr.
  erewrite bind_run by (apply getsize_found; exact Hfile).
  cbn beta iota zeta.
  rewrite (bind_run _ _ _ _ _ (lift_run _ _)), Hsl.
  rewrite (bind_run _ _ _ _ _ (lift_run _ _)), Hwc.
  rewrite (bind_run _ _ _ _ _ (lift_run _ _)). cbn [py_len].
  eexists. split; [reflexivity|].
  cbn. rewrite length_map. repeat split; reflexivity.
Qed.

(** X1. A file that starts with [OLC!] and stops inside the header (fewer
    than twelve bytes after the magic) makes [struct.unpack] raise: the
    load ends with the "Erreur" box for [struct.error], not with the
    "Fichier invalide" box of a [ValueError], and the document and the
    status bar are as they were. *)
Theorem load_olc_short_header (w : World) (filename : string) (rest : bytes) :
  fs w !! filename = Some (magic_OLC ++ rest) ->
  (length rest < 12)%nat ->
  let w' := load_olc filename w in
  (exists ds,
     dialogs (window w') =
       dialogs (window w) ++ ds
         ++ [Critical "Erreur" "Impossible de charger le fichier .olc:" StructError])
  /\ text_edit (window w') = text_edit (window w)
  /\ status (window w') = status (window w).
Proof.
  intros Hfile Hshort. cbn zeta.
  assert (Hres : fst (read_olc filename w) = Raise StructError).
  { unfold read_olc, open_rb, QMessageBox_warning,
      bind, ret, raise, get, modify, lift.
    rewrite Hfile. cbn -[take drop Z.to_nat].
    rewrite f_read_run by (apply small_read; lia). cbn -[take drop Z.to_nat].
    change (drop (Z.to_nat 4) (_ :: _ :: _ :: _ :: ?l)) with l.
    change (take (Z.to_nat 4) (?a :: ?b :: ?c :: ?d :: _)) with [a; b; c; d].
    rewrite bool_decide_eq_true_2 by reflexivity. cbn -[take drop Z.to_nat].
    rewrite f_read_run by (apply small_read; lia). cbn -[take drop Z.to_nat].
    unfold unpack_f.
    destruct (Nat.eqb_spec (length (take (Z.to_nat 4) rest)) 4) as [E4|_];
      [|reflexivity].
    cbn -[take drop Z.to_nat].
    assert (Hsz : unpack_Q (take (Z.to_nat 8) (drop (Z.to_nat 4) rest)) = Raise StructError).
    { unfold unpack_Q.
      destruct (Nat.eqb_spec (length (take (Z.to_nat 8) (drop (Z.to_nat 4) rest))) 8)
        as [E8|_]; [|reflexivity].
      rewrite length_take, length_drop in E8.
      change (Z.to_nat 8) with 8%nat in E8. change (Z.to_nat 4) with 4%nat in E8. lia. }
    destruct (float_gt _ _); cbn -[take drop Z.to_nat];
      rewrite f_read_run by (apply small_read; lia); cbn -[take drop Z.to_nat];
      rewrite Hsz; reflexivity. }
  rewrite load_olc_unfold. unfold try_except.
  destruct (read_olc filename w) as [r w1] eqn:Eread. cbn [fst] in Hres. subst r.
  destruct (read_olc_preserves _ _ _ _ Eread) as (Ht & Hs & ds & Hd).
  rewrite (bind_run _ _ _ _ _ Eread).
  unfold load_olc_handler. cbn. rewrite Ht, Hs, Hd, <- app_assoc.
  repeat split. exists ds. reflexivity.
Qed.

(** X2. A container whose snapshot is a dictionary without the entries
    [images], [html_content], [metadata] and [created] loads all the same:
    the editor is set from the empty markup, which clears the document and
    with it the resource store, whatever images it held before; and the
    status bar reports "Date incon" (the first ten characters of "Date
    inconnue"), 0 words and 0 images. *)
Theorem load_olc_missing_entries (w : World) (filename : string)
    (version_bytes size_bytes payload trailing serialized : bytes)
    (d : list (string * pyval)) :
  fs w !! filename =
    Some (magic_OLC ++ version_bytes ++ size_bytes ++ payload ++ trailing) ->
  length version_bytes = 4%nat ->
  length size_bytes = 8%nat ->
  native_value size_bytes = Z.of_nat (length payload) ->
  gzip_decompress payload = Ok serialized ->
  pickle_loads serialized = Ok (PyDict d) ->
  dict_lookup "images" d = None ->
  dict_lookup "html_content" d = None ->
  dict_lookup "metadata" d = None ->
  dict_lookup "created" d = None ->
  let w' := load_olc filename w in
  blocks (text_edit (window w')) = fromHtml ""
  /\ resources (text_edit (window w')) = ∅
  /\ dialogs (window w') =
       dialogs (window w) ++ version_warning (native_value version_bytes)
  /\ exists file_size,
       status (window w') =
         status (window w) ++ [OlcLoaded file_size (PyStr "Date incon") (PyInt 0) 0].
Proof.
  intros Hfile Hv Hs Hsize Hgz Hpk Himg Hhtml Hmeta Hcr. cbn zeta.
  rewrite (load_olc_decoded w filename _ _ _ _ _ _ Hfile Hv Hs Hsize Hgz Hpk).
  destruct (dialogs_show_dialogs (version_warning (native_value version_bytes))
    {| window := window w; fs := fs w;
       io_log := io_log w ++ [OpenRead filename; Read filename 4; Read filename 4;
                              Read filename 8; Read filename (Z.of_nat (length payload))];
       ticks := ticks w |}) as (Hd & Ht & Hst & Hfs & _ & _).
  cbn [window fs] in Hd, Ht, Hst, Hfs.
  fold (after_header filename (native_value version_bytes)
          (Z.of_nat (length payload)) w) in Hd, Ht, Hst, Hfs.
  set (w1 := after_header _ _ _ w) in *.
  destruct (apply_snapshot_ok w1 filename
              (magic_OLC ++ version_bytes ++ size_bytes ++ payload ++ trailing)
              (PyDict d) (PyDict [])
              (PyStr "Date inconnue") (PyStr "Date incon") (PyInt 0) [] "")
    as (w2 & Hrun & Ht2 & Hd2 & Hs2 & _).
  - rewrite Hfs. exact Hfile.
  - cbn. now rewrite Himg.
  - cbn. now rewrite Hhtml.
  - cbn. now rewrite Hmeta.
  - cbn. now rewrite Hcr.
  - reflexivity.
  - reflexivity.
  - unfold try_except. rewrite Hrun, Ht2, Hd2, Hs2, Ht, Hd, Hst.
    repeat split. eexists. reflexivity.
Qed.







(** X5. When the compressed snapshot is shorter than 2^64 bytes,
    [save_as_olc] replaces the file by the four fields in order: the
    magic, the version 1.0, the 8-byte length and the payload, 16 bytes
    more than the payload, which is the size the status bar reports; no
    other file changes and the document is the same. *)
Theorem save_as_olc_layout (w : World) (filename : string) :
  let doc := text_edit (window w) in
  let snapshot := olc_data doc (isoformat_now (ticks w)) (isoformat_now (S (ticks w))) in
  let payload := gzip_compress (pickle_dumps snapshot) in
  let size := Z.of_nat (length payload) in
  size < 2 ^ 64 ->
  let w' := save_as_olc filename w in
  fs w' = <[filename := magic_OLC ++ pack_f f32_one ++ native_bytes 8 size ++ payload]> (fs w)
  /\ status (window w') = status (window w) ++ [OlcSaved filename (16 + size)]
  /\ io_log w' =
       io_log w ++ [OpenWrite filename; Write filename magic_OLC;
                    Write filename (pack_f f32_one);
                    Write filename (native_bytes 8 size);
                    Write filename payload; GetSize filename]
  /\ text_edit (window w') = doc
  /\ dialogs (window w') = dialogs (window w).
Proof.
  intros doc snapshot payload size Hlen.
  assert (Hpack : pack_Q size = Ok (native_bytes 8 size)).
  { unfold pack_Q. unfold size in Hlen |- *.
    destruct (Z.leb_spec 0 (Z.of_nat (length payload))) as [_|Hneg]; [|lia].
    destruct (Z.ltb_spec (Z.of_nat (length payload)) (2 ^ 64)) as [_|Hbig]; [|lia].
    reflexivity. }
  cbn zeta. unfold save_as_olc, try_except, save_as_olc_body.
  erewrite bind_run by reflexivity. cbn beta iota zeta.
  rewrite (bind_run _ _ _ _ _ (datetime_now_run _)). cbn beta iota zeta.
  rewrite (bind_run _ _ _ _ _ (datetime_now_run _)). cbn beta iota zeta.
  cbn [ticks window]. fold doc. fold snapshot. fold payload. fold size.
  rewrite (bind_run _ _ _ _ _ (open_wb_run _ _)). cbn beta iota zeta.
  cbn [fs window io_log ticks].
  rewrite (bind_run _ _ _ _ _ (f_write_run _ _ _ _ _ _ _)). cbn beta iota zeta.
  rewrite (bind_run _ _ _ _ _ (f_write_run _ _ _ _ _ _ _)). cbn beta iota zeta.
  rewrite (bind_run _ _ _ _ _ (lift_run _ _)), Hpack. cbn beta iota zeta.
  rewrite (bind_run _ _ _ _ _ (f_write_run _ _ _ _ _ _ _)). cbn beta iota zeta.
  rewrite (bind_run _ _ _ _ _ (f_write_run _ _ _ _ _ _ _)). cbn beta iota zeta.
  rewrite (bind_run _ _ _ _ _ (getsize_run _ _ _ _ _ _)). cbn beta iota zeta.
  cbn [showMessage modify set_app window fs text_edit dialogs status io_log fst snd].
  rewrite <- !app_assoc. cbn [app].
  split; [reflexivity|]. split.
  - do 2 f_equal. f_equal.
    rewrite !length_app, !length_native_bytes. unfold pack_f.
    rewrite length_native_bytes. change (length magic_OLC) with 4%nat.
    subst size. lia.
  - repeat split; reflexivity.
Qed.
End ContainerMore.


(** ** The dispatchers and their callers *)

Section CommandFacts.
Context `{Platform} `{Qt} `{PyLib} `{Modules} `{Docx} `{Odf} `{Runtime}.

(** X6. When the markup cannot be encoded, [save_as_html] has already
    truncated the file and shows its error box; [save_to_file] then
    records the file as saved all the same: it returns [True], clears
    [is_modified] and reports "Fichier enregistré", over an empty file. *)
Theorem save_to_file_html_failure (filename : string) (w : World) (e : exn) :
  endswith filename ".olc" = false ->
  endswith filename ".docx" = false ->
  endswith filename ".odt" = false ->
  endswith filename ".html" = true ->
  encode_utf8 (toHtml (blocks (text_edit (window w)))) = Raise e ->
  let '(saved, w') := save_to_file filename w in
  saved = true
  /\ fs w' = <[filename := []]> (fs w)
  /\ dialogs (window w') =
       dialogs (window w) ++ [Critical "Erreur" "Impossible d'enregistrer en HTML:" e]
  /\ status (window w') = status (window w) ++ [FileSaved filename]
  /\ current_file (window w') = Some filename
  /\ is_modified (window w') = false.
Proof.
  intros Holc Hdocx Hodt Hhtml Henc. unfold save_to_file.
  rewrite Holc, Hdocx, Hodt, Hhtml.
  assert (Hsave : exists a log,
    save_as_html filename w =
      {| window := a; fs := <[filename := []]> (fs w); io_log := log; ticks := ticks w |}
    /\ dialogs a =
         dialogs (window w) ++ [Critical "Erreur" "Impossible d'enregistrer en HTML:" e]
    /\ status a = status (window w)).
  { unfold save_as_html, try_except.
    rewrite (bind_run _ _ _ _ _ (open_wb_run _ _)). cbn beta iota zeta.
    rewrite (bind_run _ _ _ _ _ (lift_run _ _)), Henc.
    eexists _, _. split; [reflexivity|]. split; reflexivity. }
  destruct Hsave as (a & log & Hsave & Hd & Hs).
  unfold bind, modify, showMessage. rewrite Hsave. cbn. rewrite Hd, Hs.
  repeat split.
Qed.

(** X7. The branch of [save_to_file] for any other extension opens the
    file before it encodes the text: when the text cannot be encoded the
    save is reported failed ([False], nothing recorded), and the file that
    was there is left empty. *)
Theorem save_to_file_text_failure_truncates (filename : string) (w : World) (e : exn) :
  endswith filename ".olc" = false ->
  endswith filename ".docx" = false ->
  endswith filename ".odt" = false ->
  endswith filename ".html" = false ->
  encode_utf8 (toPlainText (blocks (text_edit (window w)))) = Raise e ->
  let '(saved, w') := save_to_file filename w in
  saved = false
  /\ fs w' = <[filename := []]> (fs w)
  /\ current_file (window w') = current_file (window w)
  /\ is_modified (window w') = is_modified (window w)
  /\ status (window w') = status (window w).
Proof.
  intros Holc Hdocx Hodt Hhtml Henc. unfold save_to_file.
  rewrite Holc, Hdocx, Hodt, Hhtml.
  erewrite bind_run.
  2: { erewrite bind_run by reflexivity. cbn beta iota zeta.
       rewrite (bind_run _ _ _ _ _ (open_wb_run _ _)). cbn beta iota zeta.
       rewrite (bind_run _ _ _ _ _ (lift_run _ _)), Henc. reflexivity. }
  cbn. repeat split.
Qed.

(** [load_olc] on a file without the magic: the world but for the dialog
    and the log. *)
Lemma load_olc_rejects_magic (w : World) (filename : string) (content : bytes) :
  fs w !! filename = Some content ->
  take 4 content <> magic_OLC ->
  let w' := load_olc filename w in
  text_edit (window w') = text_edit (window w)
  /\ current_file (window w') = current_file (window w)
  /\ is_modified (window w') = is_modified (window w)
  /\ status (window w') = status (window w)
  /\ fs w' = fs w
  /\ ticks w' = ticks w.
Proof.
  intros Hfile Hmagic.
  unfold load_olc, try_except, load_olc_body, read_olc, open_rb,
    QMessageBox_critical, bind, ret, raise, get, modify, lift.
  cbn [fst snd window fs io_log ticks].
  rewrite Hfile. cbn -[take drop Z.to_nat].
  rewrite f_read_run by (apply small_read; lia). cbn.
  rewrite bool_decide_eq_false_2 by exact Hmagic. cbn. repeat split.
Qed.

Lemma endswith_nonempty (s suffix : string) :
  endswith s suffix = true -> suffix <> "" -> String.eqb s "" = false.
Proof.
  intros Hends Hsuffix. destruct s as [|c s]; [|reflexivity].
  destruct suffix as [|c' suffix]; [contradiction|]. discriminate Hends.
Qed.

(** X8. [open_file] records the file as the current one whether or not
    the loader could read it.  After a [.olc] file was rejected for its
    magic, the editor still holds the previous document under the name of
    the rejected file, marked unmodified; a save then goes to that name
    without asking and replaces the rejected file by a container of the
    previous document. *)
Theorem open_rejected_olc_then_save (filename chosen : string) (w : World)
    (content : bytes) :
  endswith filename ".docx" = false ->
  endswith filename ".odt" = false ->
  endswith filename ".html" = false ->
  endswith filename ".htm" = false ->
  endswith filename ".olc" = true ->
  fs w !! filename = Some content ->
  take 4 content <> magic_OLC ->
  let doc := text_edit (window w) in
  let snapshot := olc_data doc (isoformat_now (ticks w)) (isoformat_now (S (ticks w))) in
  let payload := gzip_compress (pickle_dumps snapshot) in
  Z.of_nat (length payload) < 2 ^ 64 ->
  let w1 := open_file filename w in
  text_edit (window w1) = doc
  /\ current_file (window w1) = Some filename
  /\ is_modified (window w1) = false
  /\ let '(saved, w2) := save_file chosen w1 in
     saved = true
     /\ fs w2 !! filename =
          Some (magic_OLC ++ pack_f f32_one
                  ++ native_bytes 8 (Z.of_nat (length payload)) ++ payload).
Proof.
  intros Hdocx Hodt Hhtml Hhtm Holc Hfile Hmagic doc snapshot payload Hlen.
  destruct (load_olc_rejects_magic w filename content Hfile Hmagic)
    as (Ht & _ & _ & _ & Hfs & Htk).
  cbn zeta in Ht, Hfs, Htk.
  set (w0 := load_olc filename w) in *.
  assert (Hopen : open_file filename w =
                  snd (showMessage (FileOpened filename)
                         (set_app (mark_opened filename) w0))).
  { unfold open_file, try_except. rewrite Hdocx, Hodt, Hhtml, Hhtm, Holc. reflexivity. }
  cbn zeta. rewrite Hopen.
  set (w1 := snd (showMessage (FileOpened filename) (set_app (mark_opened filename) w0))).
  assert (Ht1 : text_edit (window w1) = doc) by exact Ht.
  assert (Htk1 : ticks w1 = ticks w) by exact Htk.
  split; [exact Ht1|]. split; [reflexivity|]. split; [reflexivity|].
  unfold save_file. change (current_file (window w1)) with (Some filename).
  cbn beta iota.
  rewrite (endswith_nonempty filename ".olc" Holc) by discriminate. cbn [negb].
  unfold save_to_file. rewrite Holc.
  pose proof (save_as_olc_ok w1 filename) as Hsave. cbn zeta in Hsave.
  rewrite Ht1, Htk1 in Hsave. fold snapshot payload in Hsave.
  destruct (Hsave Hlen) as (Hfs2 & _).
  unfold bind, modify, showMessage. cbn [fst snd set_app fs].
  split; [reflexivity|].
  change (fs (save_as_olc filename w1) !! filename = Some
            (magic_OLC ++ pack_f f32_one
               ++ native_bytes 8 (Z.of_nat (length payload)) ++ payload)).
  rewrite Hfs2. now rewrite app_nil_r.
Qed.

(** X9. With python-docx missing, a modified document whose current file
    is a [.docx] is lost by "open" answered with "save": the save writes
    nothing and only shows the missing-module warning, [maybe_save]
    returns [True], and the HTML file that is opened replaces the document.
    No file on disk has changed. *)
Theorem unsaved_docx_lost_on_open (file chosen opened : string) (w : World)
    (data : bytes) (html : string) :
  DOCX_AVAILABLE = false ->
  is_modified (window w) = true ->
  current_file (window w) = Some file ->
  endswith file ".olc" = false ->
  endswith file ".docx" = true ->
  endswith opened ".docx" = false ->
  endswith opened ".odt" = false ->
  endswith opened ".html" = true ->
  fs w !! opened = Some data ->
  decode_utf8 data = Ok html ->
  let w' := open_file_command Save chosen opened w in
  blocks (text_edit (window w')) = fromHtml html
  /\ fs w' = fs w
  /\ dialogs (window w') = dialogs (window w) ++ [Warning "Module manquant" MissingDocx]
  /\ current_file (window w') = Some opened
  /\ is_modified (window w') = false.
Proof.
  intros Hmissing Hmod Hcur Holc Hdocx Hodocx Hoodt Hohtml Hdata Hdec. cbn zeta.
  unfold open_file_command, maybe_save, save_file. rewrite Hmod, Hcur. cbn [negb].
  rewrite (endswith_nonempty file ".docx" Hdocx) by discriminate. cbn [negb].
  assert (Hsave : exists a,
    save_to_file file w = (true, {| window := a; fs := fs w; io_log := io_log w;
                                    ticks := ticks w |})
    /\ dialogs a = dialogs (window w) ++ [Warning "Module manquant" MissingDocx]).
  { unfold save_to_file. rewrite Holc, Hdocx. unfold save_as_docx. rewrite Hmissing.
    cbn. eexists. split; reflexivity. }
  destruct Hsave as (a & -> & Hd).
  rewrite (endswith_nonempty opened ".html" Hohtml) by discriminate. cbn [negb].
  unfold open_file, try_except. rewrite Hodocx, Hoodt, Hohtml. cbn [orb].
  erewrite bind_run.
  2: { erewrite bind_run by (apply read_file_run; exact Hdata).
       cbn beta iota zeta.
       rewrite (bind_run _ _ _ _ _ (lift_run _ _)), Hdec. reflexivity. }
  cbn. rewrite Hd. repeat split.
Qed.
End CommandFacts.


(** ** The word-processor export, paragraph by paragraph *)

Section DocxExportFacts.
Context `{Qt} `{Docx} `{Runtime}.

(** X10. When python-docx takes every run of the document,
    [save_as_docx] builds a document of one paragraph per block, in order.
    The paragraph of a block is centred (1) for [Qt.AlignCenter], right
    aligned (2) for [Qt.AlignRight], justified (3) for [Qt.AlignJustify]
    and left aligned (0) for every other alignment of the block, and the
    text a reader sees in it is the text of the fragments of the block in
    order, with nothing for an image and the text of a link twice. *)
Theorem build_docx_paragraphs (doc : QTextDocument) :
  docx_exportable doc = true ->
  exists docx,
    build_docx doc = Ok docx
    /\ length (docx_paragraphs docx) = length (blocks doc)
    /\ forall i block,
         blocks doc !! i = Some block ->
         exists paragraph,
           docx_paragraphs docx !! i = Some paragraph
           /\ paragraph_alignment paragraph =
                (if alignment block =? AlignCenter then 1
                 else if alignment block =? AlignRight then 2
                 else if alignment block =? AlignJustify then 3
                 else 0)
           /\ visible_text (paragraph_children paragraph) = block_export_text block.
Proof.
  intros Hexp. destruct (build_docx_exported doc Hexp) as (docx & Hbuild & Hall).
  exists docx. split; [exact Hbuild|]. split.
  - symmetry. exact (Forall2_length _ _ _ Hall).
  - intros i block Hblock.
    destruct (Forall2_lookup_l _ _ _ _ _ Hall Hblock) as (paragraph & Hp & Ha & Ht & _).
    exists paragraph. now repeat split.
Qed.
End DocxExportFacts.

(** ** Reading a word-processor file *)

Section DocxImportFacts.
Context `{Qt} `{Modules} `{Docx}.

Lemma split_last_snoc (bs : list QTextBlock) (b : QTextBlock) :
  split_last (bs ++ [b]) = (bs, b).
Proof.
  induction bs as [|x bs IH]; [reflexivity|].
  cbn [app]. destruct (bs ++ [b]) as [|q l] eqn:E; [destruct bs; discriminate|].
  change (split_last (x :: q :: l))
    with (let '(done, current) := split_last (q :: l) in (x :: done, current)).
  now rewrite IH.
Qed.

Lemma same_but_text_trans (w1 w2 w3 : World) :
  same_but_text w1 w2 -> same_but_text w2 w3 -> same_but_text w1 w3.
Proof. unfold same_but_text. intuition congruence. Qed.

Lemma edits_ret : edits (ret tt) (fun d => d).
Proof. intros w. exists w. unfold same_but_text. now repeat split. Qed.

Lemma edits_modify (f : QTextDocument -> QTextDocument) :
  edits (modify (set_text_edit f)) f.
Proof. intros w. eexists. split; [reflexivity|]. unfold same_but_text. now repeat split. Qed.

Lemma edits_bind (m k : M World unit) (f g : QTextDocument -> QTextDocument) :
  edits m f -> edits k g -> edits (m ;;; k) (fun d => g (f d)).
Proof.
  intros Hm Hk w.
  destruct (Hm w) as (w1 & E1 & T1 & K1). destruct (Hk w1) as (w2 & E2 & T2 & K2).
  exists w2. split; [erewrite bind_run by exact E1; exact E2|].
  split; [now rewrite T2, T1 | now apply same_but_text_trans with w1].
Qed.

Lemma edits_for_each {A} (body : A -> M World unit)
    (Q : (QTextDocument -> QTextDocument) -> Prop) (xs : list A) :
  Q (fun d => d) ->
  (forall f g, Q f -> Q g -> Q (fun d => g (f d))) ->
  Forall (fun x => exists f, edits (body x) f /\ Q f) xs ->
  exists F, edits (for_each xs body) F /\ Q F.
Proof.
  intros Qid Qcomp Hall.
  induction Hall as [|x xs (f & Hf & Qf) _ (F & HF & QF)].
  - exists (fun d => d). split; [apply edits_ret | exact Qid].
  - exists (fun d => F (f d)). split; [|now apply Qcomp].
    cbn [for_each]. now apply edits_bind.
Qed.

Lemma insert_chars_aligned (a : Z) (format : QTextCharFormat) (done : list QTextBlock)
    (n : nat) :
  forall (text : string) (extra : list QTextBlock) (current : QTextBlock),
    (String.length text <= n)%nat ->
    Forall (fun b => block_alignment b = a) extra ->
    block_alignment current = a ->
    exists extra' current',
      insert_chars text format (done ++ extra) current = (done ++ extra', current')
      /\ Forall (fun b => block_alignment b = a) extra'
      /\ block_alignment current' = a.
Proof.
  induction n as [|n IH]; intros text extra current Hlen Hextra Hcur.
  - destruct text; [|cbn in Hlen; lia]. now exists extra, current.
  - destruct text as [|c rest]; [now exists extra, current|].
    cbn [String.length] in Hlen.
    assert (Hsnoc : Forall (fun b => block_alignment b = a) (extra ++ [current]))
      by (apply Forall_app; split; [exact Hextra | now constructor]).
    cbn [insert_chars]. destruct (Ascii.eqb c CR).
    + destruct rest as [|c' rest'].
      * exists (extra ++ [current]), {| block_alignment := block_alignment current;
                                        block_charFormat := format; fragments := [] |}.
        now rewrite app_assoc.
      * rewrite <- app_assoc. cbn [String.length] in Hlen.
        destruct (Ascii.eqb c' LF); apply IH; cbn [String.length]; auto; lia.
    + destruct (Ascii.eqb c LF).
      * rewrite <- app_assoc. apply IH; auto; lia.
      * apply IH; auto; lia.
Qed.

Lemma insertText_fmt_resources (text : string) (format : QTextCharFormat)
    (doc : QTextDocument) :
  resources (insertText_fmt text format doc) = resources doc.
Proof.
  unfold insertText_fmt. destruct (split_last (blocks doc)) as [done current].
  now destruct (insert_chars text format done current).
Qed.

Lemma insertText_fmt_aligned (text : string) (format : QTextCharFormat)
    (done : list QTextBlock) (a : Z) (doc : QTextDocument) :
  aligned_tail done a doc -> aligned_tail done a (insertText_fmt text format doc).
Proof.
  intros (extra & current & Es & Hextra & Hcur). unfold insertText_fmt. rewrite Es.
  destruct (insert_chars_aligned a format done (String.length text) text extra current)
    as (extra' & current' & E & Hextra' & Hcur'); auto.
  rewrite E. exists extra', current'. cbn [blocks]. now rewrite split_last_snoc.
Qed.

(** A line feed at the cursor closes the block of the cursor and opens an
    empty one of the same alignment. *)
Lemma insertText_LF (doc : QTextDocument) :
  exists new_block,
    blocks (insertText (String LF "") doc) =
      (fst (split_last (blocks doc)) ++ [snd (split_last (blocks doc))]) ++ [new_block]
    /\ fragments new_block = []
    /\ block_alignment new_block = block_alignment (snd (split_last (blocks doc)))
    /\ resources (insertText (String LF "") doc) = resources doc.
Proof.
  unfold insertText, insertText_fmt.
  destruct (split_last (blocks doc)) as [done current].
  eexists. cbn. split; [reflexivity|]. now repeat split.
Qed.

Lemma load_docx_run_ok (run : DocxRunIn) :
  readable_run run ->
  exists text format, forall w,
    load_docx_run run w = (Ok tt, set_text_edit (insertText_fmt text format) w).
Proof.
  intros ((name & E1) & (size & E2) & (bold & E3) & (italic & E4) & (underline & E5)
          & (highlight & E6) & (text & E7)).
  unfold load_docx_run. rewrite E1, E2, E3, E4, E5, E6, E7.
  eexists _, _. intros w. reflexivity.
Qed.

Lemma load_docx_run_edits (run : DocxRunIn) :
  readable_run run ->
  exists f, edits (load_docx_run run) f
    /\ ((forall d, resources (f d) = resources d)
        /\ forall done a d, aligned_tail done a d -> aligned_tail done a (f d)).
Proof.
  intros Hrun. destruct (load_docx_run_ok run Hrun) as (text & format & E).
  exists (insertText_fmt text format). split.
  - intros w. rewrite E. eexists. split; [reflexivity|].
    unfold same_but_text. now repeat split.
  - split; [apply insertText_fmt_resources|]. intros done a d. apply insertText_fmt_aligned.
Qed.

Lemma setBlockFormat_resources (a : Z) (doc : QTextDocument) :
  resources (setBlockFormat a doc) = resources doc.
Proof. unfold setBlockFormat. now destruct (split_last (blocks doc)). Qed.

Lemma load_docx_paragraph_edits (paragraph : DocxParagraphIn) :
  readable_paragraph paragraph ->
  exists f, edits (load_docx_paragraph paragraph) f
    /\ (forall d, fragments (snd (split_last (blocks (f d)))) = [])
    /\ (forall d, resources (f d) = resources d)
    /\ (no_alignment paragraph ->
        forall done a d, aligned_tail done a d ->
          exists new_blocks,
            blocks (f d) = done ++ new_blocks
            /\ (2 <= length new_blocks)%nat
            /\ Forall (fun b => block_alignment b = a) new_blocks).
Proof.
  intros ((al & Eal) & Hruns).
  destruct (edits_for_each load_docx_run
              (fun f => (forall d, resources (f d) = resources d)
                        /\ forall done a d, aligned_tail done a d -> aligned_tail done a (f d))
              (in_runs paragraph)) as (fr & Hfr & Hres & Htail).
  { split; auto. }
  { intros f g [Rf Tf] [Rg Tg]. split; [intros d; now rewrite Rg, Rf|auto]. }
  { eapply Forall_impl; [exact Hruns|]. intros run. apply load_docx_run_edits. }
  assert (Hstep : exists fa,
    edits (match al with
           | Some a =>
               if a =? 0 then ret tt
               else modify (set_text_edit (setBlockFormat
                      (if a =? WD_CENTER then AlignCenter
                       else if a =? WD_RIGHT then AlignRight
                       else if a =? WD_JUSTIFY then AlignJustify
                       else AlignLeft)))
           | None => ret tt
           end) fa
    /\ (forall d, resources (fa d) = resources d)
    /\ (no_alignment paragraph -> forall d, fa d = d)).
  { destruct al as [a|].
    - destruct (a =? 0) eqn:Ea.
      + exists (fun d => d). split; [apply edits_ret|]. now split.
      + eexists. split; [apply edits_modify|]. split; [apply setBlockFormat_resources|].
        intros [E|E]; rewrite Eal in E; [discriminate|].
        injection E as ->. discriminate.
    - exists (fun d => d). split; [apply edits_ret|]. now split. }
  destruct Hstep as (fa & Hfa & Hresa & Hnone).
  exists (fun d => insertText (String LF "") (fr (fa d))). split; [|split; [|split]].
  - intros w. unfold load_docx_paragraph. rewrite Eal.
    erewrite bind_run by apply lift_run. cbn beta iota.
    apply (edits_bind _ _ fa (fun d => insertText (String LF "") (fr d)) Hfa).
    apply (edits_bind _ _ fr (insertText (String LF "")) Hfr). apply edits_modify.
  - intros d. destruct (insertText_LF (fr (fa d))) as (nb & Eb & Hfrag & _).
    now rewrite Eb, split_last_snoc.
  - intros d. destruct (insertText_LF (fr (fa d))) as (nb & _ & _ & _ & Er).
    now rewrite Er, Hres, Hresa.
  - intros Hno done a d Hd. rewrite (Hnone Hno).
    destruct (Htail done a d Hd) as (extra & current & Es & Hextra & Hcur).
    destruct (insertText_LF (fr d)) as (nb & Eb & _ & Hal & _).
    rewrite Es in Eb, Hal. cbn [fst snd] in Eb, Hal.
    exists (extra ++ [current; nb]). split; [|split].
    + rewrite Eb. now rewrite <- !app_assoc.
    + rewrite length_app. cbn. lia.
    + apply Forall_app. split; [exact Hextra|].
      constructor; [exact Hcur|]. constructor; [congruence|constructor].
Qed.

(** X11. A word-processor file whose paragraphs and runs can all be read
    (no accessor fails, the colour apart, whose failure the code ignores)
    is imported with no message box: the status bar reports the file,
    the document holds no image resource whatever the file contained, and
    it ends with an empty block that no paragraph of the file stands
    for, the line feed inserted after the last paragraph.  A file with no
    paragraph gives the single empty block of a cleared editor.  No file
    is written. *)
Theorem load_docx_readable (filename : string) (content : bytes)
    (doc : list DocxParagraphIn) (w : World) :
  DOCX_AVAILABLE = true ->
  fs w !! filename = Some content ->
  docx_open content = Ok doc ->
  Forall readable_paragraph doc ->
  let w' := load_docx filename w in
  dialogs (window w') = dialogs (window w)
  /\ status (window w') = status (window w) ++ [DocxOpened filename]
  /\ fragments (snd (split_last (blocks (text_edit (window w'))))) = []
  /\ resources (text_edit (window w')) = ∅
  /\ (doc = [] -> blocks (text_edit (window w')) = [empty_block])
  /\ current_file (window w') = current_file (window w)
  /\ fs w' = fs w.
Proof.
  intros Hav Hfile Hopen Hall w'.
  destruct (edits_for_each load_docx_paragraph
              (fun f => (forall d, fragments (snd (split_last (blocks d))) = [] ->
                                   fragments (snd (split_last (blocks (f d)))) = [])
                        /\ (forall d, resources (f d) = resources d)
                        /\ (doc = [] -> forall d, f d = d))
              doc) as (F & HF & Hend & Hres & Hnil).
  { now repeat split. }
  { intros f g (Ef & Rf & Nf) (Eg & Rg & Ng). split; [auto|].
    split; [intros d; now rewrite Rg, Rf|]. intros E d. now rewrite (Ng E), (Nf E). }
  { eapply Forall_forall. intros p Hp.
    destruct (load_docx_paragraph_edits p) as (f & Hf & Ef & Rf & _).
    { eapply Forall_forall; eauto. }
    exists f. split; [exact Hf|]. split; [auto|]. split; [exact Rf|].
    intros ->. now apply elem_of_nil in Hp. }
  subst w'. unfold load_docx. rewrite Hav. cbn [negb].
  unfold try_except, load_docx_body.
  erewrite bind_run by (apply read_file_run; exact Hfile). cbn beta iota.
  rewrite Hopen. erewrite bind_run by apply lift_run. cbn beta iota.
  erewrite bind_run by reflexivity. cbn beta iota.
  match goal with |- context [bind (for_each doc load_docx_paragraph) _ ?w0] =>
    destruct (HF w0) as (w1 & E1 & T1 & K1) end.
  erewrite bind_run by exact E1. cbn beta iota.
  destruct K1 as (Kc & Km & Kt & Ks & Kd & Kf & Ki & Kk).
  unfold showMessage, modify.
  cbn [window set_app fs dialogs status text_edit current_file].
  rewrite T1, Kd, Ks, Kc, Kf. cbn.
  split; [reflexivity|]. split; [reflexivity|].
  split; [now apply Hend|]. split; [now rewrite Hres|].
  split; [intros E; now rewrite (Hnil E)|]. now split.
Qed.

(** X12. A paragraph of the file whose alignment is absent or LEFT (the
    value 0, which the test [if paragraph.alignment] takes for absent)
    sets no block format: every block it adds, and the empty block that
    follows it, has the alignment of the block the cursor was in, that
    is, of the paragraph imported before it.  A left-aligned paragraph
    after a centred one is imported centred. *)
Theorem load_docx_paragraph_inherits_alignment (paragraph : DocxParagraphIn) (w : World) :
  readable_paragraph paragraph ->
  no_alignment paragraph ->
  let doc := text_edit (window w) in
  let doc' := text_edit (window (snd (load_docx_paragraph paragraph w))) in
  exists new_blocks,
    blocks doc' = fst (split_last (blocks doc)) ++ new_blocks
    /\ (2 <= length new_blocks)%nat
    /\ Forall (fun b => block_alignment b = block_alignment (snd (split_last (blocks doc))))
         new_blocks.
Proof.
  intros Hread Hno doc doc'.
  destruct (load_docx_paragraph_edits paragraph Hread) as (f & Hf & _ & _ & Hal).
  destruct (Hf w) as (w1 & E1 & T1 & _). subst doc'. rewrite E1. cbn [snd]. rewrite T1.
  apply (Hal Hno). exists [], (snd (split_last (blocks doc))).
  split; [rewrite app_nil_r; apply surjective_pairing|]. now split.
Qed.
End DocxImportFacts.

(** ** The office-suite export, as a whole *)

Section OdtExportFacts.
Context `{Qt} `{Runtime}.

Lemma inline_resolved_incl (pictures pictures' : list nat) (styles styles' : list style_name)
    (inline : odf_inline) :
  incl pictures pictures' -> incl styles styles' ->
  inline_resolved pictures styles inline -> inline_resolved pictures' styles' inline.
Proof. intros Hp Hs. destruct inline; cbn; auto. Qed.

Lemma odt_consistent_grow (st st' : odt_state) (added : list odf_inline) :
  let pictures' := map fst (odt_pictures (odt_doc st')) in
  let styles' := map st_name (odt_automaticstyles (odt_doc st')) in
  odt_consistent st ->
  incl (map fst (odt_pictures (odt_doc st))) pictures' ->
  incl (map st_name (odt_automaticstyles (odt_doc st))) styles' ->
  image_counter st' = length pictures' ->
  pictures' = seq 1 (length pictures') ->
  odt_p st' = odt_p st ++ added ->
  Forall (inline_resolved pictures' styles') added ->
  odt_text (odt_doc st') = odt_text (odt_doc st) ->
  odt_consistent st'.
Proof.
  intros pictures' styles' (Hc & Hseq & Hp & Ht) Ip Is Hc' Hseq' Ep Hadded Et.
  unfold odt_consistent. fold pictures' styles'. rewrite Ep, Et.
  split; [exact Hc'|]. split; [exact Hseq'|]. split.
  - apply Forall_app. split; [|exact Hadded].
    eapply Forall_impl; [exact Hp|]. intros i. now apply inline_resolved_incl.
  - eapply Forall_impl; [exact Ht|]. intros p Hpar.
    eapply Forall_impl; [exact Hpar|]. intros i. now apply inline_resolved_incl.
Qed.

Lemma odt_fragment_consistent (doc : QTextDocument) (st : odt_state)
    (fragment : QTextFragment) :
  odt_consistent st -> odt_consistent (odt_fragment doc st fragment).
Proof.
  intros Hst. pose proof Hst as (Hc & Hseq & _).
  assert (Hsame : forall seen, odt_consistent
            {| image_counter := image_counter st; fragments_seen := seen;
               odt_doc := odt_doc st; odt_p := odt_p st |}).
  { intros seen. apply (odt_consistent_grow st _ []); cbn; auto using incl_refl.
    now rewrite app_nil_r. }
  assert (Hstyle : forall seen style inline,
            inline_resolved (map fst (odt_pictures (odt_doc st)))
              (map st_name (odt_automaticstyles (odt_doc st)) ++ [st_name style]) inline ->
            odt_consistent
              {| image_counter := image_counter st; fragments_seen := seen;
                 odt_doc := add_style style (odt_doc st);
                 odt_p := odt_p st ++ [inline] |}).
  { intros seen style inline Hin.
    apply (odt_consistent_grow st _ [inline]); cbn [odt_doc odt_p image_counter add_style
      odt_pictures odt_automaticstyles odt_text]; auto using incl_refl.
    - rewrite map_app. now apply incl_appl, incl_refl.
    - constructor; [|constructor]. now rewrite map_app. }
  unfold odt_fragment.
  destruct (imageFormat (charFormat fragment)) as [image_format|].
  - destruct (resource doc (img_name image_format)) as [image|]; [|apply Hsame].
    destruct (isNull image); cbn [negb]; [apply Hsame|].
    eapply (odt_consistent_grow st _ [_]);
      cbn [odt_doc odt_p image_counter odt_pictures odt_automaticstyles odt_text];
      try reflexivity; auto using incl_refl.
    + rewrite map_app. now apply incl_appl, incl_refl.
    + rewrite map_app, length_app, Hc. cbn. lia.
    + rewrite map_app, length_app. cbn [map fst length].
      rewrite Nat.add_1_r, seq_S, <- Hseq, Hc. reflexivity.
    + constructor; [|constructor]. cbn. rewrite map_app, in_app_iff. right. now left.
  - destruct (is_link_format (charFormat fragment));
      [destruct (negb (String.eqb (anchorHref (charFormat fragment)) ""))|];
      apply Hstyle; cbn; rewrite in_app_iff; right; now left.
Qed.

Lemma odt_fragments_consistent (doc : QTextDocument) (frs : list QTextFragment)
    (st : odt_state) :
  odt_consistent st ->
  let st' := fold_left (odt_fragment doc) frs st in
  odt_consistent st' /\ odt_text (odt_doc st') = odt_text (odt_doc st).
Proof.
  revert st. induction frs as [|fr frs IH]; intros st Hst; [now split|].
  cbn [fold_left]. destruct (IH (odt_fragment doc st fr)) as [Hc Et];
    [now apply odt_fragment_consistent|].
  split; [exact Hc|]. cbn zeta in Et. rewrite Et. unfold odt_fragment.
  repeat case_match; reflexivity.
Qed.

Lemma odt_block_consistent (doc : QTextDocument) (st : odt_state) (block : QTextBlock) :
  odt_consistent st ->
  let st' := odt_block doc st block in
  odt_consistent st'
  /\ length (odt_text (odt_doc st')) = S (length (odt_text (odt_doc st))).
Proof.
  intros (Hc & Hseq & _ & Ht). unfold odt_block.
  destruct (odt_fragments_consistent doc (fragments block)
              {| image_counter := image_counter st; fragments_seen := fragments_seen st;
                 odt_doc := odt_doc st; odt_p := [] |}) as [(Hc' & Hseq' & Hp' & Ht') Et].
  { unfold odt_consistent. cbn [odt_doc odt_p image_counter]. now repeat split. }
  cbn zeta in Et. cbn [odt_doc] in Et. cbn zeta. split.
  - unfold odt_consistent.
    cbn [odt_doc odt_p image_counter odt_pictures odt_automaticstyles odt_text].
    split; [exact Hc'|]. split; [exact Hseq'|]. split; [constructor|].
    apply Forall_app. split; [exact Ht'|]. constructor; [exact Hp'|constructor].
  - cbn [odt_doc odt_text]. rewrite length_app, Et. cbn. lia.
Qed.

Lemma odt_blocks_consistent (doc : QTextDocument) (bs : list QTextBlock) (st : odt_state) :
  odt_consistent st ->
  let st' := fold_left (odt_block doc) bs st in
  odt_consistent st'
  /\ length (odt_text (odt_doc st')) = (length (odt_text (odt_doc st)) + length bs)%nat.
Proof.
  revert st. induction bs as [|b bs IH]; intros st Hst.
  - cbn. split; [exact Hst|lia].
  - destruct (odt_block_consistent doc st b Hst) as [Hb Lb].
    destruct (IH _ Hb) as [Hc Lc]. cbn [fold_left]. split; [exact Hc|].
    cbn zeta in Lc, Lb. rewrite Lc, Lb. cbn [length]. lia.
Qed.

(** X13. The document [save_as_odt] hands to the library has one paragraph
    per block of the editor; its pictures are numbered 1, 2, ... in the
    order of the images of the text, with no gap for an image that has no
    usable resource; every frame names a picture that was added and every
    span or link names a style that was added. *)
Theorem build_odt_consistent (doc : QTextDocument) :
  let odt := build_odt doc in
  let pictures := map fst (odt_pictures odt) in
  length (odt_text odt) = length (blocks doc)
  /\ pictures = seq 1 (length pictures)
  /\ Forall (Forall (inline_resolved pictures (map st_name (odt_automaticstyles odt))))
       (odt_text odt).
Proof.
  intros odt pictures. subst pictures odt. unfold build_odt.
  destruct (odt_blocks_consistent doc (blocks doc)
              {| image_counter := 0; fragments_seen := 0;
                 odt_doc := {| odt_pictures := []; odt_automaticstyles := [];
                               odt_text := [] |};
                 odt_p := [] |}) as [(_ & Hseq & _ & Ht) Hlen].
  { unfold odt_consistent. cbn. now repeat split. }
  cbn zeta in Hlen. cbn [odt_doc odt_text length] in Hlen.
  split; [exact Hlen|]. split; [exact Hseq|exact Ht].
Qed.
End OdtExportFacts.

(** ** Reading an office-suite file *)

Section OdtImportFacts.
Context `{Qt} `{Modules} `{Odf} `{Runtime}.






End OdtImportFacts.

(** ** The timer dialog *)

Section TimerFacts.

Ltac zify_tests :=
  repeat match goal with
  | H : (_ <? _) = true |- _ => apply Z.ltb_lt in H
  | H : (_ <? _) = false |- _ => apply Z.ltb_ge in H
  | H : (_ <=? _) = true |- _ => apply Z.leb_le in H
  | H : (_ <=? _) = false |- _ => apply Z.leb_gt in H
  | H : (_ =? _) = true |- _ => apply Z.eqb_eq in H
  | H : (_ =? _) = false |- _ => apply Z.eqb_neq in H
  end.

Ltac split_tests :=
  repeat match goal with
  | |- context [if ?c then _ else _] => destruct c eqn:?
  end.

Ltac unfold_slots :=
  unfold update_timer, start_timer, pause_timer, reset_timer, start_stopwatch,
    pause_stopwatch, reset_stopwatch, set_preset, update_progress_bar.

Lemma timeouts_S (n : nat) (d : TimerDialog) :
  timeouts (S n) d = handle (timeouts n d) Timeout.
Proof. reflexivity. Qed.

(** One signal while the countdown runs and is not at zero. *)
Lemma countdown_step (d : TimerDialog) :
  timer d = true -> tabs d = 0 -> 0 < remaining_seconds d ->
  let d' := handle d Timeout in
  remaining_seconds d' = remaining_seconds d - 1
  /\ timer_display d' = hms (remaining_seconds d - 1)
  /\ timer d' = true
  /\ is_running d' = is_running d
  /\ tabs d' = 0
  /\ total_seconds d' = total_seconds d
  /\ message_boxes d' = message_boxes d.
Proof.
  intros Ht Htab Hpos. cbn [handle]. rewrite Ht. unfold update_timer. rewrite Htab.
  cbn [Z.eqb]. destruct (Z.ltb_spec 0 (remaining_seconds d)) as [_|]; [|lia].
  unfold update_progress_bar. cbn. split_tests; cbn; now repeat split.
Qed.

Lemma countdown_run (d : TimerDialog) (k : nat) :
  timer d = true -> tabs d = 0 -> Z.of_nat k <= remaining_seconds d ->
  let d' := timeouts k d in
  remaining_seconds d' = remaining_seconds d - Z.of_nat k
  /\ ((0 < k)%nat -> timer_display d' = hms (remaining_seconds d - Z.of_nat k))
  /\ timer d' = true
  /\ is_running d' = is_running d
  /\ tabs d' = 0
  /\ total_seconds d' = total_seconds d
  /\ message_boxes d' = message_boxes d.
Proof.
  intros Ht Htab. induction k as [|k IH]; intros Hk.
  - cbn. repeat split; auto; [lia|intros; lia].
  - destruct IH as (Hr & _ & Ht' & Hrun & Htab' & Htot & Hbox); [lia|].
    rewrite timeouts_S.
    destruct (countdown_step (timeouts k d)) as (Hr2 & Hd2 & Ht2 & Hrun2 & Htab2 & Htot2 & Hbox2);
      [exact Ht'|exact Htab'|lia|].
    cbn zeta in *. rewrite Hr2, Hd2, Hrun2, Htot2, Hbox2, Hr.
    replace (remaining_seconds d - Z.of_nat k - 1)
      with (remaining_seconds d - Z.of_nat (S k)) by lia.
    repeat split; auto.
Qed.

(** X15. A countdown started on the first tab from a duration of [T > 0]
    seconds shows [T - k] after [k <= T] signals of the timer and is
    still running when it shows zero; the signal after that, number
    [T + 1], raises the "Temps écoulé" box, once, stops the timer and
    puts the dialog back: counter and display at zero, spin boxes and
    start button enabled.  The alarm comes one second after the display
    reached [00:00:00]. *)
Theorem countdown_alarm_after_zero (d : TimerDialog) (k : nat) :
  let T := spins_seconds d in
  is_running d = false ->
  tabs d = 0 ->
  0 < T ->
  Z.of_nat k <= T ->
  let running := timeouts k (start_timer d) in
  let ended := timeouts (S (Z.to_nat T)) (start_timer d) in
  (remaining_seconds running = T - Z.of_nat k
   /\ ((0 < k)%nat -> timer_display running = hms (T - Z.of_nat k))
   /\ is_running running = true
   /\ timer running = true
   /\ message_boxes running = message_boxes d)
  /\ (message_boxes ended =
        message_boxes d ++ [TimerInformation "Temps écoulé !" "Le minuteur est terminé !"]
      /\ is_running ended = false
      /\ timer ended = false
      /\ remaining_seconds ended = 0
      /\ timer_display ended = "00:00:00"
      /\ spin_enabled (hours_spin ended) = true
      /\ spin_enabled (minutes_spin ended) = true
      /\ spin_enabled (seconds_spin ended) = true
      /\ btn_enabled (start_btn ended) = true
      /\ btn_enabled (pause_btn ended) = false).
Proof.
  intros T Hrun Htab Hpos Hk running ended.
  assert (Hstart : timer (start_timer d) = true /\ tabs (start_timer d) = 0
                   /\ remaining_seconds (start_timer d) = T
                   /\ is_running (start_timer d) = true
                   /\ message_boxes (start_timer d) = message_boxes d).
  { unfold start_timer. rewrite Hrun. cbn [negb]. cbn zeta.
    cbn [total_seconds set_total_seconds]. fold (spins_seconds d). fold T.
    destruct (Z.eqb_spec T 0) as [E|_]; [lia|]. cbn. now repeat split. }
  destruct Hstart as (Ht0 & Htab0 & Hr0 & Hrun0 & Hbox0).
  split.
  - destruct (countdown_run (start_timer d) k Ht0 Htab0) as (Hr & Hd & Ht & Hi & _ & _ & Hb);
      [lia|].
    cbn zeta in *. subst running. rewrite Hr, Ht, Hi, Hb, Hr0, Hrun0, Hbox0.
    repeat split; auto. intros Hk0. rewrite (Hd Hk0). now rewrite Hr0.
  - destruct (countdown_run (start_timer d) (Z.to_nat T) Ht0 Htab0)
      as (Hr & _ & Ht & _ & Htab' & _ & Hb); [lia|].
    cbn zeta in *. subst ended. rewrite timeouts_S.
    set (zero := timeouts (Z.to_nat T) (start_timer d)) in *.
    assert (Hz : remaining_seconds zero = 0) by lia.
    cbn [handle]. rewrite Ht. unfold update_timer. rewrite Htab'. cbn [Z.eqb].
    rewrite Hz. cbn [Z.ltb Z.compare]. cbn zeta.
    unfold reset_timer, update_progress_bar. cbn. split_tests; cbn;
      rewrite Hb, Hbox0; now repeat split.
Qed.

(** One signal while the stopwatch tab is shown. *)
Lemma stopwatch_step (d : TimerDialog) :
  timer d = true -> tabs d <> 0 ->
  let d' := handle d Timeout in
  remaining_seconds d' = remaining_seconds d + 1
  /\ stopwatch_display d' = hms (remaining_seconds d + 1)
  /\ timer_display d' = timer_display d
  /\ timer d' = true
  /\ tabs d' = tabs d
  /\ message_boxes d' = message_boxes d.
Proof.
  intros Ht Htab. cbn [handle]. rewrite Ht. unfold update_timer.
  destruct (Z.eqb_spec (tabs d) 0) as [E|_]; [contradiction|]. cbn. now repeat split.
Qed.

(** X16. The countdown and the stopwatch share the timer and the counter
    [remaining_seconds].  While the stopwatch tab is shown, every signal
    of a running timer adds a second to the counter, whoever started it:
    a countdown left running gains [k] seconds in [k] signals instead of
    losing them, its display stands still and it cannot raise its
    alarm. *)
Theorem stopwatch_tab_counts_up (d : TimerDialog) (k : nat) :
  timer d = true ->
  tabs d <> 0 ->
  let d' := timeouts k d in
  remaining_seconds d' = remaining_seconds d + Z.of_nat k
  /\ ((0 < k)%nat -> stopwatch_display d' = hms (remaining_seconds d + Z.of_nat k))
  /\ timer_display d' = timer_display d
  /\ timer d' = true
  /\ message_boxes d' = message_boxes d.
Proof.
  intros Ht Htab.
  assert (Hall : remaining_seconds (timeouts k d) = remaining_seconds d + Z.of_nat k
                 /\ ((0 < k)%nat -> stopwatch_display (timeouts k d)
                                      = hms (remaining_seconds d + Z.of_nat k))
                 /\ timer_display (timeouts k d) = timer_display d
                 /\ timer (timeouts k d) = true
                 /\ tabs (timeouts k d) = tabs d
                 /\ message_boxes (timeouts k d) = message_boxes d).
  { induction k as [|k (Hr & _ & Hd & Ht' & Htab' & Hb)].
    - cbn. repeat split; auto; [lia|intros; lia].
    - rewrite timeouts_S.
      destruct (stopwatch_step (timeouts k d)) as (Hr2 & Hs2 & Hd2 & Ht2 & Htab2 & Hb2);
        [exact Ht'|congruence|].
      cbn zeta in *. rewrite Hr2, Hs2, Hd2, Ht2, Htab2, Hb2, Hr.
      replace (remaining_seconds d + Z.of_nat k + 1)
        with (remaining_seconds d + Z.of_nat (S k)) by lia.
      repeat split; auto. }
  cbn zeta. destruct Hall as (Hr & Hs & Hd & Ht' & _ & Hb). now repeat split.
Qed.

Lemma spin_setValue_range (lo hi v : Z) (w : QSpinBox) :
  lo <= hi -> lo <= spin_value (spin_setValue lo hi v w) <= hi.
Proof. intros Hle. cbn. lia. Qed.

Lemma handle_invariant (d : TimerDialog) (e : timer_event) :
  timer_invariant d -> timer_invariant (handle d e).
Proof.
  intros (Hrun & Hrem & Htot & Hh & Hm & Hs). unfold timer_invariant.
  destruct e as [|button|index|v|v|v]; [|destruct button|..]; cbn [handle];
    unfold_slots; cbn; split_tests; cbn; zify_tests;
    repeat split; first [assumption | lia | congruence | reflexivity].
Qed.

(** X17. Whatever the user does with the dialog from the moment it is
    built, the flag [is_running] agrees with the timer being active, the
    counter and the duration are never negative (no display shows a
    negative time) and the spin boxes stay within 0..23, 0..59 and
    0..59. *)
Theorem timer_invariant_always (events : list timer_event) :
  timer_invariant (fold_left handle events TimerDialog_new).
Proof.
  assert (Hgen : forall d, timer_invariant d -> timer_invariant (fold_left handle events d)).
  { induction events as [|e events IH]; intros d Hd; [exact Hd|].
    cbn [fold_left]. apply IH. now apply handle_invariant. }
  apply Hgen. unfold timer_invariant. cbn. repeat split; lia.
Qed.

Lemma handle_keeps_last_minute (d : TimerDialog) (e : timer_event) :
  timer_display_styleSheet d = LastMinuteDisplay ->
  timer_display_styleSheet (handle d e) = LastMinuteDisplay.
Proof.
  intros Hstyle.
  destruct e as [|button|index|v|v|v]; [|destruct button|..]; cbn [handle];
    unfold_slots; cbn; split_tests; cbn; first [assumption | reflexivity].
Qed.

(** X18. Nothing gives the countdown display its first style sheet back:
    once a countdown has entered its last minute and the display has
    turned red, it stays red through every reset, restart and change of
    duration, so a later countdown of an hour is red from its first
    second. *)
Theorem last_minute_style_is_kept (events : list timer_event) (d : TimerDialog) :
  timer_display_styleSheet d = LastMinuteDisplay ->
  timer_display_styleSheet (fold_left handle events d) = LastMinuteDisplay.
Proof.
  revert d. induction events as [|e events IH]; intros d Hd; [exact Hd|].
  cbn [fold_left]. apply IH. now apply handle_keeps_last_minute.
Qed.

(** X19. "Démarrer" on a paused countdown does not resume it: the
    countdown starts again from the duration the spin boxes show, and the
    pause button keeps the label "Reprendre" although the countdown
    runs. *)
Theorem start_while_paused_restarts (d : TimerDialog) :
  is_running d = true ->
  btn_enabled (pause_btn d) = true ->
  0 < spins_seconds d ->
  let d' := handle (handle d (Clicked PauseButton)) (Clicked StartButton) in
  remaining_seconds d' = spins_seconds d
  /\ is_running d' = true
  /\ timer d' = true
  /\ btn_text (pause_btn d') = RESUME_TEXT.
Proof.
  intros Hrun Hpause Hpos. cbn [handle]. rewrite Hpause.
  unfold pause_timer. rewrite Hrun. cbn zeta.
  cbn [start_btn set_start_btn setEnabled btn_enabled].
  unfold start_timer. cbn [is_running set_start_btn set_pause_btn set_is_running negb].
  cbn zeta. cbn [total_seconds set_total_seconds].
  match goal with |- context [?t =? 0] =>
    change t with (spins_seconds d); destruct (Z.eqb_spec (spins_seconds d) 0) as [E|_] end;
    [lia|].
  cbn. now repeat split.
Qed.
End TimerFacts.

(** ** The exam password *)

Section SettingsFacts.
Context `{Runtime} `{SettingsLib}.

Lemma hex_digit_char (n : Z) :
  exists c, hex_digit n = String c "" /\ (nat_of_ascii c <? 128)%nat = true.
Proof.
  unfold hex_digit. destruct n as [|p|p]; [| |eexists; split; reflexivity].
  - eexists; split; reflexivity.
  - do 4 (try destruct p as [p|p|]); eexists; (split; reflexivity).
Qed.

Lemma is_ascii_append (a b : string) :
  is_ascii (String.append a b) = is_ascii a && is_ascii b.
Proof.
  unfold is_ascii. induction a as [|c a IH]; [reflexivity|].
  rewrite append_cons. cbn [list_ascii_of_string forallb]. now rewrite IH, andb_assoc.
Qed.

Lemma is_ascii_hex2 (n : Z) : is_ascii (hex2 n) = true.
Proof.
  unfold hex2. rewrite is_ascii_append.
  destruct (hex_digit_char (n / 16)) as (c & -> & Hc).
  destruct (hex_digit_char (n mod 16)) as (c' & -> & Hc').
  unfold is_ascii. cbn [list_ascii_of_string forallb]. now rewrite Hc, Hc'.
Qed.

Lemma is_ascii_hexlify (data : bytes) : is_ascii (hexlify data) = true.
Proof.
  induction data as [|b data IH]; [reflexivity|].
  cbn [hexlify fold_right]. fold (hexlify data).
  now rewrite is_ascii_append, is_ascii_hex2, IH.
Qed.

Lemma hexlify_truth (data : bytes) :
  length data = 32%nat -> json_truth (JStr (hexlify data)) = true.
Proof.
  intros Hlen. destruct data as [|b data]; [discriminate|].
  cbn [hexlify fold_right json_truth]. unfold hex2.
  destruct (hex_digit_char (Z_of_byte b / 16)) as (c & -> & _).
  rewrite !append_cons. reflexivity.
Qed.

Lemma dict_lookup_set_eq {V} (k : string) (v : V) (d : list (string * V)) :
  dict_lookup k (dict_set k v d) = Some v.
Proof.
  induction d as [|[k' v'] d IH]; cbn [dict_set dict_lookup].
  - now rewrite String.eqb_refl.
  - destruct (String.eqb k k') eqn:E; cbn [dict_lookup]; rewrite ?String.eqb_refl, ?E; auto.
Qed.

Lemma dict_lookup_set_ne {V} (k k' : string) (v : V) (d : list (string * V)) :
  k <> k' -> dict_lookup k (dict_set k' v d) = dict_lookup k d.
Proof.
  intros Hne. induction d as [|[k2 v2] d IH]; cbn [dict_set dict_lookup].
  - destruct (String.eqb_spec k k'); [contradiction|reflexivity].
  - destruct (String.eqb_spec k' k2) as [->|Hk]; cbn [dict_lookup].
    + destruct (String.eqb_spec k k2); [contradiction|reflexivity].
    + destruct (String.eqb k k2); [reflexivity|exact IH].
Qed.

Lemma dict_lookup_del_ne {V} (k k' : string) (d : list (string * V)) :
  k <> k' -> dict_lookup k (dict_del k' d) = dict_lookup k d.
Proof.
  intros Hne. induction d as [|[k2 v2] d IH]; [reflexivity|].
  cbn [dict_del dict_lookup]. destruct (String.eqb_spec k' k2) as [->|Hk].
  - destruct (String.eqb_spec k k2); [contradiction|reflexivity].
  - cbn [dict_lookup]. destruct (String.eqb k k2); [reflexivity|exact IH].
Qed.

Lemma dict_lookup_absent {V} (k : string) (d : list (string * V)) :
  ~ In k (dict_keys d) -> dict_lookup k d = None.
Proof.
  induction d as [|[k' v'] d IH]; [reflexivity|]. cbn [dict_keys map fst In dict_lookup].
  intros Hnot. destruct (String.eqb_spec k k') as [->|_]; [tauto|]. apply IH. tauto.
Qed.

Lemma dict_lookup_del_eq {V} (k : string) (d : list (string * V)) :
  List.NoDup (dict_keys d) -> dict_lookup k (dict_del k d) = None.
Proof.
  induction d as [|[k' v'] d IH]; [reflexivity|].
  cbn [dict_keys map fst dict_del]. intros Hnd.
  inversion Hnd as [|? ? Hnot Hnd']; subst.
  destruct (String.eqb_spec k k') as [->|Hne].
  - now apply dict_lookup_absent.
  - cbn [dict_lookup]. destruct (String.eqb_spec k k'); [contradiction|]. now apply IH.
Qed.

Lemma hash_fresh_run (password : string) (st : SettingsState) (data : bytes) :
  encode_utf8 (String.append password (hexlify (token_bytes (draws st)))) = Ok data ->
  _hash_password password JNull st =
    (Ok (hexlify (sha256 data), hexlify (token_bytes (draws st))),
     {| settings := settings st; disk := disk st; draws := S (draws st);
        printed := printed st |}).
Proof. intros E. unfold _hash_password, bind, token_hex, ret, lift. now rewrite E. Qed.

Lemma hash_given_run (password salt : string) (st : SettingsState) (data : bytes) :
  encode_utf8 (String.append password salt) = Ok data ->
  _hash_password password (JStr salt) st = (Ok (hexlify (sha256 data), salt), st).
Proof. intros E. unfold _hash_password, bind, ret, lift. now rewrite E. Qed.

Lemma save_settings_run (st : SettingsState) :
  exists saved st',
    save_settings st = (Ok saved, st')
    /\ settings st' = settings st
    /\ draws st' = draws st
    /\ disk st' = <[settings_file := fst (json_dump (settings st))]> (disk st)
    /\ saved = match snd (json_dump (settings st)) with None => true | Some _ => false end.
Proof.
  unfold save_settings, bind, get, modify, print, ret.
  destruct (json_dump (settings st)) as [written [e|]]; cbn; eexists _, _; now repeat split.
Qed.

(** Storing a hash and a salt, then saving: the tail of
    [set_exam_password], of the default branch of [verify_exam_password]
    and of the migration. *)
Lemma store_run {A} (password_hash salt : string) (k : M SettingsState A) (st : SettingsState) :
  exists st',
    (set_setting "exam_password_hash" (JStr password_hash) ;;;
     set_setting "exam_password_salt" (JStr salt) ;;;
     save_settings ;;; k) st = k st'
    /\ settings st' =
         dict_set "exam_password_salt" (JStr salt)
           (dict_set "exam_password_hash" (JStr password_hash) (settings st))
    /\ draws st' = draws st
    /\ disk st' = <[settings_file := fst (json_dump (settings st'))]> (disk st).
Proof.
  erewrite bind_run by reflexivity. cbn beta iota.
  erewrite bind_run by reflexivity. cbn beta iota.
  match goal with |- context [bind save_settings _ ?s] =>
    destruct (save_settings_run s) as (saved & st' & E & Hs & Hd & Hf & _) end.
  exists st'. erewrite bind_run by exact E. cbn beta iota.
  cbn [settings draws disk] in Hs, Hd, Hf.
  split; [reflexivity|]. split; [exact Hs|]. split; [exact Hd|]. now rewrite Hs.
Qed.

Lemma stored_lookup (password_hash salt : string) (d : list (string * json)) :
  let d' := dict_set "exam_password_salt" (JStr salt)
              (dict_set "exam_password_hash" (JStr password_hash) d) in
  dict_get "exam_password_hash" d' = JStr password_hash
  /\ dict_get "exam_password_salt" d' = JStr salt.
Proof.
  cbn zeta. unfold dict_get. rewrite dict_lookup_set_eq.
  rewrite dict_lookup_set_ne by discriminate. now rewrite dict_lookup_set_eq.
Qed.

(** What [verify_exam_password] does when a hash and a salt are stored. *)
Lemma verify_stored (st : SettingsState) (stored salt attempt : string) (tried : bytes) :
  dict_get "exam_password_hash" (settings st) = JStr stored ->
  dict_get "exam_password_salt" (settings st) = JStr salt ->
  json_truth (JStr stored) = true ->
  json_truth (JStr salt) = true ->
  is_ascii stored = true ->
  encode_utf8 (String.append attempt salt) = Ok tried ->
  verify_exam_password attempt st = (Ok (String.eqb (hexlify (sha256 tried)) stored), st).
Proof.
  intros Hh Hs Th Ts Ha E. unfold verify_exam_password.
  erewrite bind_run by reflexivity. cbn beta iota zeta. rewrite Hh, Hs, Th, Ts.
  cbn [negb orb]. erewrite bind_run by reflexivity. cbn beta iota.
  erewrite bind_run by (apply hash_given_run; exact E). cbn beta iota.
  unfold lift, compare_digest. now rewrite is_ascii_hexlify, Ha.
Qed.

(** X20. After [set_exam_password] the password just set is accepted,
    and another attempt is accepted exactly when its salted SHA-256
    digest, in hexadecimal, is that of the password; checking changes
    nothing.  This holds whether or not the settings file could be
    written: the result of [save_settings] is not looked at. *)
Theorem set_then_verify_exam_password (st : SettingsState) (new_password attempt : string)
    (hashed tried : bytes) :
  let salt := hexlify (token_bytes (draws st)) in
  encode_utf8 (String.append new_password salt) = Ok hashed ->
  encode_utf8 (String.append attempt salt) = Ok tried ->
  let st1 := snd (set_exam_password new_password st) in
  fst (set_exam_password new_password st) = Ok tt
  /\ verify_exam_password new_password st1 = (Ok true, st1)
  /\ verify_exam_password attempt st1 =
       (Ok (String.eqb (hexlify (sha256 tried)) (hexlify (sha256 hashed))), st1).
Proof.
  intros salt Hnew Htry. unfold set_exam_password.
  erewrite bind_run by (apply hash_fresh_run; exact Hnew). cbn beta iota.
  match goal with |- context [bind (set_setting _ (JStr ?h)) _ ?s] =>
    destruct (store_run h salt (ret tt) s) as (st' & E & Hs & _) end.
  fold salt. rewrite E. cbn [ret fst snd settings] in *.
  destruct (stored_lookup (hexlify (sha256 hashed)) salt (settings st)) as [Lh Ls].
  cbn zeta in Lh, Ls. rewrite <- Hs in Lh, Ls.
  assert (Th : json_truth (JStr (hexlify (sha256 hashed))) = true)
    by apply hexlify_truth, sha256_digest_size.
  assert (Ts : json_truth (JStr salt) = true) by apply hexlify_truth, token_bytes_length.
  split; [reflexivity|]. split.
  - rewrite (verify_stored st' _ salt new_password hashed Lh Ls Th Ts
               (is_ascii_hexlify _) Hnew).
    now rewrite String.eqb_refl.
  - apply (verify_stored st' _ salt attempt tried Lh Ls Th Ts (is_ascii_hexlify _) Htry).
Qed.

(** X21. When the settings hold no usable hash or no usable salt (the
    entry is absent, null, empty, zero or false), the built-in password
    is accepted: [verify_exam_password] first stores a hash of it under a
    fresh salt and writes the settings file.  Blanking either entry of
    the file brings the built-in password back. *)
Theorem blank_hash_accepts_default_password (st : SettingsState) (hashed : bytes) :
  json_truth (dict_get "exam_password_hash" (settings st)) = false
  \/ json_truth (dict_get "exam_password_salt" (settings st)) = false ->
  encode_utf8 (String.append DEFAULT_PASSWORD (hexlify (token_bytes (draws st)))) = Ok hashed ->
  let st' := snd (verify_exam_password DEFAULT_PASSWORD st) in
  fst (verify_exam_password DEFAULT_PASSWORD st) = Ok true
  /\ dict_get "exam_password_hash" (settings st') = JStr (hexlify (sha256 hashed))
  /\ dict_get "exam_password_salt" (settings st') = JStr (hexlify (token_bytes (draws st)))
  /\ disk st' = <[settings_file := fst (json_dump (settings st'))]> (disk st).
Proof.
  intros Hblank Henc. unfold verify_exam_password.
  erewrite bind_run by reflexivity. cbn beta iota zeta.
  assert (Hcond : negb (json_truth (dict_get "exam_password_hash" (settings st)))
                  || negb (json_truth (dict_get "exam_password_salt" (settings st))) = true).
  { destruct Hblank as [-> | ->]; [reflexivity|apply orb_true_r]. }
  rewrite Hcond. set (salt := hexlify (token_bytes (draws st))) in *.
  match goal with
  | |- context [bind (bind (_hash_password DEFAULT_PASSWORD JNull) ?k1) _ st] =>
      assert (Hinner : exists st',
                bind (_hash_password DEFAULT_PASSWORD JNull) k1 st =
                  (Ok (JStr (hexlify (sha256 hashed)), JStr salt), st')
                /\ settings st' =
                     dict_set "exam_password_salt" (JStr salt)
                       (dict_set "exam_password_hash" (JStr (hexlify (sha256 hashed)))
                          (settings st))
                /\ disk st' = <[settings_file := fst (json_dump (settings st'))]> (disk st))
  end.
  { erewrite bind_run by (apply hash_fresh_run; exact Henc). cbn beta iota.
    match goal with |- context [bind (set_setting _ (JStr ?h)) _ ?s] =>
      destruct (store_run h salt (ret (JStr h, JStr salt)) s) as (st' & E & Hs & _ & Hf) end.
    exists st'. fold salt. rewrite E. now repeat split. }
  destruct Hinner as (st' & E & Hs & Hf).
  erewrite bind_run by exact E. cbn beta iota.
  erewrite bind_run by (apply hash_given_run; exact Henc). cbn beta iota.
  unfold lift, compare_digest. rewrite is_ascii_hexlify, String.eqb_refl. cbn [andb fst snd].
  destruct (stored_lookup (hexlify (sha256 hashed)) salt (settings st)) as [Lh Ls].
  cbn zeta in Lh, Ls. rewrite <- Hs in Lh, Ls. now repeat split.
Qed.

(** X22. A salt in the settings that is not a string (a number, a list,
    [true]) next to a usable hash makes every check of a password raise
    [TypeError], at [password + salt]: no password is accepted or
    refused, and nothing is repaired. *)
Theorem verify_raises_on_salt_not_text (st : SettingsState) (attempt : string) :
  json_truth (dict_get "exam_password_hash" (settings st)) = true ->
  json_truth (dict_get "exam_password_salt" (settings st)) = true ->
  (forall s, dict_get "exam_password_salt" (settings st) <> JStr s) ->
  verify_exam_password attempt st = (Raise TypeError, st).
Proof.
  intros Th Ts Hnot. unfold verify_exam_password.
  erewrite bind_run by reflexivity. cbn beta iota zeta. rewrite Th, Ts. cbn [negb orb].
  erewrite bind_run by reflexivity. cbn beta iota.
  destruct (dict_get "exam_password_salt" (settings st)) as [| | | |s| |] eqn:E;
    try reflexivity; [discriminate Ts|now destruct (Hnot s)].
Qed.

(** X23. The migration of a settings file of the old format, where the
    password is kept in clear under [exam_password]: the entry is
    removed, the settings file is written from settings that no longer
    hold it, and the old password is the one accepted afterwards. *)
Theorem migrate_plain_password_keeps_password (st : SettingsState) (old_password : string)
    (hashed : bytes) :
  List.NoDup (dict_keys (settings st)) ->
  dict_lookup "exam_password" (settings st) = Some (JStr old_password) ->
  encode_utf8 (String.append old_password (hexlify (token_bytes (draws st)))) = Ok hashed ->
  let st' := snd (_migrate_plain_password st) in
  fst (_migrate_plain_password st) = Ok tt
  /\ dict_lookup "exam_password" (settings st') = None
  /\ disk st' = <[settings_file := fst (json_dump (settings st'))]> (disk st)
  /\ verify_exam_password old_password st' = (Ok true, st').
Proof.
  intros Hnd Hold Henc. unfold _migrate_plain_password.
  erewrite bind_run by reflexivity. cbn beta iota zeta. rewrite Hold. cbn [default].
  erewrite bind_run by (apply hash_fresh_run; exact Henc). cbn beta iota.
  set (salt := hexlify (token_bytes (draws st))).
  set (h := hexlify (sha256 hashed)).
  erewrite bind_run by reflexivity. cbn beta iota.
  erewrite bind_run by reflexivity. cbn beta iota.
  erewrite bind_run by reflexivity. cbn beta iota. cbn [settings set_setting modify snd].
  rewrite !dict_lookup_set_ne, Hold by discriminate.
  erewrite bind_run by reflexivity. cbn beta iota.
  match goal with |- context [bind save_settings _ ?s] =>
    destruct (save_settings_run s) as (saved & st' & E & Hs & Hd & Hf & _) end.
  erewrite bind_run by exact E. cbn beta iota.
  cbn [settings draws disk] in Hs, Hd, Hf.
  unfold print, modify. cbn [fst snd settings disk].
  assert (Hkeys : List.NoDup (dict_keys
            (dict_set "exam_password_salt" (JStr salt)
               (dict_set "exam_password_hash" (JStr h) (settings st)))))
    by (do 2 apply dict_keys_set_NoDup; exact Hnd).
  split; [reflexivity|]. split; [|split].
  - rewrite Hs. now apply dict_lookup_del_eq.
  - now rewrite Hf, Hs.
  - destruct (stored_lookup h salt (settings st)) as [Lh Ls]. cbn zeta in Lh, Ls.
    match goal with |- verify_exam_password _ ?s = _ =>
      rewrite (verify_stored s h salt old_password hashed) end.
    + unfold h. now rewrite String.eqb_refl.
    + cbn [settings]. rewrite Hs. unfold dict_get.
      rewrite dict_lookup_del_ne by discriminate. exact Lh.
    + cbn [settings]. rewrite Hs. unfold dict_get.
      rewrite dict_lookup_del_ne by discriminate. exact Ls.
    + apply hexlify_truth, sha256_digest_size.
    + apply hexlify_truth, token_bytes_length.
    + apply is_ascii_hexlify.
    + exact Henc.
Qed.

(** X24. An old-format password that is not a string (a number, as in
    ["exam_password": 1234]) stops the migration with [TypeError] after a
    salt was drawn: the settings keep the clear entry and no file is
    written.  [Settings.__init__] does not catch it. *)
Theorem migrate_raises_on_password_not_text (st : SettingsState) (old_password : json) :
  dict_lookup "exam_password" (settings st) = Some old_password ->
  (forall s, old_password <> JStr s) ->
  let st' := snd (_migrate_plain_password st) in
  fst (_migrate_plain_password st) = Raise TypeError
  /\ settings st' = settings st
  /\ disk st' = disk st
  /\ printed st' = printed st.
Proof.
  intros Hold Hnot. unfold _migrate_plain_password.
  erewrite bind_run by reflexivity. cbn beta iota zeta. rewrite Hold. cbn [default].
  destruct old_password as [| | | |s| |]; try (now destruct (Hnot s)); now cbn.
Qed.
End SettingsFacts.

(** ** Files named [.htm], and links *)

Section FormatFacts.
Context `{Platform} `{Qt} `{PyLib} `{Modules} `{Docx} `{Odf} `{Runtime}.

(** X25. The two dispatchers disagree on the extension [.htm]:
    [save_to_file] knows [.html] only and writes the plain text of the
    document, without its formatting, while [open_file] reads a [.htm]
    file as HTML.  A document saved under a [.htm] name and opened again
    is what the HTML importer makes of its plain text. *)
Theorem htm_saved_as_text_opened_as_html (filename : string) (w : World) (data : bytes) :
  endswith filename ".olc" = false ->
  endswith filename ".docx" = false ->
  endswith filename ".odt" = false ->
  endswith filename ".html" = false ->
  endswith filename ".htm" = true ->
  encode_utf8 (toPlainText (blocks (text_edit (window w)))) = Ok data ->
  decode_utf8 data = Ok (toPlainText (blocks (text_edit (window w)))) ->
  let '(saved, w1) := save_to_file filename w in
  saved = true
  /\ fs w1 !! filename = Some data
  /\ blocks (text_edit (window (open_file filename w1))) =
       fromHtml (toPlainText (blocks (text_edit (window w))))
  /\ dialogs (window (open_file filename w1)) = dialogs (window w).
Proof.
  intros Holc Hdocx Hodt Hhtml Hhtm Henc Hdec. unfold save_to_file.
  rewrite Holc, Hdocx, Hodt, Hhtml.
  erewrite bind_run.
  2: { erewrite bind_run by reflexivity. cbn beta iota zeta.
       rewrite (bind_run _ _ _ _ _ (open_wb_run _ _)). cbn beta iota zeta.
       rewrite (bind_run _ _ _ _ _ (lift_run _ _)), Henc. cbn beta iota zeta.
       apply f_write_run. }
  cbn beta iota zeta. unfold bind, modify, showMessage. cbn [fst snd].
  split; [reflexivity|]. split.
  { cbn [fs set_app window]. now rewrite lookup_insert_eq. }
  unfold open_file, try_except. rewrite Hdocx, Hodt, Hhtml, Hhtm. cbn [orb].
  erewrite (bind_run _ (fun _ => _)).
  2: { erewrite bind_run.
       2: { apply (read_file_run filename data). cbn [fs set_app window].
            rewrite !lookup_insert_eq. reflexivity. }
       cbn beta iota zeta.
       rewrite (bind_run _ _ _ _ _ (lift_run _ _)), Hdec. reflexivity. }
  cbn. split; reflexivity.
Qed.
End FormatFacts.

Section LinkFacts.
Context `{Browser}.

Lemma prefix_append (p s : string) : String.prefix p (String.append p s) = true.
Proof.
  induction p as [|c p IH]; [now destruct s|].
  rewrite append_cons. cbn [String.prefix]. destruct (ascii_dec c c); [exact IH|contradiction].
Qed.

(** X26. The address [open_hyperlink] hands to the browser is stable:
    a second pass leaves it as it is, so a link that was completed with
    [https://] is never completed twice.  The address starts with one of
    the four known schemes, or it is the text the user gave, which then
    holds no dot or starts with [mailto:]. *)
Theorem hyperlink_address_stable (url : string) :
  hyperlink_address (hyperlink_address url) = hyperlink_address url
  /\ open_hyperlink (hyperlink_address url) = open_hyperlink url
  /\ (String.prefix "http://" (hyperlink_address url)
      || String.prefix "https://" (hyperlink_address url)
      || String.prefix "ftp://" (hyperlink_address url)
      || String.prefix "file://" (hyperlink_address url) = true
      \/ (hyperlink_address url = url
          /\ (contains "." url = false \/ String.prefix "mailto:" url = true))).
Proof.
  assert (Hstable : hyperlink_address (hyperlink_address url) = hyperlink_address url).
  { unfold hyperlink_address.
    destruct (String.prefix "http://" url || String.prefix "https://" url
              || String.prefix "ftp://" url || String.prefix "file://" url) eqn:Es;
      cbn [negb]; [now rewrite Es|].
    destruct (contains "." url && negb (String.prefix "mailto:" url)) eqn:Ed.
    - rewrite (prefix_append "https://" url), orb_true_r. reflexivity.
    - now rewrite Es, Ed. }
  split; [exact Hstable|]. split; [unfold open_hyperlink; now rewrite Hstable|].
  unfold hyperlink_address.
  destruct (String.prefix "http://" url || String.prefix "https://" url
            || String.prefix "ftp://" url || String.prefix "file://" url) eqn:Es; cbn [negb].
  - left. exact Es.
  - destruct (contains "." url) eqn:Ec; cbn [andb].
    + destruct (String.prefix "mailto:" url) eqn:Em; cbn [negb].
      * right. split; [reflexivity|now right].
      * left. rewrite (prefix_append "https://" url). now rewrite orb_true_r.
    + right. split; [reflexivity|now left].
Qed.
End LinkFacts.

(** ** The properties above on sample inputs *)

Section ContainerSamples.
#[local] Existing Instances Demo.platform Demo.qt Demo.pylib Demo.docx Demo.odf Demo.runtime.

(** A file that ends two bytes after the magic. *)
Lemma load_olc_short_header_witness :
  let w : World := Demo.world Demo.hello_doc {[ "court.olc" := magic_OLC ++ [x00; x00] ]} in
  let filename : string := "court.olc" in
  let rest : bytes := [x00; x00] in
  let w' := load_olc filename w in
  (exists ds,
     dialogs (window w') =
       dialogs (window w) ++ ds
         ++ [Critical "Erreur" "Impossible de charger le fichier .olc:" StructError])
  /\ text_edit (window w') = text_edit (window w)
  /\ status (window w') = status (window w).
Proof.
  intros w filename rest.
  apply (load_olc_short_header w filename rest).
  - reflexivity.
  - cbn. lia.
Defined.

(** The container of an empty dictionary, opened over a document with a
    picture in its store. *)
Lemma load_olc_missing_entries_witness :
  let w : World := Demo.world Demo.picture_doc
             {[ "vide.olc" := magic_OLC ++ pack_f f32_one
                  ++ native_bytes 8 (Z.of_nat (length (gzip_compress (pickle_dumps (PyDict [])))))
                  ++ gzip_compress (pickle_dumps (PyDict [])) ++ [] ]} in
  let filename : string := "vide.olc" in
  let version_bytes : bytes := pack_f f32_one in
  let size_bytes : bytes := native_bytes 8 (Z.of_nat (length (gzip_compress (pickle_dumps (PyDict []))))) in
  let payload : bytes := gzip_compress (pickle_dumps (PyDict [])) in
  let trailing : bytes := [] in
  let serialized : bytes := pickle_dumps (PyDict []) in
  let d : list (string * pyval) := [] in
  let w' := load_olc filename w in
  blocks (text_edit (window w')) = fromHtml ""
  /\ resources (text_edit (window w')) = ∅
  /\ dialogs (window w') =
       dialogs (window w) ++ version_warning (native_value version_bytes)
  /\ exists file_size,
       status (window w') =
         status (window w) ++ [OlcLoaded file_size (PyStr "Date incon") (PyInt 0) 0].
Proof.
  intros w filename version_bytes size_bytes payload trailing serialized d.
  apply (load_olc_missing_entries w filename version_bytes size_bytes payload trailing serialized d).
  - reflexivity.
  - reflexivity.
  - reflexivity.
  - vm_compute. reflexivity.
  - reflexivity.
  - vm_compute. reflexivity.
  - reflexivity.
  - reflexivity.
  - reflexivity.
  - reflexivity.
Defined.



Lemma save_as_olc_layout_witness :
  let w : World := Demo.world Demo.picture_doc ∅ in
  let filename : string := "photo.olc" in
  let doc := text_edit (window w) in
  let snapshot := olc_data doc (isoformat_now (ticks w)) (isoformat_now (S (ticks w))) in
  let payload := gzip_compress (pickle_dumps snapshot) in
  let size := Z.of_nat (length payload) in
  let w' := save_as_olc filename w in
  fs w' = <[filename := magic_OLC ++ pack_f f32_one ++ native_bytes 8 size ++ payload]> (fs w)
  /\ status (window w') = status (window w) ++ [OlcSaved filename (16 + size)]
  /\ io_log w' =
       io_log w ++ [OpenWrite filename; Write filename magic_OLC;
                    Write filename (pack_f f32_one);
                    Write filename (native_bytes 8 size);
                    Write filename payload; GetSize filename]
  /\ text_edit (window w') = doc
  /\ dialogs (window w') = dialogs (window w).
Proof.
  intros w filename doc snapshot payload size.
  apply (save_as_olc_layout w filename).
  - vm_compute. reflexivity.
Defined.

(** A word-processor file renamed to [notes.olc]. *)
Lemma open_rejected_olc_then_save_witness :
  let _ := Demo.all_modules in
  let filename : string := "notes.olc" in
  let chosen : string := "" in
  let w : World := Demo.world Demo.hello_doc {[ "notes.olc" := Demo.two_paragraphs_file ]} in
  let content : bytes := Demo.two_paragraphs_file in
  let doc := text_edit (window w) in
  let snapshot := olc_data doc (isoformat_now (ticks w)) (isoformat_now (S (ticks w))) in
  let payload := gzip_compress (pickle_dumps snapshot) in
  let w1 := open_file filename w in
  text_edit (window w1) = doc
  /\ current_file (window w1) = Some filename
  /\ is_modified (window w1) = false
  /\ let '(saved, w2) := save_file chosen w1 in
     saved = true
     /\ fs w2 !! filename =
          Some (magic_OLC ++ pack_f f32_one
                  ++ native_bytes 8 (Z.of_nat (length payload)) ++ payload).
Proof.
  intros ? filename chosen w content doc snapshot payload.
  apply (open_rejected_olc_then_save filename chosen w content).
  - reflexivity.
  - reflexivity.
  - reflexivity.
  - reflexivity.
  - reflexivity.
  - reflexivity.
  - discriminate.
  - vm_compute. reflexivity.
Defined.

Lemma unsaved_docx_lost_on_open_witness :
  let _ := Demo.no_docx in
  let file : string := "lettre.docx" in
  let chosen : string := "" in
  let opened : string := "page.html" in
  let w : World := Samples.letter_world in
  let data : bytes := list_byte_of_string "Salut" in
  let html : string := "Salut" in
  let w' := open_file_command Save chosen opened w in
  blocks (text_edit (window w')) = fromHtml html
  /\ fs w' = fs w
  /\ dialogs (window w') = dialogs (window w) ++ [Warning "Module manquant" MissingDocx]
  /\ current_file (window w') = Some opened
  /\ is_modified (window w') = false.
Proof.
  intros ? file chosen opened w data html.
  apply (unsaved_docx_lost_on_open file chosen opened w data html).
  - reflexivity.
  - reflexivity.
  - reflexivity.
  - reflexivity.
  - reflexivity.
  - reflexivity.
  - reflexivity.
  - reflexivity.
  - reflexivity.
  - reflexivity.
Defined.

Lemma htm_saved_as_text_opened_as_html_witness :
  let _ := Demo.all_modules in
  let filename : string := "page.htm" in
  let w : World := Demo.world Demo.hello_doc ∅ in
  let data : bytes := list_byte_of_string "Bonjour" in
  let '(saved, w1) := save_to_file filename w in
  saved = true
  /\ fs w1 !! filename = Some data
  /\ blocks (text_edit (window (open_file filename w1))) =
       fromHtml (toPlainText (blocks (text_edit (window w))))
  /\ dialogs (window (open_file filename w1)) = dialogs (window w).
Proof.
  intros ? filename w data.
  apply (htm_saved_as_text_opened_as_html filename w data).
  - reflexivity.
  - reflexivity.
  - reflexivity.
  - reflexivity.
  - reflexivity.
  - reflexivity.
  - reflexivity.
Defined.

End ContainerSamples.

Section ExportSamples.
#[local] Existing Instances Demo.platform Demo.qt Demo.pylib Demo.docx Demo.odf Demo.runtime.

(** The centred title and the line with a link of [Demo.link_doc]. *)
Lemma build_docx_paragraphs_witness :
  let doc : QTextDocument := Demo.link_doc in
  exists docx,
    build_docx doc = Ok docx
    /\ length (docx_paragraphs docx) = length (blocks doc)
    /\ forall i block,
         blocks doc !! i = Some block ->
         exists paragraph,
           docx_paragraphs docx !! i = Some paragraph
           /\ paragraph_alignment paragraph =
                (if alignment block =? AlignCenter then 1
                 else if alignment block =? AlignRight then 2
                 else if alignment block =? AlignJustify then 3
                 else 0)
           /\ visible_text (paragraph_children paragraph) = block_export_text block.
Proof.
  intros doc.
  apply (build_docx_paragraphs doc).
  reflexivity.
Defined.

(** The two paragraphs of that document: the title centred, the line left
    aligned with the text of the link twice. *)
Example link_doc_paragraphs :
  exists docx,
    build_docx Demo.link_doc = Ok docx
    /\ map (fun p => (paragraph_alignment p, visible_text (paragraph_children p)))
         (docx_paragraphs docx)
       = [(1, "Adresses"); (0, "Voir sitesite ici")]
    /\ docx_relationships docx = ["https://example.org"].
Proof. eexists. repeat split; vm_compute; reflexivity. Qed.
End ExportSamples.

Section EncodingSamples.
#[local] Existing Instances Demo.platform Demo.qt Demo.pylib Demo.docx Demo.odf
  Samples.ascii_runtime.

(** A text the codec refuses, saved over an existing file. *)
Lemma save_to_file_html_failure_witness :
  let _ := Demo.all_modules in
  let filename : string := "page.html" in
  let w : World := Demo.world Samples.accented_doc {[ "page.html" := Demo.png ]} in
  let e : exn := LibError "UnicodeEncodeError" in
  let '(saved, w') := save_to_file filename w in
  saved = true
  /\ fs w' = <[filename := []]> (fs w)
  /\ dialogs (window w') =
       dialogs (window w) ++ [Critical "Erreur" "Impossible d'enregistrer en HTML:" e]
  /\ status (window w') = status (window w) ++ [FileSaved filename]
  /\ current_file (window w') = Some filename
  /\ is_modified (window w') = false.
Proof.
  intros ? filename w e.
  apply (save_to_file_html_failure filename w e).
  - reflexivity.
  - reflexivity.
  - reflexivity.
  - reflexivity.
  - reflexivity.
Defined.

Lemma save_to_file_text_failure_truncates_witness :
  let _ := Demo.all_modules in
  let filename : string := "notes.txt" in
  let w : World := Demo.world Samples.accented_doc {[ "notes.txt" := Demo.png ]} in
  let e : exn := LibError "UnicodeEncodeError" in
  let '(saved, w') := save_to_file filename w in
  saved = false
  /\ fs w' = <[filename := []]> (fs w)
  /\ current_file (window w') = current_file (window w)
  /\ is_modified (window w') = is_modified (window w)
  /\ status (window w') = status (window w).
Proof.
  intros ? filename w e.
  apply (save_to_file_text_failure_truncates filename w e).
  - reflexivity.
  - reflexivity.
  - reflexivity.
  - reflexivity.
  - reflexivity.
Defined.

End EncodingSamples.

Section ImportSamples.
#[local] Existing Instances Demo.platform Demo.qt Demo.pylib Samples.docx Samples.odf
  Demo.runtime.

Lemma load_docx_readable_witness :
  let _ := Demo.all_modules in
  let filename : string := "rapport.docx" in
  let content : bytes := Demo.two_paragraphs_file in
  let doc : list DocxParagraphIn := Samples.title_then_text in
  let w : World := Demo.world Demo.picture_doc {[ "rapport.docx" := Demo.two_paragraphs_file ]} in
  let w' := load_docx filename w in
  dialogs (window w') = dialogs (window w)
  /\ status (window w') = status (window w) ++ [DocxOpened filename]
  /\ fragments (snd (split_last (blocks (text_edit (window w'))))) = []
  /\ resources (text_edit (window w')) = ∅
  /\ (doc = [] -> blocks (text_edit (window w')) = [empty_block])
  /\ current_file (window w') = current_file (window w)
  /\ fs w' = fs w.
Proof.
  intros ? filename content doc w.
  apply (load_docx_readable filename content doc w).
  - reflexivity.
  - reflexivity.
  - reflexivity.
  - constructor; [|constructor; [|constructor]].
    + split; [eexists; reflexivity|]; (constructor; [|constructor]); repeat (split; [eexists; reflexivity|]); eexists; reflexivity.
    + split; [eexists; reflexivity|]; (constructor; [|constructor]); repeat (split; [eexists; reflexivity|]); eexists; reflexivity.
Defined.

(** A left-aligned paragraph read with the cursor in a centred block. *)
Lemma load_docx_paragraph_inherits_alignment_witness :
  let paragraph : DocxParagraphIn := {| in_alignment := Ok (Some WD_LEFT); in_runs := [Demo.run_in "Texte"] |} in
  let w : World := Demo.world
             {| blocks := [{| block_alignment := AlignCenter;
                              block_charFormat := QTextCharFormat_new;
                              fragments := [] |}];
                resources := ∅ |} ∅ in
  let doc := text_edit (window w) in
  let doc' := text_edit (window (snd (load_docx_paragraph paragraph w))) in
  exists new_blocks,
    blocks doc' = fst (split_last (blocks doc)) ++ new_blocks
    /\ (2 <= length new_blocks)%nat
    /\ Forall (fun b => block_alignment b = block_alignment (snd (split_last (blocks doc))))
         new_blocks.
Proof.
  intros paragraph w.
  apply (load_docx_paragraph_inherits_alignment paragraph w).
  - split; [eexists; reflexivity|]; (constructor; [|constructor]); repeat (split; [eexists; reflexivity|]); eexists; reflexivity.
  - right. reflexivity.
Defined.


(** The styles of a file as office suites write it: [office:styles] opens
    with default styles, which have no name; asking for it raises, the
    loops end there and the named styles that follow are not collected. *)
Example styles_after_default_style_dropped :
  let doc :=
    {| in_paragraphs := []; in_headings := [];
       in_automaticstyles := [OdfElement ("style", "style") [("name", "T1")] []];
       in_styles := [OdfElement ("style", "default-style") [("family", "paragraph")] [];
                     OdfElement ("style", "style") [("name", "Standard")] []] |} in
  map fst (collect_all_styles doc) = ["T1"].
Proof. reflexivity. Qed.
End ImportSamples.

Section TimerSamples.

(** The dialog as built, 25 minutes on the spin boxes. *)
Lemma countdown_alarm_after_zero_witness :
  let d : TimerDialog := TimerDialog_new in
  let k : nat := 2%nat in
  let T := spins_seconds d in
  let running := timeouts k (start_timer d) in
  let ended := timeouts (S (Z.to_nat T)) (start_timer d) in
  (remaining_seconds running = T - Z.of_nat k
   /\ ((0 < k)%nat -> timer_display running = hms (T - Z.of_nat k))
   /\ is_running running = true
   /\ timer running = true
   /\ message_boxes running = message_boxes d)
  /\ (message_boxes ended =
        message_boxes d ++ [TimerInformation "Temps écoulé !" "Le minuteur est terminé !"]
      /\ is_running ended = false
      /\ timer ended = false
      /\ remaining_seconds ended = 0
      /\ timer_display ended = "00:00:00"
      /\ spin_enabled (hours_spin ended) = true
      /\ spin_enabled (minutes_spin ended) = true
      /\ spin_enabled (seconds_spin ended) = true
      /\ btn_enabled (start_btn ended) = true
      /\ btn_enabled (pause_btn ended) = false).
Proof.
  intros d k T.
  apply (countdown_alarm_after_zero d k).
  - reflexivity.
  - reflexivity.
  - reflexivity.
  - vm_compute. discriminate.
Defined.

(** A countdown of 25 minutes, then the stopwatch tab. *)
Lemma stopwatch_tab_counts_up_witness :
  let d : TimerDialog := set_tabs 1 (start_timer TimerDialog_new) in
  let k : nat := 3%nat in
  let d' := timeouts k d in
  remaining_seconds d' = remaining_seconds d + Z.of_nat k
  /\ ((0 < k)%nat -> stopwatch_display d' = hms (remaining_seconds d + Z.of_nat k))
  /\ timer_display d' = timer_display d
  /\ timer d' = true
  /\ message_boxes d' = message_boxes d.
Proof.
  intros d k.
  apply (stopwatch_tab_counts_up d k).
  - reflexivity.
  - vm_compute. discriminate.
Defined.

Lemma last_minute_style_is_kept_witness :
  let events : list timer_event := [Clicked ResetButton; Clicked ExamButton; Clicked StartButton; Timeout] in
  let d : TimerDialog := set_timer_display_styleSheet LastMinuteDisplay TimerDialog_new in
  timer_display_styleSheet (fold_left handle events d) = LastMinuteDisplay.
Proof.
  intros events d.
  apply (last_minute_style_is_kept events d).
  - reflexivity.
Defined.

Lemma start_while_paused_restarts_witness :
  let d : TimerDialog := start_timer TimerDialog_new in
  let d' := handle (handle d (Clicked PauseButton)) (Clicked StartButton) in
  remaining_seconds d' = spins_seconds d
  /\ is_running d' = true
  /\ timer d' = true
  /\ btn_text (pause_btn d') = RESUME_TEXT.
Proof.
  intros d.
  apply (start_while_paused_restarts d).
  - reflexivity.
  - reflexivity.
  - reflexivity.
Defined.

End TimerSamples.

Section SettingsSamples.
#[local] Existing Instances Demo.runtime Samples.settings_lib.

Lemma set_then_verify_exam_password_witness :
  let st : SettingsState := Samples.fresh_install in
  let new_password : string := "examen2024" in
  let attempt : string := "devine" in
  let hashed : bytes := list_byte_of_string (String.append "examen2024" (hexlify (token_bytes 0))) in
  let tried : bytes := list_byte_of_string (String.append "devine" (hexlify (token_bytes 0))) in
  let salt := hexlify (token_bytes (draws st)) in
  let st1 := snd (set_exam_password new_password st) in
  fst (set_exam_password new_password st) = Ok tt
  /\ verify_exam_password new_password st1 = (Ok true, st1)
  /\ verify_exam_password attempt st1 =
       (Ok (String.eqb (hexlify (sha256 tried)) (hexlify (sha256 hashed))), st1).
Proof.
  intros st new_password attempt hashed tried salt.
  apply (set_then_verify_exam_password st new_password attempt hashed tried).
  - reflexivity.
  - reflexivity.
Defined.

(** The settings of a first start. *)
Lemma blank_hash_accepts_default_password_witness :
  let st : SettingsState := Samples.fresh_install in
  let hashed : bytes := list_byte_of_string (String.append DEFAULT_PASSWORD (hexlify (token_bytes 0))) in
  let st' := snd (verify_exam_password DEFAULT_PASSWORD st) in
  fst (verify_exam_password DEFAULT_PASSWORD st) = Ok true
  /\ dict_get "exam_password_hash" (settings st') = JStr (hexlify (sha256 hashed))
  /\ dict_get "exam_password_salt" (settings st') = JStr (hexlify (token_bytes (draws st)))
  /\ disk st' = <[settings_file := fst (json_dump (settings st'))]> (disk st).
Proof.
  intros st hashed.
  apply (blank_hash_accepts_default_password st hashed).
  - left. reflexivity.
  - reflexivity.
Defined.

Lemma verify_raises_on_salt_not_text_witness :
  let st : SettingsState := {| settings := dict_set "exam_password_salt" (JInt 7)
                             (dict_set "exam_password_hash" (JStr "ab12") DEFAULT_SETTINGS);
                 disk := ∅; draws := 0; printed := [] |} in
  let attempt : string := "devine" in
  verify_exam_password attempt st = (Raise TypeError, st).
Proof.
  intros st attempt.
  apply (verify_raises_on_salt_not_text st attempt).
  - reflexivity.
  - reflexivity.
  - intros s. discriminate.
Defined.

Lemma migrate_plain_password_keeps_password_witness :
  let st : SettingsState := Samples.with_entry "exam_password" (JStr "secret") in
  let old_password : string := "secret" in
  let hashed : bytes := list_byte_of_string (String.append "secret" (hexlify (token_bytes 0))) in
  let st' := snd (_migrate_plain_password st) in
  fst (_migrate_plain_password st) = Ok tt
  /\ dict_lookup "exam_password" (settings st') = None
  /\ disk st' = <[settings_file := fst (json_dump (settings st'))]> (disk st)
  /\ verify_exam_password old_password st' = (Ok true, st').
Proof.
  intros st old_password hashed.
  apply (migrate_plain_password_keeps_password st old_password hashed).
  - vm_compute. repeat constructor; cbn; intuition discriminate.
  - reflexivity.
  - reflexivity.
Defined.

Lemma migrate_raises_on_password_not_text_witness :
  let st : SettingsState := Samples.with_entry "exam_password" (JInt 1234) in
  let old_password : json := JInt 1234 in
  let st' := snd (_migrate_plain_password st) in
  fst (_migrate_plain_password st) = Raise TypeError
  /\ settings st' = settings st
  /\ disk st' = disk st
  /\ printed st' = printed st.
Proof.
  intros st old_password.
  apply (migrate_raises_on_password_not_text st old_password).
  - reflexivity.
  - intros s. discriminate.
Defined.

End SettingsSamples.
